(** * Self-Deploy: stack inference and GitLab CI pipeline synthesis

    A shallow embedding of the decision logic of the Self-Deploy analyzers:

    - [analyzers/tech_stack_detector.py]  (class [TechStackDetector]),
    - [analyzers/repository_analyzer.py]  (class [RepositoryAnalyzer]: the URL
      parser, the walk over the checkout, the recommendations and the
      confidence score),
    - [analyzers/pipeline_generator.py]   (class [PipelineGenerator]),

    followed by the properties of that logic.

    Modelling conventions.

    - A Python [str] is a [string]: the UTF-8 bytes of the text.  Character
      classes ([\s], [\d], [str.strip], [str.lower], [re.IGNORECASE]) are
      those of the ASCII range, where they coincide with Python's; bytes
      above 127 are left unchanged and belong to no class.
    - A Python [int] is a [Z].  A [dict] whose iteration order is observed is
      an association list in insertion order; a [set] of strings is a
      duplicate-free list, observed only through membership and [sorted].
    - An exception is a value [Raise e] of type [result]; [try/except]
      is [try_except].  Code that mutates an accumulator inside a [try]
      block runs in [Mut], where the accumulator survives the exception.
    - The file system and the two library parsers ([json.load],
      [xml.etree.ElementTree.parse]) are the fields of a [World].
      The checkout that [os.walk] lists is a [tree] of named directories,
      with POSIX paths.
    - The confidence score is a binary64 float ([PrimFloat]), as in the
      source.  The per-language percentage [round(lines / total * 100, 1)] is
      kept as an exact number of tenths ([decimal1]), computed from the exact
      quotient with Python's round-half-to-even. *)

From Stdlib Require Import Floats.PrimFloat.
From Stdlib Require Import ZArith NArith Ascii String List Bool Lia.
From Stdlib Require Import Permutation Sorted.
Import ListNotations.
Open Scope string_scope.
Set Warnings "-register-all,-inexact-float".

(* ================================================================== *)
(** * Python built-ins used by the analyzers *)
(* ================================================================== *)

Module Py.

(** The line feed and the double quote. *)
Definition LF : ascii := "010"%char.
Definition nl : string := String LF EmptyString.
Definition dq : string := String "034"%char EmptyString.

Definition code (c : ascii) : N := N_of_ascii c.

(** [str.isspace] on one character: TAB..CR, FS..US and the space. *)
Definition isspace (c : ascii) : bool :=
  let n := code c in
  ((9 <=? n) && (n <=? 13) || (28 <=? n) && (n <=? 32))%N.

(** [\d]: the decimal digits. *)
Definition isdigit (c : ascii) : bool :=
  let n := code c in ((48 <=? n) && (n <=? 57))%N.

Definition lower_char (c : ascii) : ascii :=
  let n := code c in
  if ((65 <=? n) && (n <=? 90))%N then ascii_of_N (n + 32) else c.

(** [s.lower()] *)
Fixpoint lower (s : string) : string :=
  match s with
  | EmptyString => EmptyString
  | String c s' => String (lower_char c) (lower s')
  end.

Fixpoint lstrip (s : string) : string :=
  match s with
  | EmptyString => EmptyString
  | String c s' => if isspace c then lstrip s' else s
  end.

Fixpoint rstrip (s : string) : string :=
  match s with
  | EmptyString => EmptyString
  | String c s' =>
      match rstrip s' with
      | EmptyString => if isspace c then EmptyString else String c EmptyString
      | t => String c t
      end
  end.

(** [s.strip()] *)
Definition strip (s : string) : string := rstrip (lstrip s).

(** Truth value of a [str]: non-empty. *)
Definition truthy (s : string) : bool := negb (s =? "").

(** Truth value of an [Optional[str]]: neither [None] nor empty. *)
Definition truthy_opt (o : option string) : bool :=
  match o with Some s => truthy s | None => false end.

(** [s.startswith(p)] *)
Definition startswith (s p : string) : bool := String.prefix p s.

(** [needle in hay] for two strings. *)
Fixpoint contains (needle hay : string) : bool :=
  String.prefix needle hay ||
  match hay with
  | EmptyString => false
  | String _ hay' => contains needle hay'
  end.

(** [x in l] for a list (or set) of strings. *)
Definition in_list (x : string) (l : list string) : bool :=
  existsb (String.eqb x) l.

(** [f.readlines()]: the lines of a text, each with its line feed. *)
Fixpoint readlines (s : string) : list string :=
  match s with
  | EmptyString => []
  | String c s' =>
      if Ascii.eqb c LF then nl :: readlines s'
      else match readlines s' with
           | [] => [String c EmptyString]
           | l :: ls => String c l :: ls
           end
  end.

(** [d.get(k)] on an association list. *)
Fixpoint dict_get {V : Type} (d : list (string * V)) (k : string) : option V :=
  match d with
  | [] => None
  | (k', v) :: d' => if k' =? k then Some v else dict_get d' k
  end.

(** [s.add(x)] on a set of strings. *)
Definition set_add (x : string) (s : list string) : list string :=
  if in_list x s then s else s ++ [x].

(** [s.update(t)] on sets of strings. *)
Definition set_update (s t : list string) : list string :=
  fold_left (fun acc x => set_add x acc) t s.

(** [sorted(l)] for strings: a stable insertion sort by code point order. *)
Fixpoint insert_sorted (x : string) (l : list string) : list string :=
  match l with
  | [] => [x]
  | y :: l' => if String.leb x y then x :: l else y :: insert_sorted x l'
  end.

Definition sorted (l : list string) : list string :=
  fold_right insert_sorted [] l.

(** ** Exceptions *)

Inductive exn : Set :=
| OSError | UnicodeDecodeError | JSONDecodeError | ParseError
| AttributeError | TypeError | ValueError | KeyError.

Inductive result (A : Type) : Type :=
| Ok (a : A)
| Raise (e : exn).
Arguments Ok {A} a.
Arguments Raise {A} e.

Definition bind {A B : Type} (m : result A) (k : A -> result B) : result B :=
  match m with
  | Ok a => k a
  | Raise e => Raise e
  end.

(** [try: body / except: handler], with a bare [except]. *)
Definition try_except {A : Type} (body handler : result A) : result A :=
  match body with
  | Ok a => Ok a
  | Raise _ => handler
  end.

(** Code that mutates an accumulator of type [S] and may raise: the
    accumulator is kept when an exception unwinds. *)
Definition Mut (S A : Type) : Type := S -> S * result A.

Definition mret {S A : Type} (a : A) : Mut S A := fun s => (s, Ok a).

Definition mbind {S A B : Type} (m : Mut S A) (k : A -> Mut S B) : Mut S B :=
  fun s =>
    match m s with
    | (s', Ok a) => k a s'
    | (s', Raise e) => (s', Raise e)
    end.

Definition lift {S A : Type} (r : result A) : Mut S A := fun s => (s, r).

Definition modify {S : Type} (f : S -> S) : Mut S unit :=
  fun s => (f s, Ok tt).

(** [for x in xs: body x] *)
Fixpoint for_each {S A : Type} (xs : list A) (body : A -> Mut S unit) : Mut S unit :=
  match xs with
  | [] => mret tt
  | x :: xs' => mbind (body x) (fun _ => for_each xs' body)
  end.

(** [try: body / except: pass] around code that mutates the accumulator. *)
Definition try_pass {S : Type} (body : Mut S unit) : Mut S unit :=
  fun s => (fst (body s), Ok tt).

End Py.

Import Py.

Declare Scope py_scope.
Delimit Scope py_scope with py.
Notation "x <- m ;; k" := (bind m (fun x => k))
  (at level 61, m at next level, right associativity) : py_scope.
Notation "x <~ m ;; k" := (mbind m (fun x => k))
  (at level 61, m at next level, right associativity) : py_scope.
Open Scope py_scope.

(* ================================================================== *)
(** * Regular expressions (module [re]) *)
(* ================================================================== *)

Module Re.

(** The fragment of Python's regular expressions the analyzers use.  Every
    pattern has at most one capturing group, [Group]. *)
Inductive regex : Type :=
| Empty                      (* the empty pattern *)
| Char (p : ascii -> bool)   (* one character of a class *)
| Cat (r1 r2 : regex)        (* r1 r2 *)
| Alt (r1 r2 : regex)        (* r1 | r2, r1 tried first *)
| Star (r : regex)           (* r*, greedy *)
| Group (r : regex)          (* ( r ), group 1 *)
| Eos.                       (* $ *)

Definition Plus (r : regex) : regex := Cat r (Star r).   (* r+ *)
Definition Opt (r : regex) : regex := Alt r Empty.       (* r? *)

Definition chr (c : ascii) : regex := Char (Ascii.eqb c).
(** A literal character under [re.IGNORECASE]. *)
Definition chr_i (c : ascii) : regex :=
  Char (fun x => Ascii.eqb (lower_char x) (lower_char c)).
Definition dot : regex := Char (fun c => negb (Ascii.eqb c LF)).   (* . *)
Definition space : regex := Char isspace.                          (* \s *)
Definition digit : regex := Char isdigit.                          (* \d *)
(** [[abc]] and [[^abc]] *)
Definition one_of (cs : string) : regex :=
  Char (fun c => existsb (Ascii.eqb c) (list_ascii_of_string cs)).
Definition none_of (cs : string) : regex :=
  Char (fun c => negb (existsb (Ascii.eqb c) (list_ascii_of_string cs))).

Fixpoint lit (s : string) : regex :=
  match s with
  | EmptyString => Empty
  | String c s' => Cat (chr c) (lit s')
  end.

Fixpoint lit_i (s : string) : regex :=
  match s with
  | EmptyString => Empty
  | String c s' => Cat (chr_i c) (lit_i s')
  end.

(** [$] holds at the end of the text and before a line feed that ends it. *)
Definition at_end (s : string) : bool := (s =? "") || (s =? nl).

(** The text consumed between a position [s] and a later position [s']. *)
Definition consumed (s s' : string) : string :=
  substring 0 (String.length s - String.length s') s.

Definition matched : Type := option (option string).
Definition cont : Type := string -> option string -> matched.

(** The loop of a greedy [r*]: one more [r] that consumes something, then
    the loop again; failing that, the continuation.  [step] matches [r]. *)
Fixpoint star_loop (step : string -> option string -> cont -> matched) (k : cont)
    (fuel : nat) (s : string) (g : option string) {struct fuel} : matched :=
  match fuel with
  | O => k s g
  | S fuel' =>
      match step s g
              (fun s' g' =>
                 if (String.length s' <? String.length s)%nat
                 then star_loop step k fuel' s' g' else None) with
      | Some m => Some m
      | None => k s g
      end
  end.

(** Backtracking matcher.  [rmatch r s g k] matches [r] at the start of [s],
    with [g] the text of group 1 so far, and hands the rest of the text to
    the continuation [k]; alternatives are tried in Python's order (greedy
    repetition first).  The result is [Some g] for a match whose group 1 is
    [g] ([None] inside when the group took no part). *)
Fixpoint rmatch (r : regex) (s : string) (g : option string) (k : cont)
    {struct r} : matched :=
  match r with
  | Empty => k s g
  | Char p =>
      match s with
      | String c s' => if p c then k s' g else None
      | EmptyString => None
      end
  | Cat r1 r2 => rmatch r1 s g (fun s' g' => rmatch r2 s' g' k)
  | Alt r1 r2 =>
      match rmatch r1 s g k with
      | Some m => Some m
      | None => rmatch r2 s g k
      end
  | Star r1 => star_loop (rmatch r1) k (String.length s) s g
  | Group r1 => rmatch r1 s g (fun s' _ => k s' (Some (consumed s s')))
  | Eos => if at_end s then k s g else None
  end.

Definition accept : cont := fun _ g => Some g.

(** [re.match(r, s)]: a match at the start of [s]. *)
Definition re_match (r : regex) (s : string) : matched :=
  rmatch r s None accept.

(** [re.search(r, s)]: the leftmost match. *)
Fixpoint re_search (r : regex) (s : string) : matched :=
  match re_match r s with
  | Some m => Some m
  | None =>
      match s with
      | EmptyString => None
      | String _ s' => re_search r s'
      end
  end.

(** [m.group(1)] of a match in which group 1 took part. *)
Definition group1 (m : option string) : string :=
  match m with Some g => g | None => "" end.

(** [re.split(r'[cs]', s)[0]]: the text before the first character of the
    class. *)
Fixpoint split_head (cs : string) (s : string) : string :=
  match s with
  | EmptyString => EmptyString
  | String c s' =>
      if existsb (Ascii.eqb c) (list_ascii_of_string cs) then EmptyString
      else String c (split_head cs s')
  end.

End Re.

Import Re.

(* ================================================================== *)
(** * Regular expressions with several groups *)
(* ================================================================== *)

Module Rx.

(** The fragment of Python's regular expressions that [_parse_repo_url]
    uses: numbered groups and the lazy repetition [r*?] beside the forms
    of [Re]. *)
Inductive regex : Type :=
| Empty                      (* the empty pattern *)
| Char (p : ascii -> bool)   (* one character of a class *)
| Cat (r1 r2 : regex)        (* r1 r2 *)
| Alt (r1 r2 : regex)        (* r1 | r2, r1 tried first *)
| Star (r : regex)           (* r*, greedy *)
| Lazy (r : regex)           (* r*?, lazy *)
| Group (n : nat) (r : regex) (* ( r ), group n *)
| Eos.                       (* $ *)

Definition Plus (r : regex) : regex := Cat r (Star r).       (* r+ *)
Definition LazyPlus (r : regex) : regex := Cat r (Lazy r).   (* r+? *)
Definition Opt (r : regex) : regex := Alt r Empty.           (* r? *)

Definition chr (c : ascii) : regex := Char (Ascii.eqb c).
(** [[^abc]] *)
Definition none_of (cs : string) : regex :=
  Char (fun c => negb (existsb (Ascii.eqb c) (list_ascii_of_string cs))).

Fixpoint lit (s : string) : regex :=
  match s with
  | EmptyString => Empty
  | String c s' => Cat (chr c) (lit s')
  end.

(** The groups of a match so far: number and text, the latest first. *)
Definition groups : Type := list (nat * string).
Definition matched : Type := option groups.
Definition cont : Type := string -> groups -> matched.

(** The loop of a greedy [r*]: one more [r] that consumes something, then
    the loop again; failing that, the continuation. *)
Fixpoint star_loop (step : string -> groups -> cont -> matched) (k : cont)
    (fuel : nat) (s : string) (g : groups) {struct fuel} : matched :=
  match fuel with
  | O => k s g
  | S fuel' =>
      match step s g
              (fun s' g' =>
                 if (String.length s' <? String.length s)%nat
                 then star_loop step k fuel' s' g' else None) with
      | Some m => Some m
      | None => k s g
      end
  end.

(** The loop of a lazy [r*?]: the continuation first; failing that, one
    more [r] that consumes something, then the loop again. *)
Fixpoint lazy_loop (step : string -> groups -> cont -> matched) (k : cont)
    (fuel : nat) (s : string) (g : groups) {struct fuel} : matched :=
  match k s g with
  | Some m => Some m
  | None =>
      match fuel with
      | O => None
      | S fuel' =>
          step s g
            (fun s' g' =>
               if (String.length s' <? String.length s)%nat
               then lazy_loop step k fuel' s' g' else None)
      end
  end.

(** Backtracking matcher, in Python's order of alternatives.  [g] holds
    the groups closed so far. *)
Fixpoint rmatch (r : regex) (s : string) (g : groups) (k : cont)
    {struct r} : matched :=
  match r with
  | Empty => k s g
  | Char p =>
      match s with
      | String c s' => if p c then k s' g else None
      | EmptyString => None
      end
  | Cat r1 r2 => rmatch r1 s g (fun s' g' => rmatch r2 s' g' k)
  | Alt r1 r2 =>
      match rmatch r1 s g k with
      | Some m => Some m
      | None => rmatch r2 s g k
      end
  | Star r1 => star_loop (rmatch r1) k (String.length s) s g
  | Lazy r1 => lazy_loop (rmatch r1) k (String.length s) s g
  | Group n r1 => rmatch r1 s g (fun s' g' => k s' ((n, consumed s s') :: g'))
  | Eos => if at_end s then k s g else None
  end.

Definition accept : cont := fun _ g => Some g.

(** [re.search(r, s)]: the leftmost match. *)
Fixpoint re_search (r : regex) (s : string) : matched :=
  match rmatch r s [] accept with
  | Some m => Some m
  | None =>
      match s with
      | EmptyString => None
      | String _ s' => re_search r s'
      end
  end.

(** [m.group(n)] of a match in which group [n] took part. *)
Fixpoint group (m : groups) (n : nat) : string :=
  match m with
  | [] => ""
  | (n', text) :: m' => if Nat.eqb n' n then text else group m' n
  end.

End Rx.

(* ================================================================== *)
(** * Parsed manifests and the outside world *)
(* ================================================================== *)

(** A value returned by [json.load].  The payload of a number is not
    observed by the analyzers. *)
Inductive json : Type :=
| JNull
| JBool (b : bool)
| JNumber (n : Z)
| JString (s : string)
| JArray (items : list json)
| JObject (members : list (string * json)).

(** An [xml.etree.ElementTree.Element]: tag (in Clark notation for
    namespaced names), text and children. *)
Inductive xml : Type :=
| Element (tag : string) (text : option string) (children : list xml).

Module Json.

(** [data.get(key, default)]: only a [dict] has the method. *)
Definition get (data : json) (key : string) (default : json) : result json :=
  match data with
  | JObject members =>
      match dict_get members key with
      | Some v => Ok v
      | None => Ok default
      end
  | _ => Raise AttributeError
  end.

(** A [dict] built by the analyzer: its entries in the order added.  Only
    membership of a key is ever asked of it. *)
Definition pydict : Type := list (json * json).

Definition hashable (k : json) : bool :=
  match k with
  | JArray _ | JObject _ => false
  | _ => true
  end.

(** One element of the sequence form of [dict.update]: an iterable of
    exactly two items, the first of them hashable. *)
Definition key_value (item : json) : result (json * json) :=
  match item with
  | JArray [k; v] => if hashable k then Ok (k, v) else Raise TypeError
  | JArray _ => Raise ValueError
  | JString (String c1 (String c2 EmptyString)) =>
      Ok (JString (String c1 EmptyString), JString (String c2 EmptyString))
  | JString _ => Raise ValueError
  | JObject [(k1, _); (k2, _)] => Ok (JString k1, JString k2)
  | JObject _ => Raise ValueError
  | JNull | JBool _ | JNumber _ => Raise TypeError
  end.

Fixpoint update_seq (d : pydict) (items : list json) : result pydict :=
  match items with
  | [] => Ok d
  | item :: items' =>
      kv <- key_value item ;;
      update_seq (d ++ [kv])%list items'
  end.

(** [d.update(other)] *)
Definition update (d : pydict) (other : json) : result pydict :=
  match other with
  | JObject members =>
      Ok (d ++ map (fun kv => (JString (fst kv), snd kv)) members)%list
  | JArray items => update_seq d items
  | JString s => update_seq d (map (fun c => JString (String c EmptyString))
                                   (list_ascii_of_string s))
  | JNull | JBool _ | JNumber _ => Raise TypeError
  end.

Definition is_str (s : string) (v : json) : bool :=
  match v with JString t => t =? s | _ => false end.

(** [key in d] for a string [key]. *)
Definition has_key (d : pydict) (key : string) : bool :=
  existsb (fun kv => is_str key (fst kv)) d.

(** [key in container] for a string [key] and a JSON value. *)
Definition contains_str (key : string) (container : json) : result bool :=
  match container with
  | JObject members =>
      Ok (match dict_get members key with Some _ => true | None => false end)
  | JArray items => Ok (existsb (is_str key) items)
  | JString s => Ok (contains key s)
  | JNull | JBool _ | JNumber _ => Raise TypeError
  end.

(** [container[key]] for a string [key]. *)
Definition getitem (container : json) (key : string) : result json :=
  match container with
  | JObject members =>
      match dict_get members key with
      | Some v => Ok v
      | None => Raise KeyError
      end
  | _ => Raise TypeError
  end.

(** A value passed where [re.search] expects a [str]. *)
Definition as_str (v : json) : result string :=
  match v with
  | JString s => Ok s
  | _ => Raise TypeError
  end.

End Json.

Module ET.

Definition tag (e : xml) : string := match e with Element t _ _ => t end.
Definition text (e : xml) : option string := match e with Element _ t _ => t end.
Definition children (e : xml) : list xml := match e with Element _ _ c => c end.

(** All elements below [e], in document order. *)
Fixpoint descendants (e : xml) : list xml :=
  match e with
  | Element _ _ cs => flat_map (fun c => c :: descendants c) cs
  end.

(** [e.findall('.//t')] and [e.find('.//t')] *)
Definition findall_deep (e : xml) (t : string) : list xml :=
  filter (fun x => tag x =? t) (descendants e).
Definition find_deep (e : xml) (t : string) : option xml :=
  find (fun x => tag x =? t) (descendants e).

(** [e.find('t')]: the first child with that tag. *)
Definition find_child (e : xml) (t : string) : option xml :=
  find (fun x => tag x =? t) (children e).

(** Truth value of an [Optional[Element]]: an element is true when it
    has children. *)
Definition truthy (o : option xml) : bool :=
  match o with
  | Some e => match children e with [] => false | _ => true end
  | None => false
  end.

(** [a or b] on two [Optional[Element]] values. *)
Definition or_else (a b : option xml) : option xml :=
  if truthy a then a else b.

(** The Maven POM namespace, and a tag in it. *)
Definition maven_ns : string := "http://maven.apache.org/POM/4.0.0".
Definition maven (t : string) : string := "{" ++ maven_ns ++ "}" ++ t.

End ET.

(** What the analyzers read from outside: the file system ([os.path],
    [open]) and the two library parsers.  A field returns [Raise] where the
    call raises. *)
Record World : Type := {
  path_exists : string -> bool;               (* os.path.exists(p) *)
  getsize : string -> result Z;               (* os.path.getsize(p) *)
  read_text : string -> result string;        (* open(p, 'r', encoding='utf-8').read() *)
  read_text_ignore : string -> result string; (* the same with errors='ignore' *)
  json_loads : string -> result json;         (* json.load on the text read *)
  et_parse : string -> result xml             (* ET.parse(p).getroot() *)
}.

(** One entry of the file list built by the repository walk. *)
Inductive file_type : Set := file | directory.

Record file_info : Type := {
  name : string;
  type : file_type;
  path : string;
  full_path : string;
  extension : option string;   (* files only *)
  size : option Z              (* files only *)
}.

(** A number with one decimal place, [tenths / 10]: the value of
    [round(x, 1)]. *)
Record decimal1 : Set := { tenths : Z }.

(** ['lines'] and ['percentage'] of one language. *)
Record LanguageStat : Set := {
  lines : Z;
  percentage : decimal1
}.

Record VersionInfo : Set := {
  language_version : string;
  framework_versions : list (string * string)
}.

(** The dictionary returned by [detect_tech_stack]. *)
Record TechStack : Set := {
  primary_language : string;
  language_stats : list (string * LanguageStat);
  version_info : VersionInfo;
  frameworks : list string;
  build_tools : list string;
  package_managers : list string;
  has_tests : bool;
  has_dockerfile : bool
}.

(* ================================================================== *)
(** * analyzers/tech_stack_detector.py *)
(* ================================================================== *)

Module TechStackDetector.

Definition language_extensions : list (string * string) :=
  [ (".js", "JavaScript"); (".jsx", "JavaScript");
    (".ts", "TypeScript"); (".tsx", "TypeScript");
    (".mjs", "JavaScript"); (".cjs", "JavaScript");
    (".py", "Python"); (".pyw", "Python"); (".pyx", "Python");
    (".java", "Java"); (".kt", "Kotlin"); (".kts", "Kotlin");
    (".go", "Go");
    (".rs", "Rust"); (".cpp", "C++"); (".cc", "C++"); (".cxx", "C++");
    (".c", "C"); (".h", "C/C++"); (".hpp", "C++"); (".cs", "C#");
    (".php", "PHP"); (".rb", "Ruby"); (".swift", "Swift");
    (".scala", "Scala"); (".dart", "Dart") ].

Definition default_versions : list (string * string) :=
  [ ("Java", "11"); ("Kotlin", "1.8"); ("Go", "1.19");
    ("TypeScript", "5.0"); ("JavaScript", "ES2022"); ("Python", "3.9") ].

(** ** Counting lines *)

(** [sum(1 for line in lines if line.strip())] *)
Definition significant (lines : list string) : Z :=
  Z.of_nat (List.length (filter (fun line => truthy (strip line)) lines)).

Definition _count_file_lines (w : World) (file_info : file_info)
    (project_dir : option string) : result Z :=
  try_except
    (if truthy_opt project_dir && truthy (full_path file_info) then
       let file_path := full_path file_info in
       if negb (path_exists w file_path) then Ok 0%Z
       else
         sz <- getsize w file_path ;;
         if (1024 * 1024 <? sz)%Z then Ok 0%Z
         else
           content <- read_text_ignore w file_path ;;
           let lines := readlines content in
           let significant_lines := significant lines in
           Ok significant_lines
     else Ok 0%Z)
    (Ok 0%Z).

(** [language_lines[language] += n] on a [defaultdict(int)]. *)
Fixpoint add_lines (language : string) (n : Z) (language_lines : list (string * Z))
    : list (string * Z) :=
  match language_lines with
  | [] => [(language, (0 + n)%Z)]
  | (l, m) :: rest =>
      if l =? language then (l, (m + n)%Z) :: rest
      else (l, m) :: add_lines language n rest
  end.

(** The accumulation loop of [_count_lines_by_language]. *)
Fixpoint count_loop (w : World) (project_dir : option string)
    (file_structure : list file_info)
    (language_lines : list (string * Z)) (total_lines : Z)
    : result (list (string * Z) * Z) :=
  match file_structure with
  | [] => Ok (language_lines, total_lines)
  | file_info :: rest =>
      match type file_info with
      | directory => count_loop w project_dir rest language_lines total_lines
      | file =>
          let extension :=
            lower (match extension file_info with Some e => e | None => "" end) in
          match dict_get language_extensions extension with
          | None => count_loop w project_dir rest language_lines total_lines
          | Some language =>
              lines_count <- _count_file_lines w file_info project_dir ;;
              if (0 <? lines_count)%Z then
                count_loop w project_dir rest
                  (add_lines language lines_count language_lines)
                  (total_lines + lines_count)%Z
              else count_loop w project_dir rest language_lines total_lines
          end
      end
  end.

(** Python's [round] to an integer, half to even, of [num / den]. *)
Definition round_half_even (num den : Z) : Z :=
  let q := (num / den)%Z in
  let r := (num mod den)%Z in
  if (2 * r <? den)%Z then q
  else if (den <? 2 * r)%Z then (q + 1)%Z
  else if Z.even q then q else (q + 1)%Z.

(** [round((lines / total_lines) * 100, 1)] *)
Definition percent (lines total_lines : Z) : decimal1 :=
  {| tenths := round_half_even (1000 * lines) total_lines |}.

(** [sorted(items, key=lambda x: x[1]['lines'], reverse=True)]: stable, so
    languages with equal counts keep their order. *)
Fixpoint insert_by_lines (x : string * LanguageStat)
    (l : list (string * LanguageStat)) : list (string * LanguageStat) :=
  match l with
  | [] => [x]
  | y :: l' =>
      if (lines (snd y) <=? lines (snd x))%Z then x :: l
      else y :: insert_by_lines x l'
  end.

Definition sort_by_lines (items : list (string * LanguageStat))
    : list (string * LanguageStat) :=
  fold_right insert_by_lines [] items.

(** The statistics computed from the accumulated counts. *)
Definition stats_of (language_lines : list (string * Z)) (total_lines : Z)
    : list (string * LanguageStat) :=
  if (0 <? total_lines)%Z then
    map (fun kv => (fst kv, {| lines := snd kv;
                               percentage := percent (snd kv) total_lines |}))
        language_lines
  else [].

Definition _count_lines_by_language (w : World)
    (file_structure : list file_info) (project_dir : option string)
    : result (list (string * LanguageStat)) :=
  acc <- count_loop w project_dir file_structure [] 0%Z ;;
  let language_lines := fst acc in
  let total_lines := snd acc in
  let language_stats := stats_of language_lines total_lines in
  Ok (sort_by_lines language_stats).

(** ** Primary language *)

Definition exclude_languages : list string :=
  ["JSON"; "YAML"; "XML"; "Markdown"; "HTML"; "CSS"].

(** The [for] loop of [_detect_primary_language]: the first language of
    the dictionary that is not excluded. *)
Fixpoint first_not_excluded (items : list (string * LanguageStat)) : option string :=
  match items with
  | [] => None
  | (language, _) :: rest =>
      if negb (in_list language exclude_languages) then Some language
      else first_not_excluded rest
  end.

Definition _detect_primary_language (language_stats : list (string * LanguageStat))
    : string :=
  match language_stats with
  | [] => "Unknown"
  | (first, _) :: _ =>
      match first_not_excluded language_stats with
      | Some language => language
      | None => first
      end
  end.

(** ** Locating a manifest *)

Fixpoint _find_file (file_structure : list file_info) (filename : string)
    : option string :=
  match file_structure with
  | [] => None
  | file_info :: rest =>
      if name file_info =? filename then Some (full_path file_info)
      else _find_file rest filename
  end.

(** ** Version hints *)

(** [r1 r2 ... rn] *)
Definition seq (rs : list regex) : regex := fold_right Cat Empty rs.

(** The class of the two quote characters, written [Q] below. *)
Definition quote : regex := one_of (dq ++ "'").

(** [\d+(?:\.\d+)?] *)
Definition major_minor_opt : regex :=
  seq [Plus digit; Opt (seq [chr "."; Plus digit])].

(** [sourceCompatibility\s*=\s*Q?(\d+(?:\.\d+)?)Q?] *)
Definition source_compatibility_re : regex :=
  seq [lit "sourceCompatibility"; Star space; chr "="; Star space;
       Opt quote; Group major_minor_opt; Opt quote].

(** [JavaVersion\.VERSION_(\d+)] *)
Definition java_version_re : regex :=
  seq [lit "JavaVersion.VERSION_"; Group (Plus digit)].

(** [go\s+(\d+\.\d+(?:\.\d+)?)] *)
Definition go_version_re : regex :=
  seq [lit "go"; Plus space;
       Group (seq [Plus digit; chr "."; Plus digit;
                   Opt (seq [chr "."; Plus digit])])].

(** [requires-python\s*=\s*Q([^Q]+)Q] *)
Definition requires_python_re : regex :=
  seq [lit "requires-python"; Star space; chr "="; Star space;
       quote; Group (Plus (none_of (dq ++ "'"))); quote].

(** [(\d+\.\d+)] *)
Definition major_minor_re : regex :=
  Group (seq [Plus digit; chr "."; Plus digit]).

(** [(\d+(?:\.\d+)?)] *)
Definition node_version_re : regex := Group major_minor_opt.

Definition _extract_java_version_from_pom (w : World) (file_path : string)
    : result (option string) :=
  try_except
    (root <- et_parse w file_path ;;
     let properties :=
       ET.or_else (ET.find_deep root (ET.maven "properties"))
                  (ET.find_deep root "properties") in
     match properties with
     | Some properties =>
         match find (fun prop => contains "java.version" (ET.tag prop)
                                 || contains "maven.compiler.source" (ET.tag prop))
                    (ET.children properties) with
         | Some prop => Ok (ET.text prop)
         | None => Ok None
         end
     | None => Ok None
     end)
    (Ok None).

Definition _extract_java_version_from_gradle (w : World) (file_path : string)
    : result (option string) :=
  try_except
    (content <- read_text w file_path ;;
     match re_search source_compatibility_re content with
     | Some m => Ok (Some (group1 m))
     | None =>
         match re_search java_version_re content with
         | Some m => Ok (Some (group1 m))
         | None => Ok None
         end
     end)
    (Ok None).

Definition _extract_go_version (w : World) (file_path : string)
    : result (option string) :=
  try_except
    (content <- read_text w file_path ;;
     match re_search go_version_re content with
     | Some m => Ok (Some (group1 m))
     | None => Ok None
     end)
    (Ok None).

Definition _extract_python_version_from_pyproject (w : World) (file_path : string)
    : result (option string) :=
  try_except
    (content <- read_text w file_path ;;
     match re_search requires_python_re content with
     | Some m =>
         let version_spec := group1 m in
         match re_search major_minor_re version_spec with
         | Some version_match => Ok (Some (group1 version_match))
         | None => Ok None
         end
     | None => Ok None
     end)
    (Ok None).

Definition _extract_node_version (w : World) (file_path : string)
    : result (option string) :=
  try_except
    (text <- read_text w file_path ;;
     data <- json_loads w text ;;
     engines <- Json.get data "engines" (JObject []) ;;
     has_node <- Json.contains_str "node" engines ;;
     if has_node then
       node_version <- Json.getitem engines "node" ;;
       node_version <- Json.as_str node_version ;;
       match re_search node_version_re node_version with
       | Some version_match => Ok (Some (group1 version_match))
       | None => Ok None
       end
     else Ok None)
    (Ok None).

(** [version_info['language_version'] = v] *)
Definition set_language_version (v : string) (vi : VersionInfo) : VersionInfo :=
  {| language_version := v; framework_versions := framework_versions vi |}.

(** [if path and project_dir: v = extract(path); if v: override]. *)
Definition override_from (extract : string -> result (option string))
    (manifest_path project_dir : option string) (vi : VersionInfo)
    : result VersionInfo :=
  match manifest_path with
  | Some p =>
      if truthy p && truthy_opt project_dir then
        v <- extract p ;;
        if truthy_opt v then
          Ok (set_language_version (match v with Some s => s | None => "" end) vi)
        else Ok vi
      else Ok vi
  | None => Ok vi
  end.

Definition _detect_versions (w : World) (file_structure : list file_info)
    (project_dir : option string) (primary_language : string)
    : result VersionInfo :=
  let version_info :=
    {| language_version :=
         match dict_get default_versions primary_language with
         | Some v => v
         | None => "latest"
         end;
       framework_versions := [] |} in
  if primary_language =? "Java" then
    let pom_path := _find_file file_structure "pom.xml" in
    version_info <- override_from (_extract_java_version_from_pom w)
                      pom_path project_dir version_info ;;
    let gradle_path := _find_file file_structure "build.gradle" in
    override_from (_extract_java_version_from_gradle w)
      gradle_path project_dir version_info
  else if primary_language =? "Go" then
    let go_mod_path := _find_file file_structure "go.mod" in
    override_from (_extract_go_version w) go_mod_path project_dir version_info
  else if primary_language =? "Python" then
    let pyproject_path := _find_file file_structure "pyproject.toml" in
    override_from (_extract_python_version_from_pyproject w)
      pyproject_path project_dir version_info
  else if in_list primary_language ["TypeScript"; "JavaScript"] then
    let package_json_path := _find_file file_structure "package.json" in
    override_from (_extract_node_version w)
      package_json_path project_dir version_info
  else Ok version_info.

(** ** Frameworks *)

(** [for key, name in mapping.items(): if test(key): frameworks.add(name)] *)
Definition add_matching (mapping : list (string * string)) (test : string -> bool)
    : Mut (list string) unit :=
  for_each mapping
    (fun kv => if test (fst kv) then modify (set_add (snd kv)) else mret tt).

(** [frameworks = set(); try: body; except: pass; return frameworks] *)
Definition collect (body : Mut (list string) unit) : result (list string) :=
  let frameworks := [] in
  let run := try_pass body frameworks in
  _ <- snd run ;;
  Ok (fst run).

Definition package_json_mapping : list (string * string) :=
  [ ("react", "React"); ("@types/react", "React"); ("react-dom", "React");
    ("react-scripts", "React"); ("next", "Next.js"); ("nuxt", "Nuxt.js");
    ("vue", "Vue.js"); ("@vue/cli", "Vue.js"); ("@angular/core", "Angular");
    ("svelte", "Svelte"); ("express", "Express.js"); ("koa", "Koa");
    ("fastify", "Fastify"); ("@nestjs/core", "NestJS");
    ("typescript", "TypeScript"); ("webpack", "Webpack"); ("vite", "Vite");
    ("jest", "Jest"); ("mocha", "Mocha"); ("cypress", "Cypress") ].

Definition _analyze_package_json (w : World) (file_path : string)
    : result (list string) :=
  collect
    (dependencies <~ lift
       (text <- read_text w file_path ;;
        data <- json_loads w text ;;
        let dependencies : Json.pydict := [] in
        deps <- Json.get data "dependencies" (JObject []) ;;
        dependencies <- Json.update dependencies deps ;;
        dev_deps <- Json.get data "devDependencies" (JObject []) ;;
        Json.update dependencies dev_deps) ;;
     add_matching package_json_mapping
       (fun dep_name => Json.has_key dependencies dep_name)).

Definition requirements_mapping : list (string * string) :=
  [ ("django", "Django"); ("flask", "Flask"); ("fastapi", "FastAPI");
    ("tornado", "Tornado"); ("sanic", "Sanic"); ("starlette", "Starlette");
    ("aiohttp", "aiohttp"); ("streamlit", "Streamlit"); ("pandas", "Pandas");
    ("numpy", "NumPy"); ("tensorflow", "TensorFlow"); ("pytorch", "PyTorch");
    ("torch", "PyTorch"); ("pytest", "pytest"); ("unittest", "unittest") ].

Definition _analyze_requirements_txt (w : World) (file_path : string)
    : result (list string) :=
  collect
    (lines <~ lift (content <- read_text w file_path ;; Ok (readlines content)) ;;
     for_each lines
       (fun line =>
          let line := lower (strip line) in
          if truthy line && negb (startswith line "#") then
            let package_name := strip (split_head "><=!" line) in
            add_matching requirements_mapping
              (fun framework_key => contains framework_key package_name)
          else mret tt)).

Definition pyproject_mapping : list (string * string) :=
  [ ("django", "Django"); ("flask", "Flask"); ("fastapi", "FastAPI");
    ("poetry", "Poetry") ].

Definition _analyze_pyproject_toml (w : World) (file_path : string)
    : result (list string) :=
  collect
    (content <~ lift (read_text w file_path) ;;
     add_matching pyproject_mapping
       (fun framework_key => contains framework_key (lower content))).

Definition pom_mapping : list (string * string) :=
  [ ("spring-boot", "Spring Boot"); ("spring-core", "Spring Framework");
    ("spring-web", "Spring Web"); ("hibernate", "Hibernate");
    ("junit", "JUnit"); ("mockito", "Mockito") ].

Definition _analyze_pom_xml (w : World) (file_path : string)
    : result (list string) :=
  collect
    (root <~ lift (et_parse w file_path) ;;
     let dependencies :=
       match ET.findall_deep root (ET.maven "dependency") with
       | [] => ET.findall_deep root "dependency"
       | found => found
       end in
     for_each dependencies
       (fun dependency =>
          let artifact_id :=
            ET.or_else (ET.find_child dependency "artifactId")
                       (ET.find_deep dependency (ET.maven "artifactId")) in
          match artifact_id with
          | Some artifact_id =>
              (* artifact_id.text.lower(): the text may be None *)
              text <~ lift (match ET.text artifact_id with
                            | Some t => Ok t
                            | None => Raise AttributeError
                            end) ;;
              let artifact_name := lower text in
              add_matching pom_mapping
                (fun framework_key => contains framework_key artifact_name)
          | None => mret tt
          end)).

Definition gradle_mapping : list (string * string) :=
  [ ("spring-boot", "Spring Boot"); ("spring", "Spring Framework");
    ("hibernate", "Hibernate"); ("junit", "JUnit"); ("kotlin", "Kotlin") ].

Definition _analyze_gradle (w : World) (file_path : string)
    : result (list string) :=
  collect
    (content <~ lift (read_text w file_path) ;;
     add_matching gradle_mapping
       (fun framework_key => contains framework_key (lower content))).

Definition go_mod_mapping : list (string * string) :=
  [ ("gin-gonic/gin", "Gin"); ("gorilla/mux", "Gorilla Mux");
    ("labstack/echo", "Echo"); ("fiber", "Fiber"); ("gorm.io/gorm", "GORM");
    ("go-chi/chi", "Chi") ].

Definition _analyze_go_mod (w : World) (file_path : string)
    : result (list string) :=
  collect
    (content <~ lift (read_text w file_path) ;;
     add_matching go_mod_mapping
       (fun framework_key => contains framework_key content)).

Definition _analyze_by_file_structure (file_structure : list file_info)
    : list string :=
  let frameworks := [] in
  let file_paths :=
    map path (filter (fun f => match type f with file => true | directory => false end)
                     file_structure) in
  let frameworks :=
    if existsb (fun path => contains ".jsx" path || contains ".tsx" path) file_paths
    then set_add "React" frameworks else frameworks in
  let frameworks :=
    if existsb (fun path => contains ".vue" path) file_paths
    then set_add "Vue.js" frameworks else frameworks in
  let frameworks :=
    if existsb (fun path => contains "manage.py" path || contains "settings.py" path)
               file_paths
    then set_add "Django" frameworks else frameworks in
  frameworks.

(** [if path and project_dir: frameworks.update(analyze(path))] *)
Definition update_from (analyze : string -> result (list string))
    (manifest_path project_dir : option string) (frameworks : list string)
    : result (list string) :=
  match manifest_path with
  | Some p =>
      if truthy p && truthy_opt project_dir then
        found <- analyze p ;;
        Ok (set_update frameworks found)
      else Ok frameworks
  | None => Ok frameworks
  end.

Definition _detect_frameworks (w : World) (file_structure : list file_info)
    (project_dir : option string) (primary_language : string)
    : result (list string) :=
  let frameworks := [] in
  frameworks <-
    (if in_list primary_language ["JavaScript"; "TypeScript"] then
       let package_json_path := _find_file file_structure "package.json" in
       update_from (_analyze_package_json w) package_json_path project_dir frameworks
     else if primary_language =? "Python" then
       let requirements_path := _find_file file_structure "requirements.txt" in
       frameworks <- update_from (_analyze_requirements_txt w)
                       requirements_path project_dir frameworks ;;
       let pyproject_path := _find_file file_structure "pyproject.toml" in
       update_from (_analyze_pyproject_toml w) pyproject_path project_dir frameworks
     else if in_list primary_language ["Java"; "Kotlin"] then
       let pom_xml_path := _find_file file_structure "pom.xml" in
       frameworks <- update_from (_analyze_pom_xml w)
                       pom_xml_path project_dir frameworks ;;
       let gradle_path := _find_file file_structure "build.gradle" in
       update_from (_analyze_gradle w) gradle_path project_dir frameworks
     else if primary_language =? "Go" then
       let go_mod_path := _find_file file_structure "go.mod" in
       update_from (_analyze_go_mod w) go_mod_path project_dir frameworks
     else Ok frameworks) ;;
  let file_based_frameworks := _analyze_by_file_structure file_structure in
  let frameworks := set_update frameworks file_based_frameworks in
  Ok (sorted frameworks).

(** ** Build tools, tests, Dockerfile *)

Definition is_file (f : file_info) : bool :=
  match type f with file => true | directory => false end.

Definition build_tool_mapping : list (string * string) :=
  [ ("package.json", "npm"); ("yarn.lock", "yarn"); ("pnpm-lock.yaml", "pnpm");
    ("requirements.txt", "pip"); ("pyproject.toml", "poetry");
    ("Pipfile", "pipenv"); ("pom.xml", "maven"); ("build.gradle", "gradle");
    ("build.gradle.kts", "gradle"); ("Cargo.toml", "cargo"); ("go.mod", "go");
    ("Makefile", "make"); ("webpack.config.js", "webpack");
    ("vite.config.js", "vite"); ("vite.config.ts", "vite") ].

Definition _detect_build_tools (file_structure : list file_info) : list string :=
  let tools :=
    fold_left
      (fun tools file_info =>
         if is_file file_info then
           match dict_get build_tool_mapping (name file_info) with
           | Some tool => set_add tool tools
           | None => tools
           end
         else tools)
      file_structure [] in
  sorted tools.

Definition _detect_package_managers (build_tools : list string) : list string :=
  build_tools.

(** [pre.*suf$] under [re.IGNORECASE], the shape of every test pattern. *)
Definition wild (pre suf : string) : regex :=
  seq [lit_i pre; Star dot; lit_i suf; Eos].

Definition test_patterns : list regex :=
  [ wild "test" ".py";      (* test.*\.py$ *)
    wild "" "_test.py";     (* .*_test\.py$ *)
    wild "" ".test.js";     (* .*\.test\.js$ *)
    wild "" ".spec.js";     (* .*\.spec\.js$ *)
    wild "" ".test.ts";     (* .*\.test\.ts$ *)
    wild "" ".spec.ts";     (* .*\.spec\.ts$ *)
    wild "" "Test.java";    (* .*Test\.java$ *)
    wild "" "_test.go";     (* .*_test\.go$ *)
    wild "test_" ".py";     (* test_.*\.py$ *)
    wild "" ".test.jsx";    (* .*\.test\.jsx$ *)
    wild "" ".spec.tsx" ].  (* .*\.spec\.tsx$ *)

Definition test_directories : list string :=
  ["test"; "tests"; "__tests__"; "spec"; "specs"].

(** The first inner loop of [_check_tests]: some pattern matches the name. *)
Definition name_matches (name : string) : bool :=
  existsb (fun pattern => match re_match pattern name with
                          | Some _ => true
                          | None => false
                          end)
          test_patterns.

(** The second inner loop: the path has [/d/] inside or starts with [/d]. *)
Definition path_matches (path : string) : bool :=
  existsb (fun test_dir => contains ("/" ++ test_dir ++ "/") path
                           || startswith path ("/" ++ test_dir))
          test_directories.

Definition _check_tests (file_structure : list file_info) : bool :=
  existsb (fun file_info => name_matches (name file_info)
                            || path_matches (path file_info))
          file_structure.

Definition dockerfile_names : list string :=
  ["Dockerfile"; "dockerfile"; "Dockerfile.prod"; "Dockerfile.dev"].

Definition _check_dockerfile (file_structure : list file_info) : bool :=
  existsb (fun file_info => is_file file_info
                            && in_list (name file_info) dockerfile_names)
          file_structure.

(** ** The detector *)

Definition detect_tech_stack (w : World) (file_structure : list file_info)
    (project_dir : option string) : result TechStack :=
  language_stats <- _count_lines_by_language w file_structure project_dir ;;
  let primary_language := _detect_primary_language language_stats in
  version_info <- _detect_versions w file_structure project_dir primary_language ;;
  frameworks <- _detect_frameworks w file_structure project_dir primary_language ;;
  let build_tools := _detect_build_tools file_structure in
  let package_managers := _detect_package_managers build_tools in
  let has_tests := _check_tests file_structure in
  let has_dockerfile := _check_dockerfile file_structure in
  Ok {| primary_language := primary_language;
        language_stats := language_stats;
        version_info := version_info;
        frameworks := frameworks;
        build_tools := build_tools;
        package_managers := package_managers;
        has_tests := has_tests;
        has_dockerfile := has_dockerfile |}.

End TechStackDetector.

(* ================================================================== *)
(** * analyzers/repository_analyzer.py *)
(* ================================================================== *)

(** The [repo_info] dictionary of a parsed repository URL. *)
Module Repository.
Record t : Set := {
  url : string;
  platform : string;
  owner : string;
  name : string;
  full_name : string
}.
End Repository.

(** The dictionary returned by [analyze_repository]. *)
Record AnalysisResult : Type := {
  repository : Repository.t;
  tech_stack : TechStack;
  confidence_level : float;
  recommendations : list string;
  file_structure : list file_info;
  analysis_method : string;
  temp_dir : option string
}.

Module RepositoryAnalyzer.

Definition config_files : list string :=
  ["package.json"; "requirements.txt"; "pom.xml"; "build.gradle";
   "Cargo.toml"; "go.mod"; "pyproject.toml"].

(** [min(a, b)] on floats. *)
Definition min (a b : float) : float := if PrimFloat.ltb b a then b else a.

(** Truth value of a list. *)
Definition nonempty {A : Type} (l : list A) : bool :=
  match l with [] => false | _ => true end.

Definition _calculate_confidence (tech_stack : TechStack) (files : list file_info)
    : float :=
  let confidence := 0.4%float in
  let confidence :=
    if existsb (fun config_file =>
                  existsb (fun f => name f =? config_file) files) config_files
    then (confidence + 0.15)%float else confidence in
  let confidence :=
    if nonempty (build_tools tech_stack)
    then (confidence + 0.1)%float else confidence in
  let confidence :=
    if has_tests tech_stack
    then (confidence + 0.1)%float else confidence in
  let confidence :=
    if nonempty (frameworks tech_stack)
    then (confidence + 0.1)%float else confidence in
  let confidence :=
    if truthy (primary_language tech_stack)
       && negb (primary_language tech_stack =? "Unknown")
    then (confidence + 0.15)%float else confidence in
  min confidence 1.0%float.

(** ** The repository URL *)

(** [host/([^/]+)/([^/]+?)(?:\.git)?/?$] *)
Definition repo_re (host : string) : Rx.regex :=
  Rx.Cat (Rx.lit host)
    (Rx.Cat (Rx.chr "/")
       (Rx.Cat (Rx.Group 1 (Rx.Plus (Rx.none_of "/")))
          (Rx.Cat (Rx.chr "/")
             (Rx.Cat (Rx.Group 2 (Rx.LazyPlus (Rx.none_of "/")))
                (Rx.Cat (Rx.Opt (Rx.lit ".git"))
                   (Rx.Cat (Rx.Opt (Rx.chr "/")) Rx.Eos)))))).

Definition repo_info (url platform : string) (m : Rx.groups) : Repository.t :=
  let owner := Rx.group m 1 in
  let name := Rx.group m 2 in
  {| Repository.url := url;
     Repository.platform := platform;
     Repository.owner := owner;
     Repository.name := name;
     Repository.full_name := owner ++ "/" ++ name |}.

Definition _parse_repo_url (url : string) : option Repository.t :=
  match Rx.re_search (repo_re "github.com") url with
  | Some github_match => Some (repo_info url "github" github_match)
  | None =>
      match Rx.re_search (repo_re "gitlab.com") url with
      | Some gitlab_match => Some (repo_info url "gitlab" gitlab_match)
      | None => None
      end
  end.

(** ** The walk over the checkout *)

Definition skip_dirs : list string :=
  [".git"; "node_modules"; "__pycache__"; "venv"; "env";
   "target"; "build"; "dist"; ".idea"; ".vscode"; ".gradle"].

Definition _should_skip_dir (dirname : string) : bool :=
  startswith dirname "." || in_list dirname skip_dirs.

Definition allowed : list string :=
  [".gitignore"; ".env.example"; ".dockerignore"; ".gitlab-ci.yml"].

Definition _should_skip_file (filename : string) : bool :=
  if startswith filename "." then negb (in_list filename allowed)
  else false.

(** A directory as [os.walk] lists it: its sub-directories and its other
    entries, by name and in listing order.  Names are those of directory
    entries: not empty and without a slash. *)
Inductive tree : Type :=
| Dir (subdirs : list (string * tree)) (filenames : list string).

(** [os.path.join(a, b)] for a directory [a] that does not end with a
    slash and an entry name [b]. *)
Definition join (a b : string) : string := a ++ "/" ++ b.

(** [s.replace('\\', '/')] *)
Fixpoint replace_backslash (s : string) : string :=
  match s with
  | EmptyString => EmptyString
  | String c s' =>
      String (if Ascii.eqb c "092" then "/"%char else c) (replace_backslash s')
  end.

(** [os.path.splitext(filename)[1]]: the text from the last dot on, unless
    only dots stand before it. *)
Fixpoint from_last_dot (s : string) : option string :=
  match s with
  | EmptyString => None
  | String c s' =>
      match from_last_dot s' with
      | Some e => Some e
      | None => if Ascii.eqb c "." then Some s else None
      end
  end.

Fixpoint only_dots (s : string) : bool :=
  match s with
  | EmptyString => true
  | String c s' => Ascii.eqb c "." && only_dots s'
  end.

Definition splitext_ext (filename : string) : string :=
  match from_last_dot filename with
  | Some e =>
      let stem := substring 0 (String.length filename - String.length e) filename in
      if only_dots stem then "" else e
  | None => ""
  end.

(** The records of one directory and, after them, those of its kept
    sub-directories in turn: the loop over [os.walk(self.temp_dir)], with
    [root] the directory walked and [rel_root] its path relative to the
    top, empty for the top itself. *)
Fixpoint walk (w : World) (root rel_root : string) (t : tree) : list file_info :=
  match t with
  | Dir subdirs filenames =>
      let rel_path (n : string) := if truthy rel_root then join rel_root n else n in
      let dirs := filter (fun d => negb (_should_skip_dir (fst d))) subdirs in
      (map (fun d =>
              let dirname := fst d in
              {| name := dirname;
                 type := directory;
                 path := "/" ++ replace_backslash (rel_path dirname);
                 full_path := join root dirname;
                 extension := None;
                 size := None |}) dirs
       ++ map (fun filename =>
                 let file_path := join root filename in
                 let ext := splitext_ext filename in
                 let size := match getsize w file_path with
                             | Ok n => n
                             | Raise _ => 0%Z
                             end in
                 {| name := filename;
                    type := file;
                    path := "/" ++ replace_backslash (rel_path filename);
                    full_path := file_path;
                    extension := Some ext;
                    size := Some size |})
              (filter (fun filename => negb (_should_skip_file filename)) filenames)
       ++ flat_map (fun d =>
                      if _should_skip_dir (fst d) then []
                      else walk w (join root (fst d)) (rel_path (fst d)) (snd d))
                   subdirs)%list
  end.

Definition _analyze_files (w : World) (temp_dir : string) (t : tree)
    : list file_info :=
  walk w temp_dir "" t.

(** ** The recommendations *)

Definition _generate_recommendations (tech_stack : TechStack) (files : list file_info)
    : list string :=
  let recommendations := [] in
  let recommendations :=
    if negb (has_tests tech_stack) then
      let lang := primary_language tech_stack in
      if in_list lang ["JavaScript"; "TypeScript"] then
        (recommendations ++ ["💡 Добавьте тесты с Jest или Mocha"])%list
      else if lang =? "Python" then
        (recommendations ++ ["💡 Настройте pytest для тестирования"])%list
      else if in_list lang ["Java"; "Kotlin"] then
        (recommendations ++ ["💡 Используйте JUnit для unit-тестов"])%list
      else if lang =? "Go" then
        (recommendations ++ ["💡 Добавьте Go тесты (go test)"])%list
      else recommendations
    else recommendations in
  let recommendations :=
    if negb (has_dockerfile tech_stack) then
      (recommendations ++ ["💡 Создайте Dockerfile для контейнеризации"])%list
    else recommendations in
  let has_gitlab_ci :=
    existsb (fun f => contains ".gitlab-ci.yml" (name f)) files in
  if negb has_gitlab_ci then
    (recommendations ++ ["✅ Будет создан .gitlab-ci.yml пайплайн"])%list
  else recommendations.

End RepositoryAnalyzer.

(* ================================================================== *)
(** * analyzers/pipeline_generator.py *)
(* ================================================================== *)

(** The value handed to [yaml.dump]: strings, lists and mappings. *)
Inductive yaml : Type :=
| YStr (s : string)
| YList (items : list yaml)
| YMap (entries : list (string * yaml)).

Module PipelineGenerator.

(** The generator object: its two feature flags. *)
Record t : Set := {
  sonarqube_enabled : bool;
  nexus_enabled : bool
}.

(** [__init__] *)
Definition init : t := {| sonarqube_enabled := true; nexus_enabled := true |}.

Definition bs : string := String "092"%char EmptyString.   (* the backslash *)

(** A block of text given line by line, each line ended by a line feed. *)
Fixpoint unlines (ls : list string) : string :=
  match ls with
  | [] => ""
  | l :: ls' => l ++ nl ++ unlines ls'
  end.

(** [str(b)] *)
Definition str_of_bool (b : bool) : string := if b then "True" else "False".

(** [chr(10).join(f'    - {cmd}' for cmd in commands)] *)
Definition script_items (commands : list string) : string :=
  String.concat nl (map (fun cmd => "    - " ++ cmd) commands).


Definition _get_docker_image_and_variables (primary_language : string)
    (frameworks : list string) (version_info : VersionInfo)
    : string * list (string * string) :=
  let language_version := language_version version_info in
  if in_list primary_language ["JavaScript"; "TypeScript"] then
    let node_version := if truthy language_version then language_version else "18" in
    ("node:" ++ node_version ++ "-alpine",
     [ ("NPM_CONFIG_CACHE", "$CI_PROJECT_DIR/.npm");
       ("NODE_OPTIONS", "--max-old-space-size=4096");
       ("CI", "true") ])
  else if primary_language =? "Python" then
    let python_version := if truthy language_version then language_version else "3.9" in
    ("python:" ++ python_version ++ "-slim",
     [ ("PIP_CACHE_DIR", "$CI_PROJECT_DIR/.cache/pip");
       ("PYTHONPATH", "$CI_PROJECT_DIR");
       ("PYTHONUNBUFFERED", "1") ])
  else if in_list primary_language ["Java"; "Kotlin"] then
    let java_version := if truthy language_version then language_version else "11" in
    ("maven:3.8-openjdk-" ++ java_version,
     [ ("MAVEN_OPTS", "-Dmaven.repo.local=$CI_PROJECT_DIR/.m2/repository -Xmx1024m");
       ("MAVEN_CLI_OPTS", "--batch-mode --errors --fail-at-end --show-version") ])
  else if primary_language =? "Go" then
    let go_version := if truthy language_version then language_version else "1.19" in
    ("golang:" ++ go_version ++ "-alpine",
     [ ("GOCACHE", "$CI_PROJECT_DIR/.cache/go-build");
       ("GOPATH", "$CI_PROJECT_DIR/.go");
       ("CGO_ENABLED", "0") ])
  else ("alpine:latest", []).


Definition _generate_before_script (primary_language : string)
    (build_tools frameworks : list string) : list string :=
  if in_list primary_language ["JavaScript"; "TypeScript"] then
    if in_list "npm" build_tools then
      ["npm ci --cache .npm --prefer-offline"]
    else if in_list "yarn" build_tools then
      ["yarn install --frozen-lockfile --cache-folder .yarn"]
    else if in_list "pnpm" build_tools then
      ["pnpm install --frozen-lockfile"]
    else []
  else if primary_language =? "Python" then
    [ "python -m pip install --upgrade pip";
      "pip install -r requirements.txt --cache-dir .cache/pip" ]
  else if in_list primary_language ["Java"; "Kotlin"] && in_list "maven" build_tools then
    ["mvn dependency:go-offline $MAVEN_CLI_OPTS"]
  else [].

(** The template every build branch falls back to. *)
Definition default_build_job : string :=
  unlines
    [ "";
      "build:";
      "  stage: build";
      "  script:";
      "    - echo " ++ dq ++ "Настройте команды сборки для вашего проекта" ++ dq;
      "  artifacts:";
      "    paths:";
      "      - " ++ dq ++ "build/" ++ dq;
      "    expire_in: 1 hour" ].

Definition _generate_build_job (primary_language : string)
    (build_tools frameworks : list string) : string :=
  if in_list primary_language ["JavaScript"; "TypeScript"] then
    let script_commands :=
      if in_list "React" frameworks || in_list "Vue.js" frameworks
         || in_list "Angular" frameworks || in_list "Next.js" frameworks
      then ["npm run build"]
      else ["npm run build || echo " ++ dq ++ "No build script found" ++ dq] in
    unlines
      [ "";
        "build:";
        "  stage: build";
        "  script:";
        "    - " ++ script_items script_commands;
        "  artifacts:";
        "    paths:";
        "      - dist/";
        "      - build/";
        "      - .next/";
        "      - out/";
        "    expire_in: 1 hour";
        "  only:";
        "    - branches" ]
  else if primary_language =? "Python" then
    let script_commands :=
      (["python -m compileall ."] ++
       (if in_list "Django" frameworks
        then [ "python manage.py collectstatic --noinput";
               "python manage.py check --deploy" ]
        else []))%list in
    unlines
      [ "";
        "build:";
        "  stage: build";
        "  script:";
        "    - " ++ script_items script_commands;
        "  artifacts:";
        "    paths:";
        "      - staticfiles/";
        "      - " ++ dq ++ "*.pyc" ++ dq;
        "    expire_in: 1 hour" ]
  else if in_list primary_language ["Java"; "Kotlin"] then
    if in_list "maven" build_tools then
      unlines
        [ "";
          "build:";
          "  stage: build";
          "  script:";
          "    - mvn clean compile $MAVEN_CLI_OPTS";
          "    - mvn package -DskipTests $MAVEN_CLI_OPTS";
          "  artifacts:";
          "    paths:";
          "      - target/*.jar";
          "      - target/*.war";
          "    expire_in: 1 hour" ]
    else if in_list "gradle" build_tools then
      unlines
        [ "";
          "build:";
          "  stage: build";
          "  script:";
          "    - ./gradlew clean build -x test --no-daemon";
          "  artifacts:";
          "    paths:";
          "      - build/libs/*.jar";
          "    expire_in: 1 hour" ]
    else default_build_job
  else if primary_language =? "Go" then
    unlines
      [ "";
        "build:";
        "  stage: build";
        "  script:";
        "    - go mod download";
        "    - go build -v -o app ./...";
        "  artifacts:";
        "    paths:";
        "      - app";
        "    expire_in: 1 hour" ]
  else default_build_job.

(** The template every test branch falls back to. *)
Definition default_test_job : string :=
  unlines
    [ "";
      "test:";
      "  stage: test";
      "  script:";
      "    - echo " ++ dq ++ "Настройте команды тестирования" ++ dq ].

Definition _generate_test_job (primary_language : string)
    (build_tools frameworks : list string) : string :=
  if in_list primary_language ["JavaScript"; "TypeScript"] then
    let test_commands :=
      if in_list "React" frameworks then
        ["npm test -- --coverage --watchAll=false --ci"]
      else if in_list "Vue.js" frameworks then
        ["npm run test:unit"]
      else if in_list "Angular" frameworks then
        ["npm run test -- --watch=false --browsers=ChromeHeadless --code-coverage"]
      else ["npm test"] in
    unlines
      [ "";
        "test:";
        "  stage: test";
        "  script:";
        "    - " ++ script_items test_commands;
        "  artifacts:";
        "    reports:";
        "      junit: junit.xml";
        "      coverage_report:";
        "        coverage_format: cobertura";
        "        path: coverage/cobertura-coverage.xml";
        "    paths:";
        "      - coverage/";
        "    when: always";
        "  coverage: '/Lines\s*:\s*(\d+\.?\d*)%/'" ]
  else if primary_language =? "Python" then
    if in_list "Django" frameworks then
      unlines
        [ "";
          "test:";
          "  stage: test";
          "  script:";
          "    - coverage run --source='.' manage.py test --keepdb";
          "    - coverage xml";
          "    - coverage report";
          "  artifacts:";
          "    reports:";
          "      junit: test-results.xml";
          "      coverage_report:";
          "        coverage_format: cobertura";
          "        path: coverage.xml";
          "    when: always";
          "  coverage: '/TOTAL.+ ([0-9]{1,3}%)/'" ]
    else
      unlines
        [ "";
          "test:";
          "  stage: test";
          "  script:";
          "    - pytest --junitxml=test-results.xml --cov=. --cov-report=xml --cov-report=term";
          "  artifacts:";
          "    reports:";
          "      junit: test-results.xml";
          "      coverage_report:";
          "        coverage_format: cobertura";
          "        path: coverage.xml";
          "    when: always";
          "  coverage: '/TOTAL.+ ([0-9]{1,3}%)/'" ]
  else if in_list primary_language ["Java"; "Kotlin"] then
    if in_list "maven" build_tools then
      unlines
        [ "";
          "test:";
          "  stage: test";
          "  script:";
          "    - mvn test $MAVEN_CLI_OPTS";
          "    - mvn jacoco:report $MAVEN_CLI_OPTS";
          "  artifacts:";
          "    reports:";
          "      junit: target/surefire-reports/*.xml";
          "    paths:";
          "      - target/site/jacoco/";
          "    when: always" ]
    else if in_list "gradle" build_tools then
      unlines
        [ "";
          "test:";
          "  stage: test";
          "  script:";
          "    - ./gradlew test jacocoTestReport --no-daemon";
          "  artifacts:";
          "    reports:";
          "      junit: build/test-results/test/*.xml";
          "    paths:";
          "      - build/reports/jacoco/test/html/";
          "    when: always" ]
    else default_test_job
  else if primary_language =? "Go" then
    unlines
      [ "";
        "test:";
        "  stage: test";
        "  script:";
        "    - go test -v ./... -coverprofile=coverage.out";
        "    - go tool cover -func=coverage.out";
        "  artifacts:";
        "    paths:";
        "      - coverage.out";
        "    when: always";
        "  coverage: '/total:.*?([0-9.]+)%/'" ]
  else default_test_job.

Definition _generate_quality_job (primary_language : string)
    (frameworks : list string) : string :=
  if in_list primary_language ["JavaScript"; "TypeScript"] then
    unlines
      [ "";
        "code-quality:";
        "  stage: quality";
        "  script:";
        "    - npm run lint || npx eslint . --ext .js,.jsx,.ts,.tsx --format gitlab --output-file eslint-report.json || true";
        "    - npx prettier --check . || true";
        "  artifacts:";
        "    reports:";
        "      codequality: eslint-report.json";
        "    when: always";
        "  allow_failure: true" ]
  else if primary_language =? "Python" then
    unlines
      [ "";
        "code-quality:";
        "  stage: quality";
        "  script:";
        "    - pip install flake8 black mypy";
        "    - flake8 . --format=json --output-file=flake8-report.json || true";
        "    - black --check . || true";
        "    - mypy . --ignore-missing-imports || true";
        "  artifacts:";
        "    reports:";
        "      codequality: flake8-report.json";
        "    when: always";
        "  allow_failure: true" ]
  else if in_list primary_language ["Java"; "Kotlin"] then
    unlines
      [ "";
        "code-quality:";
        "  stage: quality";
        "  script:";
        "    - mvn checkstyle:check $MAVEN_CLI_OPTS || true";
        "    - mvn pmd:check $MAVEN_CLI_OPTS || true";
        "  allow_failure: true" ]
  else if primary_language =? "Go" then
    unlines
      [ "";
        "code-quality:";
        "  stage: quality";
        "  script:";
        "    - go fmt ./...";
        "    - go vet ./...";
        "    - go install golang.org/x/lint/golint@latest";
        "    - golint ./... || true";
        "  allow_failure: true" ]
  else
    unlines
      [ "";
        "code-quality:";
        "  stage: quality";
        "  script:";
        "    - echo " ++ dq ++ "Настройте проверку качества кода" ++ dq;
        "  allow_failure: true" ].

Definition _generate_sonarqube_job (primary_language : string) : string :=
  unlines
    [ "";
      "sonarqube-check:";
      "  stage: quality";
      "  image: sonarsource/sonar-scanner-cli:latest";
      "  variables:";
      "    SONAR_HOST_URL: " ++ dq ++ "${SONAR_HOST_URL}" ++ dq;
      "    SONAR_TOKEN: " ++ dq ++ "${SONAR_TOKEN}" ++ dq;
      "  script:";
      "    - sonar-scanner";
      "      -Dsonar.projectKey=$CI_PROJECT_NAME";
      "      -Dsonar.sources=.";
      "      -Dsonar.host.url=$SONAR_HOST_URL";
      "      -Dsonar.login=$SONAR_TOKEN";
      "  allow_failure: true";
      "  only:";
      "    - main";
      "    - develop" ].

Definition _generate_package_job (primary_language : string)
    (frameworks : list string) : string :=
  unlines
    [ "";
      "package:";
      "  stage: package";
      "  script:";
      "    - echo " ++ dq ++ "Упаковка артефактов для развертывания" ++ dq;
      "    - tar -czf application.tar.gz dist/ build/ staticfiles/ target/ app || true";
      "  artifacts:";
      "    paths:";
      "      - application.tar.gz";
      "    expire_in: 1 week";
      "  only:";
      "    - main";
      "    - develop" ].

Definition _generate_nexus_upload_job (primary_language : string) : string :=
  unlines
    [ "";
      "nexus-upload:";
      "  stage: package";
      "  script:";
      "    - echo " ++ dq ++ "Загрузка артефактов в Nexus Repository" ++ dq;
      "    - |";
      "      curl -v -u $NEXUS_USER:$NEXUS_PASSWORD " ++ bs;
      "        --upload-file application.tar.gz " ++ bs;
      "        $NEXUS_URL/repository/releases/$CI_PROJECT_NAME/$CI_COMMIT_TAG/application.tar.gz";
      "  only:";
      "    - tags";
      "  when: manual" ].

Definition _generate_docker_build_job (repo_name : string) : string :=
  unlines
    [ "";
      "docker-build:";
      "  stage: docker-build";
      "  image: docker:24-cli";
      "  services:";
      "    - docker:24-dind";
      "  variables:";
      "    DOCKER_TLS_CERTDIR: " ++ dq ++ "/certs" ++ dq;
      "    DOCKER_DRIVER: overlay2";
      "  before_script:";
      "    - docker login -u $CI_REGISTRY_USER -p $CI_REGISTRY_PASSWORD $CI_REGISTRY";
      "  script:";
      "    - echo " ++ dq ++ "Building Docker image with multi-stage build..." ++ dq;
      "    - docker build";
      "      --build-arg CI_COMMIT_SHA=$CI_COMMIT_SHA";
      "      --build-arg CI_COMMIT_REF_NAME=$CI_COMMIT_REF_NAME";
      "      --cache-from $CI_REGISTRY_IMAGE:latest";
      "      -t $CI_REGISTRY_IMAGE:" ++ lower repo_name ++ "-$CI_COMMIT_SHA";
      "      -t $CI_REGISTRY_IMAGE:latest";
      "      .";
      "    - docker push $CI_REGISTRY_IMAGE:" ++ lower repo_name ++ "-$CI_COMMIT_SHA";
      "    - docker push $CI_REGISTRY_IMAGE:latest";
      "    - |";
      "      if [ " ++ dq ++ "$CI_COMMIT_BRANCH" ++ dq ++ " == " ++ dq ++ "main" ++ dq ++ " ]; then";
      "        docker tag $CI_REGISTRY_IMAGE:" ++ lower repo_name ++ "-$CI_COMMIT_SHA $CI_REGISTRY_IMAGE:stable";
      "        docker push $CI_REGISTRY_IMAGE:stable";
      "      fi";
      "  after_script:";
      "    - docker system prune -f";
      "  only:";
      "    - main";
      "    - develop" ].

Definition _generate_docker_security_scan_job (repo_name : string) : string :=
  unlines
    [ "";
      "docker-security-scan:";
      "  stage: docker-build";
      "  image:";
      "    name: aquasec/trivy:latest";
      "    entrypoint: [" ++ dq ++ dq ++ "]";
      "  script:";
      "    - trivy image";
      "      --format template";
      "      --template " ++ dq ++ "@contrib/gitlab.tpl" ++ dq;
      "      --output gl-container-scanning-report.json";
      "      $CI_REGISTRY_IMAGE:" ++ lower repo_name ++ "-$CI_COMMIT_SHA";
      "  artifacts:";
      "    reports:";
      "      container_scanning: gl-container-scanning-report.json";
      "  dependencies:";
      "    - docker-build";
      "  allow_failure: true";
      "  only:";
      "    - main";
      "    - develop" ].

Definition _generate_deployment_jobs (repo_name : string) (has_dockerfile : bool)
    : string :=
  let image_ref :=
    if has_dockerfile
    then "$CI_REGISTRY_IMAGE:" ++ lower repo_name ++ "-$CI_COMMIT_SHA"
    else "application.tar.gz" in
  unlines
    [ "";
      "deploy-staging:";
      "  stage: deploy-staging";
      "  image: bitnami/kubectl:latest";
      "  script:";
      "    - echo " ++ dq ++ "Развертывание в staging окружение" ++ dq;
      "    - kubectl config use-context staging";
      "    - |";
      "      if [ " ++ dq ++ str_of_bool has_dockerfile ++ dq ++ " == " ++ dq ++ "True" ++ dq ++ " ]; then";
      "        kubectl set image deployment/" ++ lower repo_name ++ " " ++ lower repo_name ++ "=" ++ image_ref;
      "        kubectl rollout status deployment/" ++ lower repo_name;
      "      else";
      "        echo " ++ dq ++ "Развертывание без Docker (например, на VM)" ++ dq;
      "        # Добавьте команды для развертывания без контейнеров";
      "      fi";
      "  environment:";
      "    name: staging";
      "    url: https://staging." ++ lower repo_name ++ ".com";
      "  only:";
      "    - develop";
      "  when: manual";
      "";
      "deploy-production:";
      "  stage: deploy-production";
      "  image: bitnami/kubectl:latest";
      "  script:";
      "    - echo " ++ dq ++ "Развертывание в production окружение" ++ dq;
      "    - kubectl config use-context production";
      "    - |";
      "      if [ " ++ dq ++ str_of_bool has_dockerfile ++ dq ++ " == " ++ dq ++ "True" ++ dq ++ " ]; then";
      "        kubectl set image deployment/" ++ lower repo_name ++ " " ++ lower repo_name ++ "=" ++ image_ref;
      "        kubectl rollout status deployment/" ++ lower repo_name;
      "      else";
      "        echo " ++ dq ++ "Развертывание без Docker (например, на VM)" ++ dq;
      "        # Добавьте команды для развертывания без контейнеров";
      "      fi";
      "  environment:";
      "    name: production";
      "    url: https://" ++ lower repo_name ++ ".com";
      "  only:";
      "    - main";
      "  when: manual" ].



(** The job definitions appended to the dumped head, in order. *)
Definition pipeline_jobs (self : t) (analysis_result : AnalysisResult) : string :=
  let tech_stack := tech_stack analysis_result in
  let repository := repository analysis_result in
  let primary_language := primary_language tech_stack in
  let build_tools := build_tools tech_stack in
  let frameworks := frameworks tech_stack in
  let has_tests := has_tests tech_stack in
  let has_dockerfile := has_dockerfile tech_stack in
  nl ++ "# ==================== BUILD STAGE ====================" ++ nl
  ++ _generate_build_job primary_language build_tools frameworks
  ++ (if has_tests then
        nl ++ "# ==================== TEST STAGE ====================" ++ nl
        ++ _generate_test_job primary_language build_tools frameworks
      else "")
  ++ nl ++ "# ==================== CODE QUALITY STAGE ====================" ++ nl
  ++ _generate_quality_job primary_language frameworks
  ++ (if sonarqube_enabled self then
        nl ++ "# SonarQube анализ" ++ nl
        ++ _generate_sonarqube_job primary_language
      else "")
  ++ nl ++ "# ==================== PACKAGE STAGE ====================" ++ nl
  ++ _generate_package_job primary_language frameworks
  ++ (if nexus_enabled self then
        nl ++ "# Загрузка артефактов в Nexus" ++ nl
        ++ _generate_nexus_upload_job primary_language
      else "")
  ++ (if has_dockerfile then
        nl ++ "# ==================== DOCKER BUILD STAGE ====================" ++ nl
        ++ _generate_docker_build_job (Repository.name repository)
        ++ nl ++ "# Docker Security Scan" ++ nl
        ++ _generate_docker_security_scan_job (Repository.name repository)
      else "")
  ++ nl ++ "# ==================== DEPLOYMENT STAGES ====================" ++ nl
  ++ _generate_deployment_jobs (Repository.name repository) has_dockerfile.

Section Dump.

(** [yaml.dump(d, default_flow_style=False, allow_unicode=True,
    sort_keys=False)], a function of the PyYAML library. *)
Variable yaml_dump : yaml -> string.


End Dump.

End PipelineGenerator.

(* ================================================================== *)
(** * Reading a generated pipeline *)
(* ================================================================== *)

(** The job definitions of a pipeline text, read back from its lines: what
    GitLab sees of the text appended after the dumped head. *)
Module Document.

(** [text.splitlines()] for line feeds: the lines without their
    terminators. *)
Fixpoint splitlines (s : string) : list string :=
  match s with
  | EmptyString => []
  | String c s' =>
      if Ascii.eqb c LF then "" :: splitlines s'
      else match splitlines s' with
           | [] => [String c EmptyString]
           | l :: ls => String c l :: ls
           end
  end.

(** What is read of one job: its name, its [stage:] and whether it carries
    [allow_failure: true]. *)
Record job : Set := {
  job_name : string;
  job_stage : option string;
  allow_failure : bool
}.

(** A top-level key opens a job: a line that starts in the first column
    with something other than a comment. *)
Definition is_key_line (line : string) : bool :=
  match line with
  | EmptyString => false
  | String c _ => negb (Ascii.eqb c " ") && negb (Ascii.eqb c "#")
  end.

Definition stage_prefix : string := "  stage: ".
Definition allow_failure_line : string := "  allow_failure: true".

Definition is_stage_line (line : string) : bool := String.prefix stage_prefix line.

(** The text after [stage_prefix]. *)
Definition stage_value (line : string) : string :=
  substring (String.length stage_prefix)
            (String.length line - String.length stage_prefix) line.

(** One line read with the jobs seen so far, the current job first. *)
Definition read_line (seen : list job) (line : string) : list job :=
  if is_key_line line then
    {| job_name := split_head ":" line; job_stage := None; allow_failure := false |}
    :: seen
  else if is_stage_line line then
    match seen with
    | j :: seen' =>
        {| job_name := job_name j; job_stage := Some (stage_value line);
           allow_failure := allow_failure j |} :: seen'
    | [] => []
    end
  else if line =? allow_failure_line then
    match seen with
    | j :: seen' =>
        {| job_name := job_name j; job_stage := job_stage j;
           allow_failure := true |} :: seen'
    | [] => []
    end
  else seen.

(** The jobs of a text, in order. *)
Definition jobs (text : string) : list job :=
  rev (fold_left read_line (splitlines text) []).


(** The jobs of a stage. *)
Definition jobs_in_stage (stage : string) (text : string) : list job :=
  filter (fun j => match job_stage j with
                   | Some s => s =? stage
                   | None => false
                   end) (jobs text).


Definition as_str (y : yaml) : option string :=
  match y with YStr s => Some s | _ => None end.




End Document.

(* ================================================================== *)
(** * Sample inputs *)
(* ================================================================== *)

Module Samples.

Definition a_file (n p ext : string) : file_info :=
  {| name := n; type := file; path := p; full_path := "/work" ++ p;
     extension := Some ext; size := Some 64%Z |}.

Definition a_directory (n p : string) : file_info :=
  {| name := n; type := directory; path := p; full_path := "/work" ++ p;
     extension := None; size := None |}.

(** [n] lines of code. *)
Definition code_lines (n : nat) : string :=
  String.concat "" (repeat ("x = 1" ++ nl) n).

(** A world with the given text files and nothing else; the two library
    parsers reject every text. *)
Definition world_of (texts : list (string * string)) : World :=
  {| path_exists := fun p => match dict_get texts p with Some _ => true | None => false end;
     getsize := fun p => match dict_get texts p with
                         | Some t => Ok (Z.of_nat (String.length t))
                         | None => Raise OSError
                         end;
     read_text := fun p => match dict_get texts p with
                           | Some t => Ok t
                           | None => Raise OSError
                           end;
     read_text_ignore := fun p => match dict_get texts p with
                                  | Some t => Ok t
                                  | None => Raise OSError
                                  end;
     json_loads := fun _ => Raise JSONDecodeError;
     et_parse := fun _ => Raise ParseError |}.

Definition a_repository (n : string) : Repository.t :=
  {| Repository.url := "https://github.com/acme/" ++ n;
     Repository.platform := "github";
     Repository.owner := "acme";
     Repository.name := n;
     Repository.full_name := "acme/" ++ n |}.

Definition go_stack : TechStack :=
  {| primary_language := "Go";
     language_stats := [("Go", {| lines := 50; percentage := {| tenths := 1000 |} |})];
     version_info := {| language_version := "1.21"; framework_versions := [] |};
     frameworks := [];
     build_tools := ["go"];
     package_managers := ["go"];
     has_tests := true;
     has_dockerfile := true |}.

(** Two analysis results of the same stack, from two different runs. *)
Definition run1 : AnalysisResult :=
  {| repository := a_repository "Shop";
     tech_stack := go_stack;
     confidence_level := 0.75%float;
     recommendations := [];
     file_structure := [a_file "app.go" "/app.go" ".go"];
     analysis_method := "git";
     temp_dir := Some "/tmp/self_deploy_a1b2" |}.



End Samples.

(* ================================================================== *)
(** * Vocabulary of the properties *)
(* ================================================================== *)

Import TechStackDetector PipelineGenerator Document.

(** ** Confidence *)

(** Some file of the list bears a known manifest name. *)
Definition manifest_present (files : list file_info) : bool :=
  existsb (fun f => in_list (name f) RepositoryAnalyzer.config_files) files.

(** The primary language is known. *)
Definition language_known (ts : TechStack) : bool :=
  truthy (primary_language ts) && negb (primary_language ts =? "Unknown").

(** The score written from its five signals. *)
Definition score (m b t f l : bool) : float :=
  RepositoryAnalyzer.min
    (0.4 + (if m then 0.15 else 0) + (if b then 0.1 else 0)
     + (if t then 0.1 else 0) + (if f then 0.1 else 0)
     + (if l then 0.15 else 0))%float 1.0%float.

(** ** Primary language *)

Definition excluded (language : string) : bool :=
  in_list language exclude_languages.

(** [x] may stand before [y] in descending line-count order. *)
Definition more_lines (x y : string * LanguageStat) : Prop :=
  (lines (snd y) <= lines (snd x))%Z.

Definition all_excluded (items : list (string * LanguageStat)) : Prop :=
  Forall (fun kv => excluded (fst kv) = true) items.

(** ** Percentages *)



(** The sum of the counts of an accumulator. *)
Definition sum_lines (language_lines : list (string * Z)) : Z :=
  fold_right (fun kv acc => (snd kv + acc)%Z) 0%Z language_lines.

(** The languages of the extension table. *)
Definition known_languages : list string :=
  nodup string_dec (map snd language_extensions).

(** What the accumulation loop maintains: the total is the sum of the
    counts, and the keys are distinct languages of the table. *)
Definition counted (language_lines : list (string * Z)) (total_lines : Z) : Prop :=
  total_lines = sum_lines language_lines
  /\ NoDup (map fst language_lines)
  /\ incl (map fst language_lines) known_languages.




(** The binary64 number that the source hands to [round( , 1)]:
    [(lines / total_lines) * 100] on counts below 2^53. *)
Definition binary64_percentage (lines total_lines : float) : float :=
  (lines / total_lines * 100)%float.

(** ** Matcher *)


(** A text of characters of one class. *)
Fixpoint all_in (p : ascii -> bool) (s : string) : bool :=
  match s with
  | EmptyString => true
  | String c s' => p c && all_in p s'
  end.

(** A text that does not go on with a character of the class. *)
Definition stops (p : ascii -> bool) (s : string) : bool :=
  match s with
  | EmptyString => true
  | String c _ => negb (p c)
  end.



(** ** Version hints *)

(** A [go.mod] with a [go] directive. *)
Definition go_mod_text : string :=
  "module example.com/shop" ++ nl ++ nl ++ "go 1.21.3" ++ nl ++ nl
  ++ "require github.com/gin-gonic/gin v1.9.1" ++ nl.


Definition go_files : list file_info :=
  [Samples.a_file "main.go" "/main.go" ".go";
   Samples.a_file "go.mod" "/go.mod" ".mod"].





(** ** Manifest parsers *)

(** A call returns a value: it does not raise. *)
Definition returns {A : Type} (r : result A) : Prop := exists v, r = Ok v.


Definition framework_parsers (w : World) (p : string) : list (result (list string)) :=
  [ _analyze_package_json w p;
    _analyze_requirements_txt w p;
    _analyze_pyproject_toml w p;
    _analyze_pom_xml w p;
    _analyze_gradle w p;
    _analyze_go_mod w p ].



(** A POM with three dependencies, the second with an [artifactId]
    element that has no text. *)
Definition pom_with_gap : xml :=
  let dependency (artifact : option string) :=
    Element (ET.maven "dependency") None
      [Element (ET.maven "groupId") (Some "org.example") [];
       Element (ET.maven "artifactId") artifact []] in
  Element (ET.maven "project") None
    [Element (ET.maven "dependencies") None
       [dependency (Some "spring-boot-starter");
        dependency None;
        dependency (Some "hibernate-core")]].

(** A world in which every XML file parses to [pom_with_gap]. *)
Definition pom_world : World :=
  {| path_exists := fun _ => true;
     getsize := fun _ => Ok 512%Z;
     read_text := fun _ => Raise OSError;
     read_text_ignore := fun _ => Raise OSError;
     json_loads := fun _ => Raise JSONDecodeError;
     et_parse := fun _ => Ok pom_with_gap |}.

(** ** Test detection *)

(** The components of a path: [path.split('/')]. *)
Fixpoint components (path : string) : list string :=
  match path with
  | EmptyString => [EmptyString]
  | String c rest =>
      if Ascii.eqb c "/" then EmptyString :: components rest
      else match components rest with
           | [] => [String c EmptyString]
           | first :: others => String c first :: others
           end
  end.

(** The second signal as the specification words it: some component of
    the path is a test directory name. *)
Definition has_test_directory_component (path : string) : bool :=
  existsb (fun component => in_list component test_directories) (components path).

(** [hasTests] as the specification words it. *)
Definition has_tests_by_component (file_structure : list file_info) : bool :=
  existsb (fun f => name_matches (name f) || has_test_directory_component (path f))
          file_structure.

(** A text file at the root of the repository. *)
Definition spectrum : file_info :=
  Samples.a_file "spectrum.txt" "/spectrum.txt" ".txt".

(** ** Job definitions *)

(** A text without a line feed. *)
Fixpoint one_line (s : string) : bool :=
  match s with
  | EmptyString => true
  | String c s' => negb (Ascii.eqb c LF) && one_line s'
  end.

(** A text that ends with a line feed. *)
Fixpoint terminated (s : string) : bool :=
  match s with
  | EmptyString => false
  | String c EmptyString => Ascii.eqb c LF
  | String _ s' => terminated s'
  end.

(** The jobs read from a text, continuing from the jobs [seen]. *)
Definition run (text : string) (seen : list job) : list job :=
  fold_left read_line (splitlines text) seen.

Definition a_job (n stage : string) (allow : bool) : job :=
  {| job_name := n; job_stage := Some stage; allow_failure := allow |}.

(** The jobs of a pipeline, by the flags of the profile and of the
    generator. *)
Definition expected_jobs (self : PipelineGenerator.t) (ts : TechStack) : list job :=
  ([a_job "build" "build" false]
   ++ (if has_tests ts then [a_job "test" "test" false] else [])
   ++ [a_job "code-quality" "quality" true]
   ++ (if sonarqube_enabled self then [a_job "sonarqube-check" "quality" true] else [])
   ++ [a_job "package" "package" false]
   ++ (if nexus_enabled self then [a_job "nexus-upload" "package" false] else [])
   ++ (if has_dockerfile ts
       then [a_job "docker-build" "docker-build" false;
             a_job "docker-security-scan" "docker-build" true]
       else [])
   ++ [a_job "deploy-staging" "deploy-staging" false;
       a_job "deploy-production" "deploy-production" false])%list.

(* ================================================================== *)
(** * Vocabulary of the further properties *)
(* ================================================================== *)

(** ** Build tools *)

(** The build tool a file stands for: that of its name, for a regular file. *)
Definition tool_of (f : file_info) : option string :=
  if is_file f then dict_get build_tool_mapping (name f) else None.

(** ** Language statistics *)

(** The language a file is counted under. *)
Definition language_of (f : file_info) : option string :=
  if is_file f then
    dict_get language_extensions
      (lower (match extension f with Some e => e | None => "" end))
  else None.

(** The significant lines of a file, as counted. *)
Definition file_lines (w : World) (dir : option string) (f : file_info) : Z :=
  match _count_file_lines w f dir with Ok n => n | Raise _ => 0%Z end.




(** ** Stacks without a language *)

(** The stack of a file list in which no language is recognised: the
    signals that read no file content. *)
Definition unknown_stack (files : list file_info) : TechStack :=
  {| primary_language := "Unknown";
     language_stats := [];
     version_info := {| language_version := "latest"; framework_versions := [] |};
     frameworks := sorted (_analyze_by_file_structure files);
     build_tools := _detect_build_tools files;
     package_managers := _detect_build_tools files;
     has_tests := _check_tests files;
     has_dockerfile := _check_dockerfile files |}.

(** A file larger than the limit of [_count_file_lines]. *)
Definition oversized (w : World) (f : file_info) : Prop :=
  exists sz, getsize w (full_path f) = Ok sz /\ (1024 * 1024 < sz)%Z.

(** ** Versions *)

(** The version a manifest gives: the value its parser extracts, when the
    manifest is listed, the project directory is given and the value is
    not empty. *)
Definition version_hint (extract : string -> result (option string))
    (files : list file_info) (manifest : string) (dir : option string)
    : option string :=
  match _find_file files manifest with
  | Some p =>
      if truthy p && truthy_opt dir then
        match extract p with
        | Ok (Some v) => if truthy v then Some v else None
        | _ => None
        end
      else None
  | None => None
  end.

(** ** Framework tables *)

(** Every framework name the detector can report. *)
Definition framework_names : list string :=
  (map snd (package_json_mapping ++ requirements_mapping ++ pyproject_mapping
            ++ pom_mapping ++ gradle_mapping ++ go_mod_mapping)
   ++ ["React"; "Vue.js"; "Django"])%list.

(** The names a table gives for the keys that pass a test. *)
Definition matching (mapping : list (string * string)) (test : string -> bool)
    (x : string) : Prop :=
  exists key, In (key, x) mapping /\ test key = true.

(** ** Requirements *)

(** The package name of a line of [requirements.txt], when the line is
    neither blank nor a comment. *)
Definition requirement (line : string) : option string :=
  let line := lower (strip line) in
  if truthy line && negb (startswith line "#") then
    Some (strip (split_head "><=!" line))
  else None.

(** ** JSON manifests *)

(** The members of the object under [key] of a JSON object, when the
    entry is an object or is absent. *)
Definition object_entry (members : list (string * json)) (key : string)
    : option (list (string * json)) :=
  match dict_get members key with
  | None => Some []
  | Some (JObject m) => Some m
  | Some _ => None
  end.

(** [dep] is a key of the object with these members. *)
Definition declared (dep : string) (members : list (string * json)) : bool :=
  match dict_get members dep with Some _ => true | None => false end.

(** A JSON value that [dict.update] rejects. *)
Definition scalar (v : json) : bool :=
  match v with
  | JNull | JBool _ | JNumber _ => true
  | _ => false
  end.

(** ** POM files *)

(** The dependency elements [_analyze_pom_xml] loops over, and the
    element it reads the artifact name from. *)
Definition found_dependencies (root : xml) : list xml :=
  match ET.findall_deep root (ET.maven "dependency") with
  | [] => ET.findall_deep root "dependency"
  | found => found
  end.

Definition artifact_of (dependency : xml) : option xml :=
  ET.or_else (ET.find_child dependency "artifactId")
             (ET.find_deep dependency (ET.maven "artifactId")).

(** The body of the loop of [_analyze_pom_xml]: what one dependency adds. *)
Definition dependency_frameworks (dependency : xml) : Mut (list string) unit :=
  match artifact_of dependency with
  | Some artifact_id =>
      text <~ lift (match ET.text artifact_id with
                    | Some t => Ok t
                    | None => Raise AttributeError
                    end) ;;
      add_matching pom_mapping
        (fun framework_key => contains framework_key (lower text))
  | None => mret tt
  end.

(** A POM written without the Maven namespace: no element below the root
    bears the namespaced [artifactId] tag, and the plain [artifactId]
    elements hold text only. *)
Definition plain_pom (root : xml) : Prop :=
  forall e, In e (ET.descendants root) ->
    ET.tag e <> ET.maven "artifactId"
    /\ (ET.tag e = "artifactId" -> ET.children e = []).

(** ** The framework set *)

(** A step that adds to the accumulator nothing but names of a list. *)
Definition grows_within (names : list string) {A : Type} (m : Mut (list string) A)
    : Prop :=
  forall s x, In x (fst (m s)) -> In x s \/ In x names.

(** ** From the file list to the pipeline *)

(** A regular file of the list bears one of the given names. *)
Definition regular_file_named (names : list string) (files : list file_info) : Prop :=
  exists f, In f files /\ is_file f = true /\ In (name f) names.

(** The version a language takes from its manifest, or its default. *)
Definition hinted (w : World) (extract : World -> string -> result (option string))
    (files : list file_info) (manifest : string) (dir : option string)
    (default : string) : string :=
  match version_hint (extract w) files manifest dir with
  | Some v => v
  | None => default
  end.


(** ** Node.js versions *)




(** ** The walk *)

(** The relative path of an entry below the directories [dirs]. *)
Definition below (dirs : list string) (n : string) : string :=
  String.concat "/" (dirs ++ [n]).

(** Every directory of a tree has a name. *)
Fixpoint named (t : RepositoryAnalyzer.tree) : bool :=
  match t with
  | RepositoryAnalyzer.Dir subdirs _ =>
      forallb (fun d => truthy (fst d) && named (snd d)) subdirs
  end.

(** An entry of a tree that the walk reaches: a file or a directory that
    is not skipped, below directories none of which is skipped. *)
Inductive entry_at
    : RepositoryAnalyzer.tree -> list string -> string -> file_type -> Prop :=
| entry_file : forall subdirs filenames n,
    In n filenames -> RepositoryAnalyzer._should_skip_file n = false ->
    entry_at (RepositoryAnalyzer.Dir subdirs filenames) [] n file
| entry_directory : forall subdirs filenames n sub,
    In (n, sub) subdirs -> RepositoryAnalyzer._should_skip_dir n = false ->
    entry_at (RepositoryAnalyzer.Dir subdirs filenames) [] n directory
| entry_below : forall subdirs filenames d sub dirs n k,
    In (d, sub) subdirs -> RepositoryAnalyzer._should_skip_dir d = false ->
    entry_at sub dirs n k ->
    entry_at (RepositoryAnalyzer.Dir subdirs filenames) (d :: dirs) n k.

(** The record of the entry [n] of kind [k] below [dirs]. *)
Definition record (w : World) (temp_dir : string) (dirs : list string)
    (n : string) (k : file_type) : file_info :=
  {| name := n;
     type := k;
     path := "/" ++ RepositoryAnalyzer.replace_backslash (below dirs n);
     full_path := temp_dir ++ "/" ++ below dirs n;
     extension := match k with
                  | file => Some (RepositoryAnalyzer.splitext_ext n)
                  | directory => None
                  end;
     size := match k with
             | file => Some match getsize w (temp_dir ++ "/" ++ below dirs n) with
                            | Ok s => s
                            | Raise _ => 0%Z
                            end
             | directory => None
             end |}.

(** ** What a pattern takes *)

(** What a pattern can take: [spans r s g s' g'] when [r] matches the text
    between the positions [s] and [s'], turning the groups [g] into [g']. *)
Inductive spans : Rx.regex -> string -> Rx.groups -> string -> Rx.groups -> Prop :=
| spans_empty : forall s g, spans Rx.Empty s g s g
| spans_char : forall (p : ascii -> bool) c s g,
    p c = true -> spans (Rx.Char p) (String c s) g s g
| spans_cat : forall r1 r2 s g s1 g1 s2 g2,
    spans r1 s g s1 g1 -> spans r2 s1 g1 s2 g2 -> spans (Rx.Cat r1 r2) s g s2 g2
| spans_alt_l : forall r1 r2 s g s' g',
    spans r1 s g s' g' -> spans (Rx.Alt r1 r2) s g s' g'
| spans_alt_r : forall r1 r2 s g s' g',
    spans r2 s g s' g' -> spans (Rx.Alt r1 r2) s g s' g'
| spans_star_stop : forall r s g, spans (Rx.Star r) s g s g
| spans_star_more : forall r s g s1 g1 s2 g2,
    spans r s g s1 g1 -> spans (Rx.Star r) s1 g1 s2 g2 ->
    spans (Rx.Star r) s g s2 g2
| spans_lazy_stop : forall r s g, spans (Rx.Lazy r) s g s g
| spans_lazy_more : forall r s g s1 g1 s2 g2,
    spans r s g s1 g1 -> spans (Rx.Lazy r) s1 g1 s2 g2 ->
    spans (Rx.Lazy r) s g s2 g2
| spans_group : forall n r s g s' g',
    spans r s g s' g' -> spans (Rx.Group n r) s g s' ((n, consumed s s') :: g')
| spans_eos : forall s g, at_end s = true -> spans Rx.Eos s g s g.

(** The endings that [(?:\.git)?/?] can take. *)
Definition endings : list string := [""; ".git"; "/"; ".git/"].

(** A text without a slash. *)
Definition slash_free (s : string) : bool :=
  all_in (fun c => negb (Ascii.eqb c "/")) s.

(** ** Repository URLs *)

(** The text after the prefix [w] of [t], when [t] starts with [w]. *)
Fixpoint strip_prefix (w t : string) : option string :=
  match w with
  | EmptyString => Some t
  | String c w' =>
      match t with
      | EmptyString => None
      | String c' t' => if Ascii.eqb c c' then strip_prefix w' t' else None
      end
  end.

(** The text is a slash or nothing, up to a final line feed: what [/?$]
    accepts. *)
Definition slash_end (t : string) : bool :=
  (t =? "") || (t =? nl) || (t =? "/") || (t =? "/" ++ nl).

(** What [(?:\.git)?/?$] accepts. *)
Definition tail_ok (t : string) : bool :=
  match strip_prefix ".git" t with
  | Some u => slash_end u || slash_end t
  | None => slash_end t
  end.

(** Some non-empty end of [n], followed by [e], can be read as the end of
    the URL. *)
Fixpoint early_end (n e : string) : bool :=
  match n with
  | EmptyString => false
  | String _ n' => tail_ok (n ++ e) || early_end n' e
  end.

(** The lazy group takes the whole of [name] in front of [e]: no proper
    end of the name, followed by [e], can be read as the end of the URL. *)
Definition whole (name e : string) : bool :=
  match name with
  | EmptyString => true
  | String _ n' => negb (early_end n' e)
  end.

(** The text [word], standing behind [pre], starts somewhere in [pre]
    already. *)
Fixpoint starts_before (word pre : string) : bool :=
  match pre with
  | EmptyString => false
  | String _ pre' =>
      match strip_prefix word (pre ++ word) with
      | Some _ => true
      | None => starts_before word pre'
      end
  end.

(** A text without a dot. *)
Definition dot_free (s : string) : bool :=
  all_in (fun c => negb (Ascii.eqb c ".")) s.

(** ** Recommendations *)

(** The notes of [_generate_recommendations]. *)
Definition docker_advice : string := "💡 Создайте Dockerfile для контейнеризации".
Definition pipeline_note : string := "✅ Будет создан .gitlab-ci.yml пайплайн".

(** The advice on tests for a language, for the six languages that have one. *)
Definition test_advice (lang : string) : option string :=
  if in_list lang ["JavaScript"; "TypeScript"] then
    Some "💡 Добавьте тесты с Jest или Mocha"
  else if lang =? "Python" then Some "💡 Настройте pytest для тестирования"
  else if in_list lang ["Java"; "Kotlin"] then
    Some "💡 Используйте JUnit для unit-тестов"
  else if lang =? "Go" then Some "💡 Добавьте Go тесты (go test)"
  else None.

(** Some entry of the list, of either kind, has [.gitlab-ci.yml] in its name. *)
Definition mentions_gitlab_ci (files : list file_info) : Prop :=
  exists f, In f files /\ contains ".gitlab-ci.yml" (name f) = true.

(** ** Python versions *)




(** ** Java versions of Gradle *)




(** ** Sample repositories *)

Module Cases.

(** A world in which every file holds two million bytes. *)
Definition big_world : World :=
  {| path_exists := fun _ => true;
     getsize := fun _ => Ok 2000000%Z;
     read_text := fun _ => Raise OSError;
     read_text_ignore := fun _ => Raise OSError;
     json_loads := fun _ => Raise JSONDecodeError;
     et_parse := fun _ => Raise ParseError |}.

(** A Go service with a [Dockerfile] below [deploy]. *)
Definition docker_files : list file_info :=
  [Samples.a_file "main.go" "/main.go" ".go";
   Samples.a_file "go.mod" "/go.mod" ".mod";
   Samples.a_file "Dockerfile" "/deploy/Dockerfile" ""].

Definition docker_world : World :=
  Samples.world_of [("/work/main.go", Samples.code_lines 5);
                    ("/work/go.mod", go_mod_text)].

Definition docker_stack : TechStack :=
  {| primary_language := "Go";
     language_stats := [("Go", {| lines := 5; percentage := {| tenths := 1000 |} |})];
     version_info := {| language_version := "1.21.3"; framework_versions := [] |};
     frameworks := ["Gin"];
     build_tools := ["go"];
     package_managers := ["go"];
     has_tests := false;
     has_dockerfile := true |}.

(** One Java source and no build file. *)
Definition jvm_files : list file_info :=
  [Samples.a_file "Main.java" "/src/Main.java" ".java"].

Definition jvm_world : World :=
  Samples.world_of [("/work/src/Main.java", Samples.code_lines 7)].

Definition jvm_stack : TechStack :=
  {| primary_language := "Java";
     language_stats := [("Java", {| lines := 7; percentage := {| tenths := 1000 |} |})];
     version_info := {| language_version := "11"; framework_versions := [] |};
     frameworks := [];
     build_tools := [];
     package_managers := [];
     has_tests := false;
     has_dockerfile := false |}.

(** A JavaScript package with an empty [package.json]. *)
Definition js_files : list file_info :=
  [Samples.a_file "index.js" "/index.js" ".js";
   Samples.a_file "package.json" "/package.json" ".json"].

Definition js_world : World :=
  Samples.world_of [("/work/index.js", Samples.code_lines 4);
                    ("/work/package.json", "{}")].

Definition js_stack : TechStack :=
  {| primary_language := "JavaScript";
     language_stats :=
       [("JavaScript", {| lines := 4; percentage := {| tenths := 1000 |} |})];
     version_info := {| language_version := "ES2022"; framework_versions := [] |};
     frameworks := [];
     build_tools := ["npm"];
     package_managers := ["npm"];
     has_tests := false;
     has_dockerfile := false |}.


(** A [package.json] as [json.load] returns it. *)
Definition package_members : list (string * json) :=
  [("name", JString "shop");
   ("dependencies", JObject [("express", JString "^4.18.2")]);
   ("devDependencies", JObject [("jest", JString "^29.0.0")]);
   ("engines", JObject [("node", JString ">=18.12.0")])].

Definition package_world : World :=
  {| path_exists := fun _ => true;
     getsize := fun _ => Ok 64%Z;
     read_text := fun _ => Ok "package";
     read_text_ignore := fun _ => Ok "package";
     json_loads := fun _ => Ok (JObject package_members);
     et_parse := fun _ => Raise ParseError |}.

(** A POM in the Maven namespace, and the same written without it. *)
Definition pom_in (ns : string -> string) : xml :=
  Element (ns "project") None
    [Element (ns "dependencies") None
       [Element (ns "dependency") None
          [Element (ns "groupId") (Some "org.springframework.boot") [];
           Element (ns "artifactId") (Some "spring-boot-starter-web") []]]].

Definition pom_world (root : xml) : World :=
  {| path_exists := fun _ => true;
     getsize := fun _ => Ok 64%Z;
     read_text := fun _ => Ok "pom";
     read_text_ignore := fun _ => Ok "pom";
     json_loads := fun _ => Raise JSONDecodeError;
     et_parse := fun _ => Ok root |}.



(** A checkout: sources, a hidden directory, a dependency directory. *)
Definition checkout : RepositoryAnalyzer.tree :=
  RepositoryAnalyzer.Dir
    [(".git", RepositoryAnalyzer.Dir [] ["config"]);
     ("src", RepositoryAnalyzer.Dir [] ["main.go"; ".env"]);
     ("node_modules", RepositoryAnalyzer.Dir [] ["index.js"])]
    ["go.mod"; ".gitlab-ci.yml"; ".DS_Store"].

(** What [_parse_repo_url] makes of [git@github.com/acme/shop.git]. *)
Definition ssh_repository : Repository.t :=
  {| Repository.url := "git@github.com/acme/shop.git";
     Repository.platform := "github";
     Repository.owner := "acme";
     Repository.name := "shop";
     Repository.full_name := "acme/shop" |}.

End Cases.

(* ================================================================== *)
(** * Properties of strings *)
(* ================================================================== *)

Section Strings.

Lemma append_assoc : forall a b c : string, (a ++ b) ++ c = a ++ (b ++ c).
Proof.
  induction a as [|x a IH]; intros b c; cbn; [reflexivity | now rewrite IH].
Qed.

Lemma append_nil_r : forall a : string, a ++ "" = a.
Proof.
  induction a as [|x a IH]; cbn; [reflexivity | now rewrite IH].
Qed.

Lemma append_nil_l : forall a : string, "" ++ a = a.
Proof. reflexivity. Qed.

Lemma length_append : forall a b : string,
  String.length (a ++ b) = (String.length a + String.length b)%nat.
Proof.
  induction a as [|x a IH]; intros b; cbn; [reflexivity | now rewrite IH].
Qed.

End Strings.

(* ================================================================== *)
(** * Properties of the pipeline head *)
(* ================================================================== *)




(* ================================================================== *)
(** * Properties of the confidence score *)
(* ================================================================== *)

Section Confidence.

Import RepositoryAnalyzer.

Lemma existsb_swap : forall {A B : Type} (p : A -> B -> bool) (l : list A) (m : list B),
  existsb (fun a => existsb (fun b => p a b) m) l
  = existsb (fun b => existsb (fun a => p a b) l) m.
Proof.
  intros A B p l m. induction l as [|a l IH]; cbn.
  - induction m as [|b m IHm]; cbn; [reflexivity | exact IHm].
  - rewrite IH. clear IH. induction m as [|b m IHm]; cbn.
    + reflexivity.
    + rewrite <- IHm.
      destruct (p a b), (existsb (fun a0 => p a0 b) l),
               (existsb (fun b0 => p a b0) m),
               (existsb (fun b0 => existsb (fun a0 => p a0 b0) l) m);
        reflexivity.
  Qed.

Lemma manifest_present_loop : forall files,
  existsb (fun config_file => existsb (fun f => name f =? config_file) files)
          config_files
  = manifest_present files.
Proof.
  intros files. unfold manifest_present, in_list.
  rewrite existsb_swap. reflexivity.
Qed.

Lemma confidence_is_score : forall ts files,
  _calculate_confidence ts files
  = score (manifest_present files) (nonempty (build_tools ts)) (has_tests ts)
          (nonempty (frameworks ts)) (language_known ts).
Proof.
  intros ts files. unfold _calculate_confidence, language_known.
  rewrite manifest_present_loop.
  destruct (manifest_present files), (nonempty (build_tools ts)), (has_tests ts),
           (nonempty (frameworks ts)),
           (truthy (primary_language ts) && negb (primary_language ts =? "Unknown"));
    vm_compute; reflexivity.
Qed.

Lemma empty_list_stack : forall w dir,
  TechStackDetector.detect_tech_stack w [] dir
  = Ok {| primary_language := "Unknown";
          language_stats := [];
          version_info := {| language_version := "latest"; framework_versions := [] |};
          frameworks := [];
          build_tools := [];
          package_managers := [];
          has_tests := false;
          has_dockerfile := false |}.
Proof. intros w dir. reflexivity. Qed.

(** C4. The confidence score is 0.4, plus 0.15 when a known manifest name
    is among the files, plus 0.1 when build tools were found, plus 0.1 when
    tests were found, plus 0.1 when frameworks were found, plus 0.15 when
    the primary language is known, the sum clamped to 1.0; it lies in
    [0, 1]; and the analysis of the empty file list scores exactly 0.4. *)
Theorem C4_confidence : forall (ts : TechStack) (files : list file_info),
  let c := _calculate_confidence ts files in
  c = min (0.4 + (if manifest_present files then 0.15 else 0)
           + (if nonempty (build_tools ts) then 0.1 else 0)
           + (if has_tests ts then 0.1 else 0)
           + (if nonempty (frameworks ts) then 0.1 else 0)
           + (if language_known ts then 0.15 else 0))%float 1.0%float
  /\ PrimFloat.leb 0 c = true
  /\ PrimFloat.leb c 1 = true
  /\ (forall (w : World) (dir : option string),
        exists ts0, TechStackDetector.detect_tech_stack w [] dir = Ok ts0
                    /\ _calculate_confidence ts0 [] = 0.4%float).
Proof.
  intros ts files c. subst c. rewrite confidence_is_score.
  split; [reflexivity|].
  split; [|split].
  - destruct (manifest_present files), (nonempty (build_tools ts)), (has_tests ts),
             (nonempty (frameworks ts)), (language_known ts);
      vm_compute; reflexivity.
  - destruct (manifest_present files), (nonempty (build_tools ts)), (has_tests ts),
             (nonempty (frameworks ts)), (language_known ts);
      vm_compute; reflexivity.
  - intros w dir. eexists. split; [apply empty_list_stack|].
    vm_compute; reflexivity.
Qed.

End Confidence.

(* ================================================================== *)
(** * Properties of the primary language *)
(* ================================================================== *)

Section PrimaryLanguage.

Lemma insert_by_lines_perm : forall x l,
  Permutation (insert_by_lines x l) (x :: l).
Proof.
  intros x l. induction l as [|y l IH]; cbn.
  - apply Permutation_refl.
  - destruct (lines (snd y) <=? lines (snd x))%Z.
    + apply Permutation_refl.
    + eapply perm_trans; [apply perm_skip, IH | apply perm_swap].
Qed.

Lemma sort_by_lines_perm : forall l, Permutation (sort_by_lines l) l.
Proof.
  induction l as [|x l IH]; cbn.
  - constructor.
  - eapply perm_trans; [apply insert_by_lines_perm | apply perm_skip, IH].
Qed.

Lemma insert_by_lines_sorted : forall x l,
  StronglySorted more_lines l -> StronglySorted more_lines (insert_by_lines x l).
Proof.
  intros x l Hs. induction Hs as [|y l Hs IH Hy]; cbn.
  - repeat constructor.
  - destruct (lines (snd y) <=? lines (snd x))%Z eqn:E.
    + apply Z.leb_le in E. constructor.
      * constructor; assumption.
      * constructor; [exact E|].
        eapply Forall_impl; [|exact Hy].
        intros z Hz. unfold more_lines in *. lia.
    + apply Z.leb_gt in E. constructor; [exact IH|].
      eapply Permutation_Forall.
      * apply Permutation_sym, insert_by_lines_perm.
      * constructor; [unfold more_lines; lia | exact Hy].
Qed.

Lemma sort_by_lines_sorted : forall l, StronglySorted more_lines (sort_by_lines l).
Proof.
  induction l as [|x l IH]; cbn.
  - constructor.
  - apply insert_by_lines_sorted, IH.
Qed.

Lemma strongly_sorted_tail : forall (pre : list (string * LanguageStat)) x post,
  StronglySorted more_lines (pre ++ x :: post) -> Forall (more_lines x) post.
Proof.
  induction pre as [|y pre IH]; intros x post H; cbn in H.
  - inversion H; assumption.
  - inversion H; subst. apply IH; assumption.
Qed.

Lemma first_not_excluded_cons : forall l s items,
  first_not_excluded ((l, s) :: items)
  = if negb (excluded l) then Some l else first_not_excluded items.
Proof. reflexivity. Qed.

Lemma first_not_excluded_some : forall items language,
  first_not_excluded items = Some language ->
  exists pre s post,
    items = (pre ++ (language, s) :: post)%list
    /\ excluded language = false
    /\ all_excluded pre.
Proof.
  induction items as [|[l s] items IH]; intros language H.
  - discriminate.
  - rewrite first_not_excluded_cons in H.
    destruct (excluded l) eqn:E; cbn [negb] in H.
    + destruct (IH _ H) as (pre & s' & post & -> & Hx & Hpre).
      exists ((l, s) :: pre), s', post. repeat split; try assumption.
      constructor; assumption.
    + injection H as <-. exists [], s, items. repeat split; try assumption.
      constructor.
Qed.

Lemma first_not_excluded_none : forall items,
  first_not_excluded items = None -> all_excluded items.
Proof.
  induction items as [|[l s] items IH]; intros H.
  - constructor.
  - rewrite first_not_excluded_cons in H.
    destruct (excluded l) eqn:E; cbn [negb] in H.
    + constructor; [exact E | apply IH, H].
    + discriminate.
Qed.

(** What [_detect_primary_language] returns on a non-empty dictionary: an
    entry with only excluded languages before it, which is the first entry
    when it is itself excluded. *)
Lemma detect_primary_language_entry : forall items,
  items <> [] ->
  exists pre s post,
    items = (pre ++ (_detect_primary_language items, s) :: post)%list
    /\ all_excluded pre
    /\ (excluded (_detect_primary_language items) = true ->
        pre = [] /\ all_excluded post).
Proof.
  intros [|[first s0] rest] Hne; [congruence|].
  unfold _detect_primary_language.
  destruct (first_not_excluded ((first, s0) :: rest)) as [language|] eqn:E.
  - destruct (first_not_excluded_some _ _ E) as (pre & s & post & Heq & Hx & Hpre).
    exists pre, s, post. repeat split; try assumption; congruence.
  - apply first_not_excluded_none in E.
    exists [], s0, rest. repeat split.
    + constructor.
    + inversion E; assumption.
Qed.

(** The detector ranks the statistics and takes the primary language
    from the ranked map. *)
Lemma detect_tech_stack_ranked : forall w files dir ts,
  detect_tech_stack w files dir = Ok ts ->
  exists raw,
    language_stats ts = sort_by_lines raw
    /\ primary_language ts = _detect_primary_language (sort_by_lines raw).
Proof.
  intros w files dir ts H. unfold detect_tech_stack, _count_lines_by_language in H.
  destruct (count_loop w dir files [] 0%Z) as [acc|e]; cbn [bind] in H;
    [|discriminate].
  destruct (_detect_versions w files dir _) as [vi|e]; cbn [bind] in H;
    [|discriminate].
  destruct (_detect_frameworks w files dir _) as [fw|e]; cbn [bind] in H;
    [|discriminate].
  injection H as <-. cbn [language_stats primary_language].
  exists (stats_of (fst acc) (snd acc)). split; reflexivity.
Qed.

(** C2. On the statistics in descending line-count order, the primary
    language is ["Unknown"] for the empty map; otherwise it is a language
    of the map that comes after excluded languages only, so it has the
    most lines among the languages that are not excluded, and when it is
    itself excluded every language is and it has the most lines of all.
    For [{Markdown: 500, Go: 10}] it is [Go].  The detector applies the
    selection to the map it has ranked. *)
Theorem C2_primary_language : forall stats : list (string * LanguageStat),
  let ranked := sort_by_lines stats in
  let p := _detect_primary_language ranked in
  Permutation ranked stats
  /\ StronglySorted more_lines ranked
  /\ ((stats = [] /\ p = "Unknown")
      \/ (exists pre s post,
            ranked = (pre ++ (p, s) :: post)%list
            /\ In (p, s) stats
            /\ all_excluded pre
            /\ (excluded p = true -> all_excluded stats)
            /\ (forall l s', In (l, s') stats ->
                  excluded l = false \/ excluded p = true ->
                  (lines s' <= lines s)%Z)))
  /\ _detect_primary_language
       (sort_by_lines
          [("Markdown", {| lines := 500; percentage := {| tenths := 980 |} |});
           ("Go", {| lines := 10; percentage := {| tenths := 20 |} |})])
     = "Go"
  /\ (forall w files dir ts,
        detect_tech_stack w files dir = Ok ts ->
        exists raw,
          language_stats ts = sort_by_lines raw
          /\ primary_language ts = _detect_primary_language (sort_by_lines raw)).
Proof.
  intros stats ranked p.
  assert (Hperm : Permutation ranked stats) by apply sort_by_lines_perm.
  assert (Hsort : StronglySorted more_lines ranked) by apply sort_by_lines_sorted.
  split; [exact Hperm|]. split; [exact Hsort|].
  split; [|split; [reflexivity | apply detect_tech_stack_ranked]].
  destruct stats as [|x stats'] eqn:Es.
  - left. split; reflexivity.
  - right. rewrite <- Es in *.
    assert (Hne : ranked <> []).
    { intros Hnil. rewrite Hnil in Hperm.
      apply Permutation_nil in Hperm. congruence. }
    destruct (detect_primary_language_entry ranked Hne)
      as (pre & s & post & Heq & Hpre & Hexcl).
    fold p in Heq, Hexcl.
    exists pre, s, post.
    assert (Hin : In (p, s) ranked).
    { rewrite Heq. apply in_or_app. right. left. reflexivity. }
    split; [exact Heq|].
    split; [eapply Permutation_in; eassumption|].
    split; [exact Hpre|].
    split.
    + intros Hp. destruct (Hexcl Hp) as [-> Hpost].
      eapply Permutation_Forall; [exact Hperm|].
      rewrite Heq. constructor; assumption.
    + intros l s' Hl Hcase.
      apply (Permutation_in _ (Permutation_sym Hperm)) in Hl.
      rewrite Heq in Hsort, Hl.
      assert (Hpost : Forall (more_lines (p, s)) post).
      { eapply strongly_sorted_tail; exact Hsort. }
      apply in_app_or in Hl. destruct Hl as [Hl | [Hl | Hl]].
      * destruct Hcase as [Hcase | Hcase].
        -- unfold all_excluded in Hpre. rewrite Forall_forall in Hpre.
           specialize (Hpre _ Hl). cbn [fst] in Hpre. congruence.
        -- destruct (Hexcl Hcase) as [-> _]. destruct Hl.
      * injection Hl as _ <-. lia.
      * rewrite Forall_forall in Hpost. exact (Hpost _ Hl).
Qed.

End PrimaryLanguage.

(* ================================================================== *)
(** * Properties of the language percentages *)
(* ================================================================== *)

Section Percentages.




Lemma stats_of_length : forall language_lines total,
  (List.length (stats_of language_lines total) <= List.length language_lines)%nat.
Proof.
  intros ll total. unfold stats_of. destruct (0 <? total)%Z; cbn.
  - rewrite length_map. lia.
  - lia.
Qed.

Lemma add_lines_sum : forall language n ll,
  sum_lines (add_lines language n ll) = (sum_lines ll + n)%Z.
Proof.
  assert (Hcons : forall k v l, sum_lines ((k, v) :: l) = (v + sum_lines l)%Z)
    by reflexivity.
  intros language n ll. induction ll as [|[l m] ll IH]; cbn [add_lines].
  - rewrite Hcons. cbn [sum_lines fold_right]. lia.
  - destruct (l =? language); rewrite !Hcons; lia.
Qed.

Lemma add_lines_keys : forall language n ll k,
  In k (map fst (add_lines language n ll)) <-> k = language \/ In k (map fst ll).
Proof.
  intros language n ll k. induction ll as [|[l m] ll IH]; cbn.
  - intuition congruence.
  - destruct (String.eqb_spec l language) as [->|Hne]; cbn.
    + intuition congruence.
    + rewrite IH. intuition congruence.
Qed.

Lemma add_lines_nodup : forall language n ll,
  NoDup (map fst ll) -> NoDup (map fst (add_lines language n ll)).
Proof.
  intros language n ll. induction ll as [|[l m] ll IH]; cbn; intros H.
  - repeat constructor. intros [].
  - destruct (String.eqb_spec l language) as [->|Hne]; cbn.
    + exact H.
    + inversion H as [|? ? Hnotin Hnd]; subst. constructor.
      * rewrite add_lines_keys. intros [Heq | Hin]; [congruence | contradiction].
      * apply IH, Hnd.
Qed.

Lemma table_language_known : forall extension language,
  dict_get language_extensions extension = Some language ->
  In language known_languages.
Proof.
  intros extension language H. unfold known_languages. apply nodup_In.
  revert H. generalize language_extensions as table.
  induction table as [|[k v] table IH]; cbn; intros H.
  - discriminate.
  - destruct (k =? extension).
    + injection H as ->. left. reflexivity.
    + right. apply IH, H.
Qed.

Lemma count_loop_counted : forall w dir files ll total ll' total',
  count_loop w dir files ll total = Ok (ll', total') ->
  counted ll total -> counted ll' total'.
Proof.
  intros w dir files. induction files as [|f files IH]; intros ll total ll' total' H Hc.
  - cbn in H. injection H as <- <-. exact Hc.
  - cbn [count_loop] in H. destruct (type f).
    + destruct (dict_get language_extensions _) as [language|] eqn:Elang.
      * destruct (_count_file_lines w f dir) as [n|e]; cbn [bind] in H; [|discriminate].
        destruct (0 <? n)%Z.
        -- apply (IH _ _ _ _ H). destruct Hc as (Hsum & Hnd & Hincl).
           repeat split.
           ++ rewrite add_lines_sum. lia.
           ++ apply add_lines_nodup, Hnd.
           ++ intros k Hk. apply add_lines_keys in Hk. destruct Hk as [-> | Hk].
              ** eapply table_language_known, Elang.
              ** apply Hincl, Hk.
        -- apply (IH _ _ _ _ H Hc).
      * apply (IH _ _ _ _ H Hc).
    + apply (IH _ _ _ _ H Hc).
Qed.

(** At the counts of [skewed_files] the binary64 quotients lie well inside
    the rounding intervals of 99.4 and 0.0: the floats of the source round
    as the exact quotients do. *)
Lemma skewed_percentages_binary64 :
  PrimFloat.ltb 99.35 (binary64_percentage 2485 2500) = true
  /\ PrimFloat.ltb (binary64_percentage 2485 2500) 99.45 = true
  /\ PrimFloat.leb 0 (binary64_percentage 1 2500) = true
  /\ PrimFloat.ltb (binary64_percentage 1 2500) 0.05 = true.
Proof. repeat split; vm_compute; reflexivity. Qed.




End Percentages.

(* ================================================================== *)
(** * Properties of the matcher *)
(* ================================================================== *)

Section Matcher.





Lemma consumed_app : forall t s, consumed (t ++ s) s = t.
Proof.
  intros t s. unfold consumed. rewrite length_append.
  replace (String.length t + String.length s - String.length s)%nat
    with (String.length t) by lia.
  induction t as [|c t IH]; cbn [append String.length substring].
  - destruct s; reflexivity.
  - now rewrite IH.
Qed.













End Matcher.

(* ================================================================== *)
(** * Properties of the version hints *)
(* ================================================================== *)

Section GoVersion.



















End GoVersion.

(* ================================================================== *)
(** * Properties of the manifest parsers *)
(* ================================================================== *)

Section Parsers.

Variable w : World.

Lemma try_except_returns : forall {A : Type} (body : result A) (v : A),
  returns (try_except body (Ok v)).
Proof.
  intros A body v. destruct body as [a|e]; cbn; eexists; reflexivity.
Qed.

Lemma collect_returns : forall body, returns (collect body).
Proof.
  intros body. unfold collect, try_pass. cbn. eexists. reflexivity.
Qed.

(** A body that raises before it adds anything collects nothing. *)
Lemma collect_raise : forall {A : Type} (e : exn) (k : A -> Mut (list string) unit),
  collect (mbind (lift (Raise e)) k) = Ok [].
Proof. reflexivity. Qed.






Lemma framework_parsers_return : forall p, Forall returns (framework_parsers w p).
Proof.
  intros p. repeat constructor; apply collect_returns.
Qed.





(** An exception raised inside the dependency loop of [_analyze_pom_xml]
    is swallowed as well, and the frameworks added before it are kept:
    of the three dependencies of [pom_with_gap] the first is reported, the
    second raises on its missing text and the third is never looked at. *)
Lemma analyze_pom_xml_keeps_found :
  _analyze_pom_xml pom_world "/work/pom.xml" = Ok ["Spring Boot"].
Proof. vm_compute. reflexivity. Qed.


End Parsers.

(* ================================================================== *)
(** * Properties of test detection *)
(* ================================================================== *)

Section Tests.

(** What the code computes: either signal, on some record. *)
Lemma check_tests_iff : forall files,
  _check_tests files = true
  <-> exists f, In f files
                /\ (name_matches (name f) = true \/ path_matches (path f) = true).
Proof.
  intros files. unfold _check_tests. rewrite existsb_exists.
  split; intros (f & Hin & H); exists f; (split; [exact Hin|]).
  - apply orb_true_iff in H. exact H.
  - apply orb_true_iff. exact H.
Qed.

(** C9 (the code departs from the claim). A repository that holds only
    [/spectrum.txt] has no test file name and no test directory among its
    path components, yet [_check_tests] answers [True]: the test
    [path.startswith('/spec')] takes the file name for a directory. *)
Theorem C9_check_tests_prefix :
  _check_tests [spectrum] = true
  /\ name_matches (name spectrum) = false
  /\ components (path spectrum) = [""; "spectrum.txt"]
  /\ has_test_directory_component (path spectrum) = false
  /\ has_tests_by_component [spectrum] = false
  /\ startswith (path spectrum) "/spec" = true.
Proof. repeat split; vm_compute; reflexivity. Qed.

End Tests.

(* ================================================================== *)
(** * Properties of the job definitions *)
(* ================================================================== *)

Section Jobs.

Lemma one_line_app : forall a b, one_line (a ++ b) = one_line a && one_line b.
Proof.
  induction a as [|x a IH]; intros b; cbn; [reflexivity|].
  rewrite IH. apply andb_assoc.
Qed.

Lemma lower_char_LF : forall c, Ascii.eqb (lower_char c) LF = Ascii.eqb c LF.
Proof.
  intros c. destruct c as [[] [] [] [] [] [] [] []]; reflexivity.
Qed.

Lemma one_line_lower : forall s, one_line (lower s) = one_line s.
Proof.
  induction s as [|c s IH]; cbn; [reflexivity|].
  now rewrite lower_char_LF, IH.
Qed.

Lemma splitlines_terminated_nonempty : forall a, splitlines (a ++ nl) <> [].
Proof.
  induction a as [|c a IH]; cbn.
  - discriminate.
  - destruct (Ascii.eqb c LF); [discriminate|].
    destruct (splitlines (a ++ nl)); discriminate.
Qed.

(** The lines of a text that follows a terminated line come after the
    lines before it. *)
Lemma splitlines_terminated : forall a t,
  splitlines ((a ++ nl) ++ t) = (splitlines (a ++ nl) ++ splitlines t)%list.
Proof.
  induction a as [|c a IH]; intros t.
  - reflexivity.
  - cbn [append splitlines]. destruct (Ascii.eqb c LF).
    + rewrite IH. reflexivity.
    + rewrite IH. pose proof (splitlines_terminated_nonempty a) as Hne.
      destruct (splitlines (a ++ nl)) as [|l ls]; [congruence | reflexivity].
Qed.

Lemma splitlines_line : forall l, one_line l = true -> splitlines (l ++ nl) = [l].
Proof.
  induction l as [|c l IH]; intros H.
  - reflexivity.
  - cbn [one_line] in H. apply andb_true_iff in H. destruct H as [Hc Hl].
    cbn [append splitlines]. apply negb_true_iff in Hc. rewrite Hc.
    rewrite (IH Hl). reflexivity.
Qed.

Lemma run_app : forall a t seen,
  run ((a ++ nl) ++ t) seen = run t (run (a ++ nl) seen).
Proof.
  intros a t seen. unfold run. rewrite splitlines_terminated.
  apply fold_left_app.
Qed.

Lemma run_line : forall l t seen,
  one_line l = true -> run (l ++ nl ++ t) seen = run t (read_line seen l).
Proof.
  intros l t seen H. rewrite <- append_assoc, run_app. unfold run at 2.
  rewrite (splitlines_line _ H). reflexivity.
Qed.

(** A block of lines, each without a line feed, is read line by line. *)
Lemma run_unlines : forall ls t seen,
  forallb one_line ls = true ->
  run (unlines ls ++ t) seen = run t (fold_left read_line ls seen).
Proof.
  induction ls as [|l ls IH]; intros t seen H.
  - reflexivity.
  - cbn [forallb] in H. apply andb_true_iff in H. destruct H as [Hl Hls].
    cbn [unlines fold_left]. rewrite !append_assoc.
    rewrite (run_line _ _ _ Hl). apply IH, Hls.
Qed.

(** A banner: an empty line and a comment line. *)
Lemma run_banner : forall b t seen,
  one_line b = true -> String.prefix "#" b = true ->
  run (nl ++ b ++ nl ++ t) seen = run t seen.
Proof.
  intros b t seen Hb Hhash.
  change (nl ++ b ++ nl ++ t) with ("" ++ nl ++ b ++ nl ++ t).
  rewrite (run_line "" _ _ eq_refl), (run_line b _ _ Hb).
  destruct b as [|c b']; [discriminate|].
  assert (Hc : c = "#"%char).
  { cbn [String.prefix] in Hhash.
    destruct (ascii_dec "#" c); [congruence | discriminate]. }
  subst c. reflexivity.
Qed.

Lemma terminated_split : forall s, terminated s = true -> exists a, s = a ++ nl.
Proof.
  induction s as [|c s IH]; intros H; [discriminate|].
  destruct s as [|c' s'].
  - cbn in H. apply Ascii.eqb_eq in H. subst c. exists "". reflexivity.
  - destruct (IH H) as (a & Ha). exists (String c a). cbn [append].
    now rewrite <- Ha.
Qed.

Lemma run_terminated : forall text t seen,
  terminated text = true -> run (text ++ t) seen = run t (run text seen).
Proof.
  intros text t seen H. destruct (terminated_split _ H) as (a & ->).
  apply run_app.
Qed.

Ltac split_ifs :=
  repeat match goal with
         | |- context [if ?c then _ else _] => destruct c
         end.

(** Reads a closed job text in front of any text [t]. *)
Ltac read_closed :=
  split_ifs; rewrite run_terminated by (vm_compute; reflexivity);
  apply f_equal; vm_compute; reflexivity.

Lemma run_build_job : forall language tools fw t seen,
  run (_generate_build_job language tools fw ++ t) seen
  = run t (a_job "build" "build" false :: seen).
Proof.
  intros. unfold _generate_build_job, default_build_job. read_closed.
Qed.

Lemma run_test_job : forall language tools fw t seen,
  run (_generate_test_job language tools fw ++ t) seen
  = run t (a_job "test" "test" false :: seen).
Proof.
  intros. unfold _generate_test_job, default_test_job. read_closed.
Qed.

Lemma run_quality_job : forall language fw t seen,
  run (_generate_quality_job language fw ++ t) seen
  = run t (a_job "code-quality" "quality" true :: seen).
Proof.
  intros. unfold _generate_quality_job. read_closed.
Qed.

Lemma run_sonarqube_job : forall language t seen,
  run (_generate_sonarqube_job language ++ t) seen
  = run t (a_job "sonarqube-check" "quality" true :: seen).
Proof.
  intros. unfold _generate_sonarqube_job. read_closed.
Qed.

Lemma run_package_job : forall language fw t seen,
  run (_generate_package_job language fw ++ t) seen
  = run t (a_job "package" "package" false :: seen).
Proof.
  intros. unfold _generate_package_job. read_closed.
Qed.

Lemma run_nexus_upload_job : forall language t seen,
  run (_generate_nexus_upload_job language ++ t) seen
  = run t (a_job "nexus-upload" "package" false :: seen).
Proof.
  intros. unfold _generate_nexus_upload_job. read_closed.
Qed.

(** The job texts into which the repository name is spliced. *)
Section SplicedName.

Variable repo_name : string.
Hypothesis single_line : one_line repo_name = true.

(** Proves that the lines of such a text hold no line feed. *)
Ltac lines_one_line :=
  cbn [forallb]; rewrite ?one_line_app, ?one_line_lower, ?single_line;
  vm_compute; reflexivity.

Lemma run_docker_build_job : forall t seen,
  run (_generate_docker_build_job repo_name ++ t) seen
  = run t (a_job "docker-build" "docker-build" false :: seen).
Proof.
  intros t seen. unfold _generate_docker_build_job.
  rewrite run_unlines by lines_one_line.
  apply f_equal. vm_compute. reflexivity.
Qed.

Lemma run_docker_security_scan_job : forall t seen,
  run (_generate_docker_security_scan_job repo_name ++ t) seen
  = run t (a_job "docker-security-scan" "docker-build" true :: seen).
Proof.
  intros t seen. unfold _generate_docker_security_scan_job.
  rewrite run_unlines by lines_one_line.
  apply f_equal. vm_compute. reflexivity.
Qed.

Lemma run_deployment_jobs : forall containerized t seen,
  run (_generate_deployment_jobs repo_name containerized ++ t) seen
  = run t (a_job "deploy-production" "deploy-production" false
           :: a_job "deploy-staging" "deploy-staging" false :: seen).
Proof.
  intros containerized t seen. unfold _generate_deployment_jobs.
  destruct containerized; cbv zeta;
    (rewrite run_unlines by lines_one_line);
    apply f_equal; vm_compute; reflexivity.
Qed.

End SplicedName.

(** The jobs of every synthesized pipeline. *)
Lemma job_table : forall (self : PipelineGenerator.t) (a : AnalysisResult),
  one_line (Repository.name (repository a)) = true ->
  jobs (pipeline_jobs self a) = expected_jobs self (tech_stack a).
Proof.
  intros self a H. unfold jobs. fold (run (pipeline_jobs self a) []).
  unfold pipeline_jobs, expected_jobs.
  set (ts := tech_stack a). set (r := Repository.name (repository a)) in *.
  rewrite <- (append_nil_r (_generate_deployment_jobs _ _)).
  pose proof (run_build_job (primary_language ts) (build_tools ts) (frameworks ts))
    as Hbuild.
  pose proof (run_test_job (primary_language ts) (build_tools ts) (frameworks ts))
    as Htest.
  pose proof (run_quality_job (primary_language ts) (frameworks ts)) as Hquality.
  pose proof (run_sonarqube_job (primary_language ts)) as Hsonar.
  pose proof (run_package_job (primary_language ts) (frameworks ts)) as Hpackage.
  pose proof (run_nexus_upload_job (primary_language ts)) as Hnexus.
  pose proof (run_docker_build_job r H) as Hdocker.
  pose proof (run_docker_security_scan_job r H) as Hscan.
  pose proof (run_deployment_jobs r H (has_dockerfile ts)) as Hdeploy.
  set (build := _generate_build_job _ _ _) in *. clearbody build.
  set (test := _generate_test_job _ _ _) in *. clearbody test.
  set (quality := _generate_quality_job _ _) in *. clearbody quality.
  set (sonar := _generate_sonarqube_job _) in *. clearbody sonar.
  set (package := _generate_package_job _ _) in *. clearbody package.
  set (nexus := _generate_nexus_upload_job _) in *. clearbody nexus.
  set (docker := _generate_docker_build_job _) in *. clearbody docker.
  set (scan := _generate_docker_security_scan_job _) in *. clearbody scan.
  set (deploy := _generate_deployment_jobs _ _) in *. clearbody deploy.
  destruct (has_tests ts), (sonarqube_enabled self),
           (nexus_enabled self), (has_dockerfile ts);
    rewrite ?append_assoc, ?append_nil_l;
    repeat first
      [ rewrite run_banner by reflexivity
      | rewrite Hbuild | rewrite Htest | rewrite Hquality | rewrite Hsonar
      | rewrite Hpackage | rewrite Hnexus | rewrite Hdocker | rewrite Hscan
      | rewrite Hdeploy ];
    reflexivity.
Qed.

(** C5. In every synthesized pipeline whose repository name is a single
    line, the jobs of the quality stage are [code-quality] and, when the
    SonarQube flag is set, [sonarqube-check]; each of them carries
    [allow_failure: true], whatever the language of the profile. *)
Theorem C5_quality_jobs_allow_failure :
  forall (self : PipelineGenerator.t) (a : AnalysisResult),
    one_line (Repository.name (repository a)) = true ->
    map job_name (jobs_in_stage "quality" (pipeline_jobs self a))
    = "code-quality"
      :: (if sonarqube_enabled self then ["sonarqube-check"] else [])
    /\ forallb allow_failure (jobs_in_stage "quality" (pipeline_jobs self a)) = true.
Proof.
  intros self a H. unfold jobs_in_stage. rewrite (job_table self a H).
  unfold expected_jobs.
  destruct (has_tests (tech_stack a)), (sonarqube_enabled self),
           (nexus_enabled self), (has_dockerfile (tech_stack a));
    split; reflexivity.
Qed.

Lemma C5_quality_jobs_allow_failure_witness :
  map job_name (jobs_in_stage "quality" (pipeline_jobs init Samples.run1))
  = ["code-quality"; "sonarqube-check"]
  /\ forallb allow_failure (jobs_in_stage "quality" (pipeline_jobs init Samples.run1))
     = true.
Proof.
  apply (C5_quality_jobs_allow_failure init Samples.run1). reflexivity.
Defined.



End Jobs.

(* ================================================================== *)
(** * Properties of the build tools *)
(* ================================================================== *)

Section Sets.

Lemma in_list_In : forall x l, in_list x l = true <-> In x l.
Proof.
  intros x l. unfold in_list. rewrite existsb_exists. split.
  - intros (y & Hy & E). apply String.eqb_eq in E. now subst.
  - intros H. exists x. split; [assumption | apply String.eqb_refl].
Qed.

Lemma set_add_In : forall x s y, In y (set_add x s) <-> y = x \/ In y s.
Proof.
  intros x s y. unfold set_add. destruct (in_list x s) eqn:E.
  - apply in_list_In in E. split; [now right | intros [->|H]; assumption].
  - rewrite in_app_iff. cbn. split.
    + intros [H|[H|[]]]; [now right | now left].
    + intros [->|H]; [right; now left | now left].
Qed.

Lemma set_add_NoDup : forall x s, NoDup s -> NoDup (set_add x s).
Proof.
  intros x s H. unfold set_add. destruct (in_list x s) eqn:E; [assumption|].
  assert (Hn : ~ In x s).
  { intros Hin. apply in_list_In in Hin. congruence. }
  clear E. induction H as [|y s Hy Hs IH]; cbn.
  - constructor; [intros [] | constructor].
  - constructor.
    + rewrite in_app_iff. cbn. intros Hin.
      destruct Hin as [Hin|[Hin|[]]]; [now apply Hy|].
      apply Hn. now left.
    + apply IH. intros Hin. apply Hn. now right.
Qed.

Lemma set_update_In : forall u s y, In y (set_update s u) <-> In y s \/ In y u.
Proof.
  unfold set_update. induction u as [|x u IH]; intros s y; cbn.
  - tauto.
  - rewrite IH, set_add_In. intuition congruence.
Qed.

Lemma set_update_NoDup : forall u s, NoDup s -> NoDup (set_update s u).
Proof.
  unfold set_update. induction u as [|x u IH]; intros s H; cbn; [assumption|].
  apply IH, set_add_NoDup, H.
Qed.

Lemma insert_sorted_perm : forall x l, Permutation (insert_sorted x l) (x :: l).
Proof.
  intros x l. induction l as [|y l IH]; cbn; [reflexivity|].
  destruct (x <=? y); [reflexivity|].
  rewrite IH. apply perm_swap.
Qed.

Lemma sorted_perm : forall l, Permutation (sorted l) l.
Proof.
  induction l as [|x l IH]; cbn; [constructor|].
  rewrite insert_sorted_perm. now constructor.
Qed.

Lemma insert_sorted_ascending : forall x l,
  Sorted (fun a b => (a <=? b) = true) l ->
  Sorted (fun a b => (a <=? b) = true) (insert_sorted x l).
Proof.
  intros x l H. induction H as [|y l Hs IH Hy]; cbn.
  - repeat constructor.
  - destruct (x <=? y) eqn:E.
    + constructor; [constructor; assumption | constructor; assumption].
    + constructor; [assumption|].
      assert (Hyx : (y <=? x) = true).
      { destruct (String.leb_total x y) as [H|H]; [congruence | assumption]. }
      destruct l as [|z l]; cbn.
      * now constructor.
      * destruct (x <=? z); constructor; [assumption|].
        now inversion Hy.
Qed.

Lemma sorted_ascending : forall l, Sorted (fun a b => (a <=? b) = true) (sorted l).
Proof.
  induction l as [|x l IH]; cbn; [constructor|].
  apply insert_sorted_ascending, IH.
Qed.

Lemma sorted_In : forall l x, In x (sorted l) <-> In x l.
Proof.
  intros l x. split; apply Permutation_in;
    [apply sorted_perm | symmetry; apply sorted_perm].
Qed.

Lemma sorted_NoDup : forall l, NoDup l -> NoDup (sorted l).
Proof.
  intros l H. eapply Permutation_NoDup; [symmetry; apply sorted_perm | exact H].
Qed.

End Sets.

Section BuildTools.

Lemma build_tools_loop : forall files acc tool,
  In tool
    (fold_left
       (fun tools file_info =>
          if is_file file_info then
            match dict_get build_tool_mapping (name file_info) with
            | Some tool => set_add tool tools
            | None => tools
            end
          else tools) files acc)
  <-> In tool acc \/ exists f, In f files /\ tool_of f = Some tool.
Proof.
  induction files as [|f files IH]; intros acc tool; cbn [fold_left].
  - split; [now left | intros [H|(f & [] & _)]; assumption].
  - rewrite IH. unfold tool_of at 2. cbn [In].
    destruct (is_file f) eqn:Ef.
    + destruct (dict_get build_tool_mapping (name f)) as [t|] eqn:Et.
      * rewrite set_add_In. split.
        -- intros [[->|H]|(f' & Hin & H')].
           ++ right. exists f. split; [now left|]. unfold tool_of. now rewrite Ef, Et.
           ++ now left.
           ++ right. exists f'. split; [now right | assumption].
        -- intros [H|(f' & [<-|Hin] & H')].
           ++ left. now right.
           ++ left. left. unfold tool_of in H'. rewrite Ef, Et in H'. congruence.
           ++ right. now exists f'.
      * split.
        -- intros [H|(f' & Hin & H')]; [now left|].
           right. exists f'. split; [now right | assumption].
        -- intros [H|(f' & [<-|Hin] & H')]; [now left | |].
           ++ unfold tool_of in H'. rewrite Ef, Et in H'. discriminate.
           ++ right. now exists f'.
    + split.
      * intros [H|(f' & Hin & H')]; [now left|].
        right. exists f'. split; [now right | assumption].
      * intros [H|(f' & [<-|Hin] & H')]; [now left | |].
        -- unfold tool_of in H'. rewrite Ef in H'. discriminate.
        -- right. now exists f'.
Qed.

Lemma build_tools_loop_NoDup : forall files acc,
  NoDup acc ->
  NoDup
    (fold_left
       (fun tools file_info =>
          if is_file file_info then
            match dict_get build_tool_mapping (name file_info) with
            | Some tool => set_add tool tools
            | None => tools
            end
          else tools) files acc).
Proof.
  induction files as [|f files IH]; intros acc H; cbn [fold_left]; [assumption|].
  apply IH. destruct (is_file f); [|assumption].
  destruct (dict_get build_tool_mapping (name f)); [|assumption].
  apply set_add_NoDup, H.
Qed.

(** X1.  The build tools of a file list: a tool is reported exactly when some
    regular file bears a name of the table that maps to it; the list is
    sorted and free of duplicates, and the package managers are the build
    tools. *)
Theorem X1_build_tools : forall files,
  (forall tool,
     In tool (_detect_build_tools files)
     <-> exists f, In f files /\ is_file f = true
                   /\ dict_get build_tool_mapping (name f) = Some tool)
  /\ NoDup (_detect_build_tools files)
  /\ Sorted (fun a b => (a <=? b) = true) (_detect_build_tools files)
  /\ _detect_package_managers (_detect_build_tools files) = _detect_build_tools files.
Proof.
  intros files. unfold _detect_build_tools. split; [|split; [|split]].
  - intros tool. rewrite sorted_In, build_tools_loop. split.
    + intros [[]|(f & Hin & H)]. exists f. split; [assumption|].
      unfold tool_of in H. destruct (is_file f); [now split | discriminate].
    + intros (f & Hin & Hf & H). right. exists f. split; [assumption|].
      unfold tool_of. now rewrite Hf.
  - apply sorted_NoDup, build_tools_loop_NoDup. constructor.
  - apply sorted_ascending.
  - reflexivity.
Qed.

End BuildTools.

(* ================================================================== *)
(** * Properties of the language statistics *)
(* ================================================================== *)

Section LanguageStats.

Variable w : World.
Variable dir : option string.

Lemma significant_nonneg : forall ls, (0 <= significant ls)%Z.
Proof. intros ls. unfold significant. lia. Qed.

Lemma count_file_lines_value : forall f,
  _count_file_lines w f dir = Ok (file_lines w dir f) /\ (0 <= file_lines w dir f)%Z.
Proof.
  intros f. unfold file_lines, _count_file_lines.
  destruct (truthy_opt dir && truthy (full_path f)); cbn [try_except];
    [|split; [reflexivity | lia]].
  destruct (negb (path_exists w (full_path f))); cbn [try_except];
    [split; [reflexivity | lia]|].
  destruct (getsize w (full_path f)) as [sz|e]; cbn [bind try_except];
    [|split; [reflexivity | lia]].
  destruct (1024 * 1024 <? sz)%Z; cbn [try_except]; [split; [reflexivity | lia]|].
  destruct (read_text_ignore w (full_path f)) as [content|e]; cbn [bind try_except];
    [|split; [reflexivity | lia]].
  split; [reflexivity | apply significant_nonneg].
Qed.






Lemma dict_get_In : forall (V : Type) (d : list (string * V)) k v,
  dict_get d k = Some v -> In (k, v) d.
Proof.
  intros V d k v. induction d as [|[k' v'] d IH]; cbn; [discriminate|].
  destruct (k' =? k) eqn:E.
  - apply String.eqb_eq in E. intros H. injection H as <-. subst. now left.
  - intros H. right. now apply IH.
Qed.







End LanguageStats.

(* ================================================================== *)
(** * Stacks without a language *)
(* ================================================================== *)

Section Unknown.

Variable w : World.

Lemma count_loop_idle : forall dir files ll total,
  (forall f, In f files -> language_of f <> None -> file_lines w dir f = 0%Z) ->
  count_loop w dir files ll total = Ok (ll, total).
Proof.
  intros dir. induction files as [|f files IH]; intros ll total H; [reflexivity|].
  cbn [count_loop].
  pose proof (H f (or_introl eq_refl)) as Hf. unfold language_of, is_file in Hf.
  assert (IH' := IH ll total (fun f' Hin => H f' (or_intror Hin))).
  destruct (type f); [|exact IH'].
  destruct (dict_get language_extensions
              (lower match extension f with Some e => e | None => "" end));
    [|exact IH'].
  destruct (count_file_lines_value w dir f) as [Hc _]. rewrite Hc. cbn [bind].
  rewrite Hf by discriminate. cbn. exact IH'.
Qed.

Lemma file_structure_frameworks_set : forall files,
  set_update [] (_analyze_by_file_structure files) = _analyze_by_file_structure files.
Proof.
  intros files. unfold _analyze_by_file_structure.
  repeat match goal with
         | |- context [if ?c then _ else _] => destruct c
         end; reflexivity.
Qed.

Lemma idle_stack : forall dir files,
  (forall f, In f files -> language_of f <> None -> file_lines w dir f = 0%Z) ->
  detect_tech_stack w files dir = Ok (unknown_stack files).
Proof.
  intros dir files H. unfold detect_tech_stack, _count_lines_by_language.
  rewrite (count_loop_idle dir files [] 0%Z H). cbn [bind fst snd].
  cbn [stats_of Z.ltb Z.compare sort_by_lines fold_right _detect_primary_language].
  unfold _detect_versions, _detect_frameworks.
  change ("Unknown" =? "Java") with false. change ("Unknown" =? "Go") with false.
  change ("Unknown" =? "Python") with false.
  change (in_list "Unknown" ["TypeScript"; "JavaScript"]) with false.
  change (in_list "Unknown" ["JavaScript"; "TypeScript"]) with false.
  change (in_list "Unknown" ["Java"; "Kotlin"]) with false.
  cbn [bind]. rewrite file_structure_frameworks_set. reflexivity.
Qed.

(** X3.  Without a project directory no file is read: whatever the files hold,
    the primary language is Unknown, the version is latest, and the other
    signals come from names and paths alone. *)
Theorem X3_no_project_dir : forall (dir : option string) (files : list file_info),
  truthy_opt dir = false ->
  detect_tech_stack w files dir = Ok (unknown_stack files).
Proof.
  intros dir files Hdir. apply idle_stack. intros f _ _.
  unfold file_lines, _count_file_lines. rewrite Hdir. reflexivity.
Qed.

(** X4.  Source files above one mebibyte are not counted: a file list whose
    files of a known language are all larger has primary language Unknown. *)
Theorem X4_oversized_files : forall (dir : option string) (files : list file_info),
  (forall f, In f files -> language_of f <> None -> oversized w f) ->
  detect_tech_stack w files dir = Ok (unknown_stack files).
Proof.
  intros dir files H. apply idle_stack. intros f Hin Hl.
  destruct (H f Hin Hl) as (sz & Hsz & Hbig).
  unfold file_lines, _count_file_lines.
  destruct (truthy_opt dir && truthy (full_path f)); [|reflexivity].
  destruct (negb (path_exists w (full_path f))); [reflexivity|].
  rewrite Hsz. cbn [bind].
  apply Z.ltb_lt in Hbig. rewrite Hbig. reflexivity.
Qed.

End Unknown.

Lemma X3_no_project_dir_witness :
  detect_tech_stack (Samples.world_of []) go_files None
  = Ok (unknown_stack go_files).
Proof. apply X3_no_project_dir. reflexivity. Defined.

Lemma X4_oversized_files_witness :
  detect_tech_stack Cases.big_world go_files (Some "/work")
  = Ok (unknown_stack go_files).
Proof.
  apply X4_oversized_files. intros f _ _.
  exists 2000000%Z. split; [reflexivity | lia].
Defined.

(* ================================================================== *)
(** * Properties of the versions *)
(* ================================================================== *)

Section Versions.

Variable w : World.

Lemma override_from_hint : forall extract files manifest dir vi,
  (forall p, returns (extract p)) ->
  override_from extract (_find_file files manifest) dir vi
  = Ok match version_hint extract files manifest dir with
       | Some v => set_language_version v vi
       | None => vi
       end.
Proof.
  intros extract files manifest dir vi Hret. unfold override_from, version_hint.
  destruct (_find_file files manifest) as [p|]; [|reflexivity].
  destruct (truthy p && truthy_opt dir); [|reflexivity].
  destruct (Hret p) as [v Hv]. rewrite Hv. cbn [bind].
  destruct v as [v|]; [|reflexivity].
  cbn [truthy_opt]. destruct (truthy v); reflexivity.
Qed.

Lemma version_hint_truthy : forall extract files manifest dir v,
  version_hint extract files manifest dir = Some v -> truthy v = true.
Proof.
  intros extract files manifest dir v. unfold version_hint.
  destruct (_find_file files manifest) as [p|]; [|discriminate].
  destruct (truthy p && truthy_opt dir); [|discriminate].
  destruct (extract p) as [[v'|]|]; try discriminate.
  destruct (truthy v') eqn:E; [|discriminate].
  intros H. injection H as <-. exact E.
Qed.

Lemma default_version_truthy : forall language,
  truthy match dict_get default_versions language with
         | Some v => v
         | None => "latest"
         end = true.
Proof.
  intros language. cbn [dict_get default_versions].
  repeat match goal with
         | |- context [if ?c then _ else _] => destruct c; [reflexivity|]
         end.
  reflexivity.
Qed.

(** X5.  The version information of every language: the language version is
    never empty, since a hint replaces the default only when it is not
    empty, and no framework version is ever recorded.  Only Java, Go,
    Python, TypeScript and JavaScript read a manifest: for every other
    language (Kotlin among them) the version is its default, or latest,
    whatever the files hold. *)
Theorem X5_versions : forall (files : list file_info) (dir : option string)
    (language : string),
  exists vi,
    _detect_versions w files dir language = Ok vi
    /\ truthy (language_version vi) = true
    /\ framework_versions vi = []
    /\ (in_list language ["Java"; "Go"; "Python"; "TypeScript"; "JavaScript"] = false ->
        language_version vi
        = match dict_get default_versions language with
          | Some v => v
          | None => "latest"
          end)
    /\ (language = "Kotlin" -> language_version vi = "1.8").
Proof.
  intros files dir language. unfold _detect_versions.
  pose proof (default_version_truthy language) as Hd.
  set (d := match dict_get default_versions language with
            | Some v => v
            | None => "latest"
            end) in *.
  assert (Hk : language = "Kotlin" -> d = "1.8") by (intros ->; reflexivity).
  clearbody d.
  assert (Hstep : forall extract manifest vi,
            (forall p, returns (extract p)) ->
            truthy (language_version vi) = true -> framework_versions vi = [] ->
            exists vi',
              override_from extract (_find_file files manifest) dir vi = Ok vi'
              /\ truthy (language_version vi') = true
              /\ framework_versions vi' = []).
  { intros extract manifest vi Hret Ht Hf. rewrite override_from_hint by exact Hret.
    eexists. split; [reflexivity|].
    destruct (version_hint extract files manifest dir) as [v|] eqn:Ev.
    - split; [exact (version_hint_truthy _ _ _ _ _ Ev) | exact Hf].
    - split; assumption. }
  destruct (language =? "Java") eqn:EJ.
  { apply String.eqb_eq in EJ. subst language.
    destruct (Hstep (_extract_java_version_from_pom w) "pom.xml"
                {| language_version := d; framework_versions := [] |})
      as (vi1 & E1 & T1 & F1);
      [intros p; apply try_except_returns | exact Hd | reflexivity |].
    rewrite E1. cbn [bind].
    destruct (Hstep (_extract_java_version_from_gradle w) "build.gradle" vi1)
      as (vi2 & E2 & T2 & F2);
      [intros p; apply try_except_returns | exact T1 | exact F1 |].
    exists vi2. repeat split; try assumption; discriminate. }
  destruct (language =? "Go") eqn:EG.
  { apply String.eqb_eq in EG. subst language.
    destruct (Hstep (_extract_go_version w) "go.mod"
                {| language_version := d; framework_versions := [] |})
      as (vi1 & E1 & T1 & F1);
      [intros p; apply try_except_returns | exact Hd | reflexivity |].
    exists vi1. repeat split; try assumption; discriminate. }
  destruct (language =? "Python") eqn:EP.
  { apply String.eqb_eq in EP. subst language.
    destruct (Hstep (_extract_python_version_from_pyproject w) "pyproject.toml"
                {| language_version := d; framework_versions := [] |})
      as (vi1 & E1 & T1 & F1);
      [intros p; apply try_except_returns | exact Hd | reflexivity |].
    exists vi1. repeat split; try assumption; discriminate. }
  destruct (in_list language ["TypeScript"; "JavaScript"]) eqn:EN.
  { destruct (Hstep (_extract_node_version w) "package.json"
                {| language_version := d; framework_versions := [] |})
      as (vi1 & E1 & T1 & F1);
      [intros p; apply try_except_returns | exact Hd | reflexivity |].
    exists vi1. repeat split; try assumption.
    - intros H. exfalso. cbn in H, EN. rewrite EJ, EG, EP in H.
      cbn in H. rewrite H in EN. discriminate.
    - intros ->. discriminate. }
  eexists. split; [reflexivity|]. cbn [language_version framework_versions].
  split; [exact Hd|]. split; [reflexivity|]. split; [reflexivity | exact Hk].
Qed.

(** X6.  The Java version: the hint of [build.gradle] when there is one, else
    the hint of [pom.xml], else the default 11. *)
Theorem X6_java_version : forall (files : list file_info) (dir : option string),
  _detect_versions w files dir "Java"
  = Ok {| language_version :=
            match version_hint (_extract_java_version_from_gradle w)
                    files "build.gradle" dir with
            | Some v => v
            | None =>
                match version_hint (_extract_java_version_from_pom w)
                        files "pom.xml" dir with
                | Some v => v
                | None => "11"
                end
            end;
          framework_versions := [] |}.
Proof.
  intros files dir. unfold _detect_versions.
  change ("Java" =? "Java") with true. cbn match.
  rewrite override_from_hint by (intros p; apply try_except_returns).
  cbn [bind].
  rewrite override_from_hint by (intros p; apply try_except_returns).
  destruct (version_hint (_extract_java_version_from_gradle w) files "build.gradle" dir);
    destruct (version_hint (_extract_java_version_from_pom w) files "pom.xml" dir);
    reflexivity.
Qed.

End Versions.

(* ================================================================== *)
(** * Properties of the framework tables *)
(* ================================================================== *)

Section Frameworks.

Variable w : World.

Lemma add_matching_spec : forall mapping test s,
  snd (add_matching mapping test s) = Ok tt
  /\ (forall x, In x (fst (add_matching mapping test s))
                <-> In x s \/ matching mapping test x)
  /\ (NoDup s -> NoDup (fst (add_matching mapping test s))).
Proof.
  unfold add_matching, matching.
  induction mapping as [|[key name] mapping IH]; intros test s; cbn [for_each].
  - cbn. split; [reflexivity|]. split; [|auto].
    intros x. split; [now left | intros [H|(k & [] & _)]; exact H].
  - unfold mbind at 1. cbn [fst snd].
    destruct (test key) eqn:Et.
    + unfold modify at 1. destruct (IH test (set_add name s)) as (Hr & Hin & Hnd).
      split; [exact Hr|]. split.
      * intros x. rewrite Hin, set_add_In. split.
        -- intros [[->|H]|(k & Hk & Ht)].
           ++ right. exists key. split; [now left | exact Et].
           ++ now left.
           ++ right. exists k. split; [now right | exact Ht].
        -- intros [H|(k & [E|Hk] & Ht)].
           ++ left. now right.
           ++ injection E as <- <-. left. now left.
           ++ right. exists k. split; assumption.
      * intros H. apply Hnd, set_add_NoDup, H.
    + unfold mret at 1. destruct (IH test s) as (Hr & Hin & Hnd).
      split; [exact Hr|]. split; [|exact Hnd].
      intros x. rewrite Hin. split.
      * intros [H|(k & Hk & Ht)]; [now left|].
        right. exists k. split; [now right | exact Ht].
      * intros [H|(k & [E|Hk] & Ht)]; [now left | |].
        -- injection E as <- <-. congruence.
        -- right. exists k. split; assumption.
Qed.

Lemma collect_value : forall body, collect body = Ok (fst (body [])).
Proof. reflexivity. Qed.

Lemma matching_name : forall mapping test x,
  matching mapping test x -> In x (map snd mapping).
Proof.
  intros mapping test x (key & Hin & _).
  change x with (snd (key, x)). now apply in_map.
Qed.

(** A manifest read as one text: a name is reported exactly when its key
    occurs in the text. *)
Lemma text_manifest : forall (read : result string) mapping (prepare : string -> string),
  collect (content <~ lift read ;;
           add_matching mapping (fun key => contains key (prepare content)))
  = Ok match read with
       | Ok content =>
           fst (add_matching mapping (fun key => contains key (prepare content)) [])
       | Raise _ => []
       end.
Proof.
  intros read mapping prepare. rewrite collect_value. unfold mbind, lift.
  destruct read; reflexivity.
Qed.

End Frameworks.

(* ================================================================== *)
(** * Manifests read as text *)
(* ================================================================== *)

Section TextManifests.

Variable w : World.

Lemma prefix_app_l : forall a b s,
  String.prefix (a ++ b) s = true -> String.prefix a s = true.
Proof.
  induction a as [|c a IH]; intros b s; [destruct s; reflexivity|].
  destruct s as [|c' s]; cbn; [discriminate|].
  destruct (ascii_dec c c'); [apply IH | discriminate].
Qed.

Lemma contains_app_l : forall a b s,
  contains (a ++ b) s = true -> contains a s = true.
Proof.
  intros a b. induction s as [|c s IH]; cbn [contains].
  - rewrite !orb_false_r. apply prefix_app_l.
  - intros H. apply orb_true_iff in H. apply orb_true_iff.
    destruct H as [H|H]; [left; exact (prefix_app_l _ _ _ H) | right; exact (IH H)].
Qed.

Lemma text_manifest_spec : forall (read : result string) mapping prepare content,
  read = Ok content ->
  exists l,
    collect (content <~ lift read ;;
             add_matching mapping (fun key => contains key (prepare content)))
    = Ok l
    /\ NoDup l
    /\ (forall x, In x l
                  <-> matching mapping (fun key => contains key (prepare content)) x).
Proof.
  intros read mapping prepare content ->. rewrite text_manifest.
  eexists. split; [reflexivity|].
  destruct (add_matching_spec mapping (fun key => contains key (prepare content)) [])
    as (_ & Hin & Hnd).
  split; [apply Hnd; constructor|].
  intros x. rewrite Hin. split; [intros [[]|H]; exact H | now right].
Qed.

(** X7.  The manifests read as one text.  [pyproject.toml] and [build.gradle]
    report a name exactly when its key occurs in the lower-cased text,
    [go.mod] when it occurs in the text as written; no name is reported
    twice.  A [build.gradle] reported as Spring Boot is always reported
    as Spring Framework too. *)
Theorem X7_text_manifests : forall (p content : string),
  read_text w p = Ok content ->
  (exists l,
     _analyze_pyproject_toml w p = Ok l /\ NoDup l
     /\ forall x, In x l
                  <-> matching pyproject_mapping
                        (fun key => contains key (lower content)) x)
  /\ (exists l,
        _analyze_gradle w p = Ok l /\ NoDup l
        /\ (forall x, In x l
                      <-> matching gradle_mapping
                            (fun key => contains key (lower content)) x)
        /\ (In "Spring Boot" l -> In "Spring Framework" l))
  /\ (exists l,
        _analyze_go_mod w p = Ok l /\ NoDup l
        /\ forall x, In x l
                     <-> matching go_mod_mapping (fun key => contains key content) x).
Proof.
  intros p content Hread. split; [|split].
  - exact (text_manifest_spec (read_text w p) pyproject_mapping lower content Hread).
  - destruct (text_manifest_spec (read_text w p) gradle_mapping lower content Hread)
      as (l & E & Hnd & Hin).
    exists l. split; [exact E|]. split; [exact Hnd|]. split; [exact Hin|].
    rewrite !Hin. intros (key & Hkey & Hc).
    exists "spring". split; [cbn; tauto|].
    cbn in Hkey.
    destruct Hkey as [H|[H|[H|[H|[H|[]]]]]]; try discriminate.
    injection H as <-. exact (contains_app_l "spring" "-boot" _ Hc).
  - exact (text_manifest_spec (read_text w p) go_mod_mapping (fun s => s) content Hread).
Qed.

Lemma requirements_loop : forall lines s,
  snd (for_each lines
         (fun line =>
            let line := lower (strip line) in
            if truthy line && negb (startswith line "#") then
              let package_name := strip (split_head "><=!" line) in
              add_matching requirements_mapping
                (fun framework_key => contains framework_key package_name)
            else mret tt) s) = Ok tt
  /\ (forall x,
        In x (fst (for_each lines
                     (fun line =>
                        let line := lower (strip line) in
                        if truthy line && negb (startswith line "#") then
                          let package_name := strip (split_head "><=!" line) in
                          add_matching requirements_mapping
                            (fun framework_key => contains framework_key package_name)
                        else mret tt) s))
        <-> In x s
            \/ exists line package,
                 In line lines /\ requirement line = Some package
                 /\ matching requirements_mapping
                      (fun key => contains key package) x)
  /\ (NoDup s ->
      NoDup (fst (for_each lines
                    (fun line =>
                       let line := lower (strip line) in
                       if truthy line && negb (startswith line "#") then
                         let package_name := strip (split_head "><=!" line) in
                         add_matching requirements_mapping
                           (fun framework_key => contains framework_key package_name)
                       else mret tt) s))).
Proof.
  intros ls. induction ls as [|line ls IH]; intros s; cbn [for_each].
  - cbn. split; [reflexivity|]. split; [|auto].
    intros x. split; [now left | intros [H|(l & pk & [] & _)]; exact H].
  - unfold mbind at 1 2 3. cbv zeta.
    assert (Hreq : requirement line
                   = if truthy (lower (strip line))
                        && negb (startswith (lower (strip line)) "#")
                     then Some (strip (split_head "><=!" (lower (strip line))))
                     else None) by reflexivity.
    destruct (truthy (lower (strip line))
              && negb (startswith (lower (strip line)) "#")).
    + destruct (add_matching_spec requirements_mapping
                  (fun key => contains key
                                (strip (split_head "><=!" (lower (strip line))))) s)
        as (Hr & Hin & Hnd).
      destruct (add_matching requirements_mapping
                  (fun key => contains key
                                (strip (split_head "><=!" (lower (strip line))))) s)
        as [s1 r1]. cbn [fst snd] in *. subst r1.
      destruct (IH s1) as (Hr' & Hin' & Hnd').
      split; [exact Hr'|]. split; [|intros H; apply Hnd', Hnd, H].
      intros x. rewrite Hin', Hin. split.
      * intros [[H|H]|(l & pk & Hl & Hq & Hm)].
        -- now left.
        -- right. exists line, (strip (split_head "><=!" (lower (strip line)))).
           split; [now left|]. split; [exact Hreq | exact H].
        -- right. exists l, pk. split; [now right|]. split; assumption.
      * intros [H|(l & pk & [<-|Hl] & Hq & Hm)].
        -- left. now left.
        -- left. right. rewrite Hreq in Hq. injection Hq as <-. exact Hm.
        -- right. exists l, pk. split; [exact Hl|]. split; assumption.
    + unfold mret at 1 2 3. cbn [fst snd].
      destruct (IH s) as (Hr' & Hin' & Hnd').
      split; [exact Hr'|]. split; [|exact Hnd'].
      intros x. rewrite Hin'. split.
      * intros [H|(l & pk & Hl & Hq & Hm)]; [now left|].
        right. exists l, pk. split; [now right|]. split; assumption.
      * intros [H|(l & pk & [<-|Hl] & Hq & Hm)]; [now left | |].
        -- rewrite Hreq in Hq. discriminate.
        -- right. exists l, pk. split; [exact Hl|]. split; assumption.
Qed.

(** X8.  [requirements.txt]: a framework is reported exactly when some line
    that is neither blank nor a comment names a package, before any
    version specifier, that contains the key of the framework. *)
Theorem X8_requirements : forall (p content : string),
  read_text w p = Ok content ->
  exists l,
    _analyze_requirements_txt w p = Ok l
    /\ NoDup l
    /\ forall x,
         In x l
         <-> exists line package,
               In line (readlines content)
               /\ requirement line = Some package
               /\ matching requirements_mapping (fun key => contains key package) x.
Proof.
  intros p content Hread. unfold _analyze_requirements_txt.
  rewrite collect_value, Hread. cbn [bind]. unfold mbind at 1, lift at 1.
  destruct (requirements_loop (readlines content) []) as (_ & Hin & Hnd).
  eexists. split; [reflexivity|]. split; [apply Hnd; constructor|].
  intros x. rewrite Hin. split; [intros [[]|H]; exact H | now right].
Qed.

End TextManifests.

Lemma X7_text_manifests_witness :
  read_text Cases.docker_world "/work/go.mod" = Ok go_mod_text
  /\ exists l, _analyze_go_mod Cases.docker_world "/work/go.mod" = Ok l
               /\ In "Gin" l.
Proof.
  split; [reflexivity|].
  destruct (X7_text_manifests Cases.docker_world "/work/go.mod" go_mod_text eq_refl)
    as (_ & _ & l & Hl & _ & Hin).
  exists l. split; [exact Hl|]. apply Hin.
  exists "gin-gonic/gin". split; [cbn; tauto | reflexivity].
Defined.

Lemma X8_requirements_witness :
  read_text (Samples.world_of [("/work/requirements.txt", "Flask==2.3.2" ++ nl)])
    "/work/requirements.txt" = Ok ("Flask==2.3.2" ++ nl)
  /\ exists l,
       _analyze_requirements_txt
         (Samples.world_of [("/work/requirements.txt", "Flask==2.3.2" ++ nl)])
         "/work/requirements.txt" = Ok l
       /\ In "Flask" l.
Proof.
  split; [reflexivity|].
  destruct (X8_requirements
              (Samples.world_of [("/work/requirements.txt", "Flask==2.3.2" ++ nl)])
              "/work/requirements.txt" ("Flask==2.3.2" ++ nl) eq_refl)
    as (l & Hl & _ & Hin).
  exists l. split; [exact Hl|]. apply Hin.
  exists ("Flask==2.3.2" ++ nl), "flask".
  split; [cbn; tauto|]. split; [reflexivity|].
  exists "flask". split; [cbn; tauto | reflexivity].
Defined.

(* ================================================================== *)
(** * Properties of package.json *)
(* ================================================================== *)

Section PackageJson.

Variable w : World.

Lemma has_key_members : forall (members : list (string * json)) dep,
  Json.has_key (map (fun kv => (JString (fst kv), snd kv)) members) dep
  = declared dep members.
Proof.
  intros members dep. unfold Json.has_key, declared.
  induction members as [|[k v] members IH]; cbn; [reflexivity|].
  rewrite IH. destruct (k =? dep); reflexivity.
Qed.

Lemma has_key_app : forall d1 d2 dep,
  Json.has_key (d1 ++ d2)%list dep = Json.has_key d1 dep || Json.has_key d2 dep.
Proof. intros. unfold Json.has_key. apply existsb_app. Qed.

(** X9.  [package.json]: with [dependencies] and [devDependencies] objects (or
    absent), a framework is reported exactly when one of its package names
    is a key of either; when [dependencies] is null, a number or a
    boolean, nothing is reported, whatever [devDependencies] lists. *)
Theorem X9_package_json : forall (p text : string) (members : list (string * json)),
  read_text w p = Ok text ->
  json_loads w text = Ok (JObject members) ->
  (forall deps dev,
     object_entry members "dependencies" = Some deps ->
     object_entry members "devDependencies" = Some dev ->
     exists l,
       _analyze_package_json w p = Ok l
       /\ NoDup l
       /\ forall x, In x l
                    <-> matching package_json_mapping
                          (fun dep => declared dep deps || declared dep dev) x)
  /\ (forall v,
        dict_get members "dependencies" = Some v -> scalar v = true ->
        _analyze_package_json w p = Ok []).
Proof.
  intros p text members Hread Hload. unfold _analyze_package_json.
  rewrite collect_value, Hread. cbn [bind]. rewrite Hload. cbn [bind Json.get].
  split.
  - intros deps dev Hdeps Hdev. unfold object_entry in Hdeps, Hdev.
    assert (E1 : match dict_get members "dependencies" with
                 | Some v => Ok v
                 | None => Ok (JObject [])
                 end = Ok (JObject deps)).
    { destruct (dict_get members "dependencies") as [[]|]; try discriminate;
        injection Hdeps as <-; reflexivity. }
    assert (E2 : match dict_get members "devDependencies" with
                 | Some v => Ok v
                 | None => Ok (JObject [])
                 end = Ok (JObject dev)).
    { destruct (dict_get members "devDependencies") as [[]|]; try discriminate;
        injection Hdev as <-; reflexivity. }
    rewrite E1. cbn [bind Json.update]. rewrite E2. cbn [bind Json.update app].
    unfold mbind at 1, lift at 1.
    destruct (add_matching_spec package_json_mapping
                (fun dep_name =>
                   Json.has_key
                     (map (fun kv => (JString (fst kv), snd kv)) deps
                      ++ map (fun kv => (JString (fst kv), snd kv)) dev)%list
                     dep_name) []) as (_ & Hin & Hnd).
    eexists. split; [reflexivity|]. split; [apply Hnd; constructor|].
    intros x. rewrite Hin. unfold matching. split.
    + intros [[]|(dep & Hdep & Ht)]. exists dep. split; [exact Hdep|].
      rewrite has_key_app, !has_key_members in Ht. exact Ht.
    + intros (dep & Hdep & Ht). right. exists dep. split; [exact Hdep|].
      rewrite has_key_app, !has_key_members. exact Ht.
  - intros v Hv Hs. rewrite Hv. cbn [bind].
    destruct v; try discriminate; reflexivity.
Qed.

End PackageJson.

Lemma X9_package_json_witness :
  json_loads Cases.package_world "package" = Ok (JObject Cases.package_members)
  /\ exists l, _analyze_package_json Cases.package_world "package.json" = Ok l
               /\ In "Express.js" l /\ In "Jest" l /\ ~ In "React" l.
Proof.
  split; [reflexivity|].
  destruct (X9_package_json Cases.package_world "package.json" "package"
              Cases.package_members eq_refl eq_refl) as (H & _).
  destruct (H [("express", JString "^4.18.2")] [("jest", JString "^29.0.0")]
              eq_refl eq_refl) as (l & Hl & _ & Hin).
  exists l. split; [exact Hl|]. split; [|split].
  - apply Hin. exists "express". split; [cbn; tauto | reflexivity].
  - apply Hin. exists "jest". split; [cbn; tauto | reflexivity].
  - intros Hr. apply Hin in Hr. destruct Hr as (key & Hk & Ht).
    cbn [package_json_mapping In] in Hk.
    repeat (destruct Hk as [Hk|Hk];
            [first [ discriminate Hk
                   | injection Hk as <-; vm_compute in Ht; discriminate Ht ]|]).
    destruct Hk.
Defined.

(* ================================================================== *)
(** * Properties of pom.xml *)
(* ================================================================== *)

Section Pom.

Variable w : World.

Lemma xml_induction : forall P : xml -> Prop,
  (forall t x cs, Forall P cs -> P (Element t x cs)) ->
  forall e, P e.
Proof.
  intros P step. fix IH 1. intros [t x cs]. apply step.
  induction cs as [|c cs IHcs]; constructor; [apply IH | exact IHcs].
Qed.

Lemma descendants_children : forall e c,
  In c (ET.children e) -> In c (ET.descendants e).
Proof.
  intros [t x cs] c Hc. cbn in *. apply in_flat_map. exists c. split; [exact Hc | now left].
Qed.

Lemma descendants_trans : forall root d e,
  In d (ET.descendants root) -> In e (ET.descendants d) -> In e (ET.descendants root).
Proof.
  intros root. induction root as [t x cs IH] using xml_induction.
  intros d e Hd He. cbn [ET.descendants] in *.
  apply in_flat_map in Hd. destruct Hd as (c & Hc & Hd).
  apply in_flat_map. exists c. split; [exact Hc|].
  destruct Hd as [<-|Hd]; [now right|].
  right. rewrite Forall_forall in IH. exact (IH c Hc d e Hd He).
Qed.

Lemma findall_deep_In : forall root t d,
  In d (ET.findall_deep root t) -> In d (ET.descendants root).
Proof. intros root t d H. unfold ET.findall_deep in H. now apply filter_In in H. Qed.

Lemma found_dependencies_In : forall root d,
  In d (found_dependencies root) -> In d (ET.descendants root).
Proof.
  intros root d. unfold found_dependencies.
  destruct (ET.findall_deep root (ET.maven "dependency")) eqn:E.
  - apply findall_deep_In.
  - rewrite <- E. apply findall_deep_In.
Qed.

Lemma for_each_cons : forall (A : Type) (x : A) xs (body : A -> Mut (list string) unit) s,
  for_each (x :: xs) body s
  = match body x s with
    | (s', Ok _) => for_each xs body s'
    | (s', Raise e) => (s', Raise e)
    end.
Proof. reflexivity. Qed.

Lemma analyze_pom_xml_loop : forall p,
  _analyze_pom_xml w p
  = collect (root <~ lift (et_parse w p) ;;
             for_each (found_dependencies root) dependency_frameworks).
Proof. reflexivity. Qed.

Lemma pom_loop : forall dependencies s,
  (forall d a, In d dependencies -> artifact_of d = Some a -> ET.text a <> None) ->
  snd (for_each dependencies dependency_frameworks s) = Ok tt
  /\ (forall x,
        In x (fst (for_each dependencies dependency_frameworks s))
        <-> In x s
            \/ exists d a t,
                 In d dependencies /\ artifact_of d = Some a /\ ET.text a = Some t
                 /\ matching pom_mapping (fun key => contains key (lower t)) x)
  /\ (NoDup s -> NoDup (fst (for_each dependencies dependency_frameworks s))).
Proof.
  induction dependencies as [|d ds IH]; intros s Htext.
  - cbn. split; [reflexivity|]. split; [|auto].
    intros x. split; [now left | intros [H|(d & a & t0 & [] & _)]; exact H].
  - rewrite for_each_cons.
    assert (IH' := fun s' => IH s' (fun d' a Hin => Htext d' a (or_intror Hin))).
    destruct (artifact_of d) as [a|] eqn:Ea.
    + destruct (ET.text a) as [t0|] eqn:Et;
        [|exfalso; exact (Htext d a (or_introl eq_refl) Ea Et)].
      assert (Hb : dependency_frameworks d s
                   = add_matching pom_mapping (fun key => contains key (lower t0)) s).
      { unfold dependency_frameworks, mbind, lift. rewrite Ea, Et. reflexivity. }
      rewrite Hb. clear Hb.
      destruct (add_matching_spec pom_mapping (fun key => contains key (lower t0)) s)
        as (Hr & Hin & Hnd).
      destruct (add_matching pom_mapping (fun key => contains key (lower t0)) s)
        as [s1 r1]. cbn [fst snd] in *. subst r1. cbv beta iota.
      destruct (IH' s1) as (Hr' & Hin' & Hnd').
      split; [exact Hr'|]. split; [|intros H; apply Hnd', Hnd, H].
      intros x. rewrite Hin', Hin. split.
      * intros [[H|H]|(d' & a' & t' & Hd & Ha & Ht & Hm)].
        -- now left.
        -- right. exists d, a, t0. repeat split; try assumption. now left.
        -- right. exists d', a', t'. repeat split; try assumption. now right.
      * intros [H|(d' & a' & t' & [<-|Hd] & Ha & Ht & Hm)].
        -- left. now left.
        -- left. right. rewrite Ea in Ha. injection Ha as <-.
           rewrite Et in Ht. injection Ht as <-. exact Hm.
        -- right. exists d', a', t'. repeat split; assumption.
    + assert (Hb : dependency_frameworks d s = (s, Ok tt)).
      { unfold dependency_frameworks. rewrite Ea. reflexivity. }
      rewrite Hb. clear Hb. destruct (IH' s) as (Hr' & Hin' & Hnd').
      split; [exact Hr'|]. split; [|exact Hnd'].
      intros x. rewrite Hin'. split.
      * intros [H|(d' & a' & t' & Hd & Ha & Ht & Hm)]; [now left|].
        right. exists d', a', t'. repeat split; try assumption. now right.
      * intros [H|(d' & a' & t' & [<-|Hd] & Ha & Ht & Hm)]; [now left | |].
        -- rewrite Ea in Ha. discriminate.
        -- right. exists d', a', t'. repeat split; assumption.
Qed.

(** X10.  [pom.xml]: when every artifact element that is read holds text, a
    framework is reported exactly when its key occurs in the lower-cased
    artifact name of some dependency. *)
Theorem X10_pom_frameworks : forall (p : string) (root : xml),
  et_parse w p = Ok root ->
  (forall d a, In d (found_dependencies root) -> artifact_of d = Some a ->
               ET.text a <> None) ->
  exists l,
    _analyze_pom_xml w p = Ok l
    /\ NoDup l
    /\ forall x,
         In x l
         <-> exists d a t,
               In d (found_dependencies root) /\ artifact_of d = Some a
               /\ ET.text a = Some t
               /\ matching pom_mapping (fun key => contains key (lower t)) x.
Proof.
  intros p root Hparse Htext. rewrite analyze_pom_xml_loop.
  rewrite collect_value, Hparse. unfold mbind at 1, lift at 1.
  destruct (pom_loop (found_dependencies root) [] Htext) as (_ & Hin & Hnd).
  eexists. split; [reflexivity|]. split; [apply Hnd; constructor|].
  intros x. rewrite Hin. split; [intros [[]|H]; exact H | now right].
Qed.

Lemma plain_pom_artifact : forall root d,
  plain_pom root -> In d (ET.descendants root) -> artifact_of d = None.
Proof.
  intros root d Hplain Hd. unfold artifact_of, ET.or_else.
  assert (H1 : ET.truthy (ET.find_child d "artifactId") = false).
  { unfold ET.find_child. destruct (find _ (ET.children d)) as [a|] eqn:Ea; [|reflexivity].
    apply find_some in Ea. destruct Ea as [Hin Htag]. apply String.eqb_eq in Htag.
    assert (Ha : In a (ET.descendants root)).
    { apply (descendants_trans root d a Hd), descendants_children, Hin. }
    cbn. now rewrite (proj2 (Hplain a Ha) Htag). }
  rewrite H1. unfold ET.find_deep.
  destruct (find _ (ET.descendants d)) as [a|] eqn:Ea; [|reflexivity].
  apply find_some in Ea. destruct Ea as [Hin Htag]. apply String.eqb_eq in Htag.
  exfalso. exact (proj1 (Hplain a (descendants_trans root d a Hd Hin)) Htag).
Qed.

(** X11.  A POM written without the Maven namespace yields no framework: the
    plain [artifactId] element, having no child element, counts as false,
    and the namespaced one that is looked up in its place does not exist. *)
Theorem X11_plain_pom : forall (p : string) (root : xml),
  et_parse w p = Ok root ->
  plain_pom root ->
  _analyze_pom_xml w p = Ok [].
Proof.
  intros p root Hparse Hplain.
  assert (Hnone : forall d, In d (found_dependencies root) -> artifact_of d = None).
  { intros d Hd. apply (plain_pom_artifact root d Hplain), found_dependencies_In, Hd. }
  rewrite analyze_pom_xml_loop, collect_value, Hparse. unfold mbind at 1, lift at 1.
  destruct (pom_loop (found_dependencies root) []) as (_ & Hin & _).
  { intros d a Hd Ha. rewrite (Hnone d Hd) in Ha. discriminate. }
  f_equal.
  destruct (fst (for_each (found_dependencies root) dependency_frameworks []))
    as [|x l]; [reflexivity|].
  exfalso. destruct (proj1 (Hin x) (or_introl eq_refl)) as [[]|(d & a & t0 & Hd & Ha & _)].
  rewrite (Hnone d Hd) in Ha. discriminate.
Qed.

End Pom.

Lemma X10_pom_frameworks_witness :
  exists l,
    _analyze_pom_xml (Cases.pom_world (Cases.pom_in ET.maven)) "pom.xml" = Ok l
    /\ In "Spring Boot" l.
Proof.
  destruct (X10_pom_frameworks (Cases.pom_world (Cases.pom_in ET.maven)) "pom.xml"
              (Cases.pom_in ET.maven) eq_refl) as (l & Hl & _ & Hin).
  - intros d a Hd Ha. cbn in Hd. destruct Hd as [<-|[]].
    vm_compute in Ha. injection Ha as <-. discriminate.
  - exists l. split; [exact Hl|]. apply Hin.
    eexists. exists (Element (ET.maven "artifactId") (Some "spring-boot-starter-web") []).
    exists "spring-boot-starter-web".
    split; [cbn; left; reflexivity|]. split; [reflexivity|].
    split; [reflexivity|].
    exists "spring-boot". split; [cbn; tauto | reflexivity].
Defined.

Lemma X11_plain_pom_witness :
  _analyze_pom_xml (Cases.pom_world (Cases.pom_in (fun t => t))) "pom.xml" = Ok [].
Proof.
  apply (X11_plain_pom (Cases.pom_world (Cases.pom_in (fun t => t))) "pom.xml"
           (Cases.pom_in (fun t => t)) eq_refl).
  intros e He. cbn in He.
  repeat (destruct He as [<-|He]; [split; [discriminate | try discriminate; reflexivity]|]).
  destruct He.
Defined.

(* ================================================================== *)
(** * Properties of the framework set *)
(* ================================================================== *)

Section DetectFrameworks.

Variable w : World.

Lemma grows_lift : forall names (A : Type) (r : result A), grows_within names (lift r).
Proof. intros names A r s x H. now left. Qed.

Lemma grows_mret : forall names (A : Type) (a : A),
  grows_within names (mret (S := list string) a).
Proof. intros names A a s x H. now left. Qed.

Lemma grows_mbind : forall names (A B : Type) (m : Mut (list string) A)
    (k : A -> Mut (list string) B),
  grows_within names m -> (forall a, grows_within names (k a)) ->
  grows_within names (mbind m k).
Proof.
  intros names A B m k Hm Hk s x. unfold mbind.
  specialize (Hm s x). destruct (m s) as [s' [a|e]]; cbn [fst] in *.
  - intros H. destruct (Hk a s' x H) as [H'|H']; [apply Hm, H' | now right].
  - exact Hm.
Qed.

Lemma grows_for_each : forall names (A : Type) (xs : list A)
    (body : A -> Mut (list string) unit),
  (forall a, grows_within names (body a)) -> grows_within names (for_each xs body).
Proof.
  intros names A xs body Hbody. induction xs as [|a xs IH]; cbn [for_each].
  - apply grows_mret.
  - apply grows_mbind; [apply Hbody | intros _; exact IH].
Qed.

Lemma grows_add_matching : forall names mapping test,
  incl (map snd mapping) names -> grows_within names (add_matching mapping test).
Proof.
  intros names mapping test Hincl s x H.
  destruct (add_matching_spec mapping test s) as (_ & Hin & _).
  apply Hin in H. destruct H as [H|H]; [now left|].
  right. apply Hincl. exact (matching_name _ _ _ H).
Qed.

Lemma collect_within : forall names body l,
  grows_within names body -> collect body = Ok l -> incl l names.
Proof.
  intros names body l Hg E. rewrite collect_value in E. injection E as <-.
  intros x Hx. destruct (Hg [] x Hx) as [[]|H]. exact H.
Qed.

Lemma analyzers_within : forall p l,
  In (Ok l) (framework_parsers w p) -> incl l framework_names.
Proof.
  intros p l H. cbn [framework_parsers In] in H.
  assert (Hnames : forall mapping : list (string * string),
            In mapping [package_json_mapping; requirements_mapping; pyproject_mapping;
                        pom_mapping; gradle_mapping; go_mod_mapping] ->
            incl (map snd mapping) framework_names).
  { intros mapping Hm x Hx. unfold framework_names. apply in_or_app. left.
    rewrite !map_app, !in_app_iff. cbn [In] in Hm.
    destruct Hm as [<-|[<-|[<-|[<-|[<-|[<-|[]]]]]]]; tauto. }
  destruct H as [H|[H|[H|[H|[H|[H|[]]]]]]];
    (eapply collect_within; [|exact H]).
  - apply grows_mbind; [apply grows_lift|]. intros a.
    apply grows_add_matching, Hnames. cbn; tauto.
  - apply grows_mbind; [apply grows_lift|]. intros lines.
    apply grows_for_each. intros line. cbv zeta.
    destruct (truthy (lower (strip line)) && negb (startswith (lower (strip line)) "#"));
      [|apply grows_mret].
    apply grows_add_matching, Hnames. cbn; tauto.
  - apply grows_mbind; [apply grows_lift|]. intros a.
    apply grows_add_matching, Hnames. cbn; tauto.
  - apply grows_mbind; [apply grows_lift|]. intros root.
    apply grows_for_each. intros d. cbv zeta.
    destruct (ET.or_else (ET.find_child d "artifactId")
                         (ET.find_deep d (ET.maven "artifactId")));
      [|apply grows_mret].
    apply grows_mbind; [apply grows_lift|]. intros a.
    apply grows_add_matching, Hnames. cbn; tauto.
  - apply grows_mbind; [apply grows_lift|]. intros a.
    apply grows_add_matching, Hnames. cbn; tauto.
  - apply grows_mbind; [apply grows_lift|]. intros a.
    apply grows_add_matching, Hnames. cbn; tauto.
Qed.

Lemma file_structure_within : forall files,
  incl (_analyze_by_file_structure files) framework_names
  /\ NoDup (_analyze_by_file_structure files).
Proof.
  intros files. unfold _analyze_by_file_structure.
  repeat match goal with
         | |- context [if ?c then _ else _] => destruct c
         end;
    (split; [intros x Hx; unfold framework_names; apply in_or_app; right;
             cbn in Hx |- *; tauto
            | cbn; repeat constructor; cbn; intuition discriminate]).
Qed.

Lemma update_from_spec : forall analyze manifest dir frameworks,
  (forall p, returns (analyze p)) ->
  exists found,
    update_from analyze manifest dir frameworks = Ok (set_update frameworks found)
    /\ (found = []
        \/ truthy_opt dir = true /\ exists p, analyze p = Ok found).
Proof.
  intros analyze manifest dir frameworks Hret. unfold update_from.
  destruct manifest as [p|]; [|exists []; split; [reflexivity | now left]].
  destruct (truthy p); cbn [andb]; [|exists []; split; [reflexivity | now left]].
  destruct (truthy_opt dir); [|exists []; split; [reflexivity | now left]].
  destruct (Hret p) as [found Hf]. rewrite Hf. cbn [bind].
  exists found. split; [reflexivity|]. right. split; [reflexivity|]. now exists p.
Qed.

(** X12.  The frameworks of a file list: sorted, without duplicates, all of them
    names of the tables, and among them every framework recognised from
    the paths, whatever the primary language.  For a language other than
    the six with a manifest parser, and whenever no project directory is
    given, they are the frameworks recognised from the paths and no
    others. *)
Theorem X12_frameworks : forall (files : list file_info) (dir : option string)
    (language : string),
  exists l,
    _detect_frameworks w files dir language = Ok l
    /\ NoDup l
    /\ Sorted (fun a b => (a <=? b) = true) l
    /\ incl l framework_names
    /\ incl (_analyze_by_file_structure files) l
    /\ (in_list language ["JavaScript"; "TypeScript"; "Python"; "Java"; "Kotlin"; "Go"]
        = false \/ truthy_opt dir = false ->
        l = sorted (_analyze_by_file_structure files)).
Proof.
  intros files dir language.
  assert (Hparsers : forall p, Forall returns (framework_parsers w p))
    by (intros p; apply framework_parsers_return).
  assert (Hwithin : forall analyze found p,
            In analyze [_analyze_package_json w; _analyze_requirements_txt w;
                        _analyze_pyproject_toml w; _analyze_pom_xml w;
                        _analyze_gradle w; _analyze_go_mod w] ->
            analyze p = Ok found -> incl found framework_names).
  { intros analyze found p Hin E. apply (analyzers_within p).
    rewrite <- E. cbn [framework_parsers In] in *.
    destruct Hin as [<-|[<-|[<-|[<-|[<-|[<-|[]]]]]]]; tauto. }
  assert (Hret : forall analyze,
            In analyze [_analyze_package_json w; _analyze_requirements_txt w;
                        _analyze_pyproject_toml w; _analyze_pom_xml w;
                        _analyze_gradle w; _analyze_go_mod w] ->
            forall p, returns (analyze p)).
  { intros analyze Hin p. unfold returns.
    cbn [In] in Hin.
    destruct Hin as [<-|[<-|[<-|[<-|[<-|[<-|[]]]]]]]; apply collect_returns. }
  (* one manifest *)
  assert (Hstep : forall analyze manifest frameworks,
            In analyze [_analyze_package_json w; _analyze_requirements_txt w;
                        _analyze_pyproject_toml w; _analyze_pom_xml w;
                        _analyze_gradle w; _analyze_go_mod w] ->
            NoDup frameworks -> incl frameworks framework_names ->
            (truthy_opt dir = false -> frameworks = []) ->
            exists frameworks',
              update_from analyze (_find_file files manifest) dir frameworks
              = Ok frameworks'
              /\ NoDup frameworks' /\ incl frameworks' framework_names
              /\ (truthy_opt dir = false -> frameworks' = [])).
  { intros analyze manifest frameworks Hin Hnd Hincl Hdir.
    destruct (update_from_spec analyze (_find_file files manifest) dir frameworks
                (Hret analyze Hin)) as (found & E & Hfound).
    exists (set_update frameworks found). split; [exact E|].
    split; [apply set_update_NoDup, Hnd|]. split.
    - intros x Hx. apply set_update_In in Hx. destruct Hx as [Hx|Hx]; [apply Hincl, Hx|].
      destruct Hfound as [->|(_ & p & Hp)]; [destruct Hx|].
      exact (Hwithin analyze found p Hin Hp x Hx).
    - intros Hd. destruct Hfound as [->|(Hd' & _)]; [|congruence].
      rewrite (Hdir Hd). reflexivity. }
  (* the manifests of the language *)
  assert (Hmanifests :
            exists frameworks,
              (if in_list language ["JavaScript"; "TypeScript"] then
                 update_from (_analyze_package_json w)
                   (_find_file files "package.json") dir []
               else if language =? "Python" then
                 frameworks <- update_from (_analyze_requirements_txt w)
                                 (_find_file files "requirements.txt") dir [] ;;
                 update_from (_analyze_pyproject_toml w)
                   (_find_file files "pyproject.toml") dir frameworks
               else if in_list language ["Java"; "Kotlin"] then
                 frameworks <- update_from (_analyze_pom_xml w)
                                 (_find_file files "pom.xml") dir [] ;;
                 update_from (_analyze_gradle w)
                   (_find_file files "build.gradle") dir frameworks
               else if language =? "Go" then
                 update_from (_analyze_go_mod w) (_find_file files "go.mod") dir []
               else Ok []) = Ok frameworks
              /\ NoDup frameworks /\ incl frameworks framework_names
              /\ (in_list language
                    ["JavaScript"; "TypeScript"; "Python"; "Java"; "Kotlin"; "Go"]
                  = false \/ truthy_opt dir = false -> frameworks = [])).
  { assert (H0 : NoDup (@nil string)) by constructor.
    assert (H1 : incl (@nil string) framework_names) by (intros x []).
    assert (H2 : truthy_opt dir = false -> @nil string = []) by reflexivity.
    cbn [in_list existsb].
    destruct (language =? "JavaScript") eqn:E1; cbn [orb].
    { destruct (Hstep (_analyze_package_json w) "package.json" [])
        as (f & E & Hnd & Hincl & Hd); try assumption; [cbn; tauto|].
      exists f. repeat split; try assumption. intros [H|H]; [discriminate | auto]. }
    destruct (language =? "TypeScript") eqn:E2; cbn [orb].
    { destruct (Hstep (_analyze_package_json w) "package.json" [])
        as (f & E & Hnd & Hincl & Hd); try assumption; [cbn; tauto|].
      exists f. repeat split; try assumption. intros [H|H]; [discriminate | auto]. }
    destruct (language =? "Python") eqn:E3; cbn [orb].
    { destruct (Hstep (_analyze_requirements_txt w) "requirements.txt" [])
        as (f & E & Hnd & Hincl & Hd); try assumption; [cbn; tauto|].
      rewrite E. cbn [bind].
      destruct (Hstep (_analyze_pyproject_toml w) "pyproject.toml" f)
        as (f' & E' & Hnd' & Hincl' & Hd'); try assumption; [cbn; tauto|].
      exists f'. repeat split; try assumption. intros [H|H]; [discriminate | auto]. }
    destruct (language =? "Java") eqn:E4; cbn [orb].
    { destruct (Hstep (_analyze_pom_xml w) "pom.xml" [])
        as (f & E & Hnd & Hincl & Hd); try assumption; [cbn; tauto|].
      rewrite E. cbn [bind].
      destruct (Hstep (_analyze_gradle w) "build.gradle" f)
        as (f' & E' & Hnd' & Hincl' & Hd'); try assumption; [cbn; tauto|].
      exists f'. repeat split; try assumption. intros [H|H]; [discriminate | auto]. }
    destruct (language =? "Kotlin") eqn:E5; cbn [orb].
    { destruct (Hstep (_analyze_pom_xml w) "pom.xml" [])
        as (f & E & Hnd & Hincl & Hd); try assumption; [cbn; tauto|].
      rewrite E. cbn [bind].
      destruct (Hstep (_analyze_gradle w) "build.gradle" f)
        as (f' & E' & Hnd' & Hincl' & Hd'); try assumption; [cbn; tauto|].
      exists f'. repeat split; try assumption. intros [H|H]; [discriminate | auto]. }
    destruct (language =? "Go") eqn:E6; cbn [orb].
    { destruct (Hstep (_analyze_go_mod w) "go.mod" [])
        as (f & E & Hnd & Hincl & Hd); try assumption; [cbn; tauto|].
      exists f. repeat split; try assumption. intros [H|H]; [discriminate | auto]. }
    exists []. repeat split; try assumption. }
  destruct Hmanifests as (frameworks & E & Hnd & Hincl & Hnone).
  unfold _detect_frameworks. rewrite E. cbn [bind].
  destruct (file_structure_within files) as [Hfs Hfsnd].
  eexists. split; [reflexivity|].
  split; [apply sorted_NoDup, set_update_NoDup, Hnd|].
  split; [apply sorted_ascending|].
  split; [|split].
  - intros x Hx. apply sorted_In, set_update_In in Hx.
    destruct Hx as [Hx|Hx]; [apply Hincl, Hx | apply Hfs, Hx].
  - intros x Hx. apply sorted_In, set_update_In. now right.
  - intros H. rewrite (Hnone H), file_structure_frameworks_set. reflexivity.
Qed.

End DetectFrameworks.

(* ================================================================== *)
(** * From the file list to the pipeline *)
(* ================================================================== *)

Section Analysis.

Variable w : World.

Lemma detect_tech_stack_fields : forall files dir ts,
  detect_tech_stack w files dir = Ok ts ->
  exists stats vi fw,
    _count_lines_by_language w files dir = Ok stats
    /\ _detect_versions w files dir (_detect_primary_language stats) = Ok vi
    /\ _detect_frameworks w files dir (_detect_primary_language stats) = Ok fw
    /\ ts = {| primary_language := _detect_primary_language stats;
               language_stats := stats;
               version_info := vi;
               frameworks := fw;
               build_tools := _detect_build_tools files;
               package_managers := _detect_build_tools files;
               has_tests := _check_tests files;
               has_dockerfile := _check_dockerfile files |}.
Proof.
  intros files dir ts H. unfold detect_tech_stack in H.
  destruct (_count_lines_by_language w files dir) as [stats|e] eqn:E1; [|discriminate].
  cbn [bind] in H.
  destruct (_detect_versions w files dir (_detect_primary_language stats)) as [vi|e]
    eqn:E2; [|discriminate].
  cbn [bind] in H.
  destruct (_detect_frameworks w files dir (_detect_primary_language stats)) as [fw|e]
    eqn:E3; [|discriminate].
  cbn [bind] in H. injection H as <-.
  exists stats, vi, fw. split; [reflexivity|]. split; [exact E2|].
  split; [exact E3 | reflexivity].
Qed.


Lemma check_dockerfile_iff : forall files,
  _check_dockerfile files = true <-> regular_file_named dockerfile_names files.
Proof.
  intros files. unfold _check_dockerfile, regular_file_named.
  rewrite existsb_exists. split.
  - intros (f & Hin & H). apply andb_true_iff in H. destruct H as [Hf Hn].
    exists f. repeat split; [exact Hin | exact Hf | apply in_list_In, Hn].
  - intros (f & Hin & Hf & Hn). exists f. split; [exact Hin|].
    apply andb_true_iff. split; [exact Hf | apply in_list_In, Hn].
Qed.






End Analysis.



(* ================================================================== *)
(** * The image of a generated pipeline *)
(* ================================================================== *)

Section Generated.

Variable w : World.

Lemma detect_versions_hinted : forall files dir,
  _detect_versions w files dir "Go"
  = Ok {| language_version := hinted w _extract_go_version files "go.mod" dir "1.19";
          framework_versions := [] |}
  /\ _detect_versions w files dir "Python"
     = Ok {| language_version :=
               hinted w _extract_python_version_from_pyproject files
                      "pyproject.toml" dir "3.9";
             framework_versions := [] |}
  /\ _detect_versions w files dir "JavaScript"
     = Ok {| language_version :=
               hinted w _extract_node_version files "package.json" dir "ES2022";
             framework_versions := [] |}
  /\ _detect_versions w files dir "TypeScript"
     = Ok {| language_version :=
               hinted w _extract_node_version files "package.json" dir "5.0";
             framework_versions := [] |}
  /\ _detect_versions w files dir "Java"
     = Ok {| language_version :=
               hinted w _extract_java_version_from_gradle files "build.gradle" dir
                 (hinted w _extract_java_version_from_pom files "pom.xml" dir "11");
             framework_versions := [] |}.
Proof.
  intros files dir. unfold _detect_versions, hinted.
  repeat split; cbn [String.eqb Ascii.eqb Bool.eqb in_list existsb orb andb];
    cbn [dict_get default_versions String.eqb Ascii.eqb Bool.eqb];
    rewrite ?override_from_hint by (intros p; apply try_except_returns);
    cbn [bind];
    rewrite ?override_from_hint by (intros p; apply try_except_returns);
    repeat match goal with
           | |- context [version_hint ?e ?f ?m ?d] => destruct (version_hint e f m d)
           end; reflexivity.
Qed.

Lemma hinted_truthy : forall extract files manifest dir default,
  truthy default = true ->
  truthy (hinted w extract files manifest dir default) = true.
Proof.
  intros extract files manifest dir default Hd. unfold hinted.
  destruct (version_hint (extract w) files manifest dir) as [v|] eqn:E; [|exact Hd].
  exact (version_hint_truthy _ _ _ _ _ E).
Qed.

(** X15.  The image of the pipeline of an analysed file list carries the
    language version of the profile, which is the hint of the manifest or
    the default of the language: the generator's own defaults are never
    used.  Without a hint a JavaScript project gets [node:ES2022-alpine], a
    TypeScript project [node:5.0-alpine], and a Kotlin project always
    [maven:3.8-openjdk-1.8]. *)
Theorem X15_docker_image : forall (files : list file_info) (dir : option string)
    (ts : TechStack),
  detect_tech_stack w files dir = Ok ts ->
  let image := fst (_get_docker_image_and_variables (primary_language ts)
                      (frameworks ts) (version_info ts)) in
  (primary_language ts = "JavaScript" ->
   image = "node:" ++ hinted w _extract_node_version files "package.json" dir "ES2022"
           ++ "-alpine")
  /\ (primary_language ts = "TypeScript" ->
      image = "node:" ++ hinted w _extract_node_version files "package.json" dir "5.0"
              ++ "-alpine")
  /\ (primary_language ts = "Python" ->
      image = "python:"
              ++ hinted w _extract_python_version_from_pyproject files
                   "pyproject.toml" dir "3.9"
              ++ "-slim")
  /\ (primary_language ts = "Java" ->
      image = "maven:3.8-openjdk-"
              ++ hinted w _extract_java_version_from_gradle files "build.gradle" dir
                   (hinted w _extract_java_version_from_pom files "pom.xml" dir "11"))
  /\ (primary_language ts = "Kotlin" -> image = "maven:3.8-openjdk-1.8")
  /\ (primary_language ts = "Go" ->
      image = "golang:" ++ hinted w _extract_go_version files "go.mod" dir "1.19"
              ++ "-alpine")
  /\ (in_list (primary_language ts)
        ["JavaScript"; "TypeScript"; "Python"; "Java"; "Kotlin"; "Go"] = false ->
      image = "alpine:latest").
Proof.
  intros files dir ts Hts image.
  destruct (detect_tech_stack_fields w files dir ts Hts)
    as (stats & vi & fw & _ & Hvi & _ & ->).
  subst image. cbn [primary_language frameworks version_info] in *.
  destruct (detect_versions_hinted files dir) as (HGo & HPy & HJs & HTs & HJava).
  set (language := _detect_primary_language stats) in *. clearbody language.
  unfold _get_docker_image_and_variables.
  repeat split; intros E.
  - subst language. rewrite HJs in Hvi. injection Hvi as <-.
    cbn [language_version in_list existsb String.eqb Ascii.eqb Bool.eqb orb fst].
    now rewrite hinted_truthy.
  - subst language. rewrite HTs in Hvi. injection Hvi as <-.
    cbn [language_version in_list existsb String.eqb Ascii.eqb Bool.eqb orb fst].
    now rewrite hinted_truthy.
  - subst language. rewrite HPy in Hvi. injection Hvi as <-.
    cbn [language_version in_list existsb String.eqb Ascii.eqb Bool.eqb orb fst].
    now rewrite hinted_truthy.
  - subst language. rewrite HJava in Hvi. injection Hvi as <-.
    cbn [language_version in_list existsb String.eqb Ascii.eqb Bool.eqb orb fst].
    rewrite hinted_truthy; [reflexivity|]. now apply hinted_truthy.
  - subst language. cbv in Hvi. injection Hvi as <-. reflexivity.
  - subst language. rewrite HGo in Hvi. injection Hvi as <-.
    cbn [language_version in_list existsb String.eqb Ascii.eqb Bool.eqb orb fst].
    now rewrite hinted_truthy.
  - cbn [in_list existsb] in E. repeat (apply orb_false_iff in E; destruct E as [? E]).
    cbn [in_list existsb].
    repeat match goal with
           | H : (language =? _) = false |- _ => rewrite H; clear H
           end.
    reflexivity.
Qed.

End Generated.

Lemma X15_docker_image_witness :
  fst (_get_docker_image_and_variables "JavaScript" [] 
         {| language_version := "ES2022"; framework_versions := [] |})
  = "node:" ++ hinted Cases.js_world _extract_node_version Cases.js_files
                 "package.json" (Some "/work") "ES2022" ++ "-alpine".
Proof.
  destruct (X15_docker_image Cases.js_world Cases.js_files (Some "/work") Cases.js_stack
              eq_refl) as (H & _).
  exact (H eq_refl).
Defined.

(* ================================================================== *)
(** * Projects without a build file *)
(* ================================================================== *)

Section Placeholders.

Variable w : World.

Lemma no_build_tool : forall files tool names,
  (forall n, In (n, tool) build_tool_mapping -> In n names) ->
  ~ regular_file_named names files ->
  in_list tool (_detect_build_tools files) = false.
Proof.
  intros files tool names Hnames Hno.
  destruct (in_list tool (_detect_build_tools files)) eqn:E; [|reflexivity].
  exfalso. apply Hno. apply in_list_In in E. unfold _detect_build_tools in E.
  apply sorted_In, build_tools_loop in E. destruct E as [[]|(f & Hin & Hf)].
  unfold tool_of in Hf. destruct (is_file f) eqn:Ef; [|discriminate].
  exists f. split; [exact Hin|]. split; [exact Ef|].
  apply Hnames, dict_get_In, Hf.
Qed.

(** X16.  A Java or Kotlin project with no regular file named [pom.xml],
    [build.gradle] or [build.gradle.kts] gets the placeholder build and
    test jobs, which only echo a reminder, and an empty [before_script]. *)
Theorem X16_jvm_without_build_file : forall (files : list file_info)
    (dir : option string) (ts : TechStack),
  detect_tech_stack w files dir = Ok ts ->
  In (primary_language ts) ["Java"; "Kotlin"] ->
  ~ regular_file_named ["pom.xml"; "build.gradle"; "build.gradle.kts"] files ->
  _generate_build_job (primary_language ts) (build_tools ts) (frameworks ts)
  = default_build_job
  /\ _generate_test_job (primary_language ts) (build_tools ts) (frameworks ts)
     = default_test_job
  /\ _generate_before_script (primary_language ts) (build_tools ts) (frameworks ts)
     = [].
Proof.
  intros files dir ts Hts Hlang Hno.
  destruct (detect_tech_stack_fields w files dir ts Hts)
    as (stats & vi & fw & _ & _ & _ & ->).
  cbn [primary_language frameworks build_tools] in *.
  set (language := _detect_primary_language stats) in *. clearbody language.
  assert (Hmaven : in_list "maven" (_detect_build_tools files) = false).
  { apply (no_build_tool files "maven" _) with (2 := Hno). intros n Hn.
    cbn in Hn.
    repeat (destruct Hn as [Hn|Hn]; [inversion Hn; subst; cbn [In]; auto|]).
    contradiction. }
  assert (Hgradle : in_list "gradle" (_detect_build_tools files) = false).
  { apply (no_build_tool files "gradle" _) with (2 := Hno). intros n Hn.
    cbn in Hn.
    repeat (destruct Hn as [Hn|Hn]; [inversion Hn; subst; cbn [In]; auto|]).
    contradiction. }
  unfold _generate_build_job, _generate_test_job, _generate_before_script.
  rewrite Hmaven, Hgradle.
  destruct Hlang as [<-|[<-|[]]]; repeat split; reflexivity.
Qed.

End Placeholders.

Lemma X16_jvm_without_build_file_witness :
  _generate_build_job "Java" [] [] = default_build_job
  /\ _generate_test_job "Java" [] [] = default_test_job
  /\ _generate_before_script "Java" [] [] = [].
Proof.
  apply (X16_jvm_without_build_file Cases.jvm_world Cases.jvm_files (Some "/work")
           Cases.jvm_stack eq_refl).
  - cbn; tauto.
  - intros (f & Hin & _ & Hn). cbn in Hin. destruct Hin as [<-|[]].
    cbn in Hn. repeat (destruct Hn as [Hn|Hn]; [discriminate|]). destruct Hn.
Defined.

(* ================================================================== *)
(** * The confidence of an analysis *)
(* ================================================================== *)

Section ConfidenceOfAnalysis.

Import RepositoryAnalyzer.

Variable w : World.

Lemma language_stats_keys : forall files dir stats,
  _count_lines_by_language w files dir = Ok stats ->
  incl (map fst stats) known_languages.
Proof.
  intros files dir stats H. unfold _count_lines_by_language in H.
  destruct (count_loop w dir files [] 0%Z) as [[ll total]|e] eqn:Eloop;
    cbn [bind fst snd] in H; [|discriminate].
  injection H as <-.
  destruct (count_loop_counted _ _ _ _ _ _ _ Eloop) as (_ & _ & Hincl).
  { repeat split; [constructor | intros k []]. }
  intros k Hk. apply in_map_iff in Hk. destruct Hk as ([k' s] & <- & Hin).
  apply (Permutation_in _ (sort_by_lines_perm _)) in Hin.
  unfold stats_of in Hin. destruct (0 <? total)%Z; [|destruct Hin].
  apply in_map_iff in Hin. destruct Hin as ([k'' n] & E & Hin). injection E as <- _.
  apply Hincl. exact (in_map fst ll (k'', n) Hin).
Qed.

Lemma known_language_names :
  forallb (fun l => truthy l && negb (l =? "Unknown")) known_languages = true.
Proof. reflexivity. Qed.

(** X17.  The score reaches 1.0 exactly when all five signals are present, it
    is never below 0.4, and the clamp never cuts: every sum of bonuses is
    at most 1.0 already. *)
Theorem X17_confidence_values : forall (ts : TechStack) (files : list file_info),
  let c := _calculate_confidence ts files in
  PrimFloat.eqb c 1
  = manifest_present files && nonempty (build_tools ts) && has_tests ts
    && nonempty (frameworks ts) && language_known ts
  /\ PrimFloat.leb 0.4 c = true
  /\ c = (0.4 + (if manifest_present files then 0.15 else 0)
          + (if nonempty (build_tools ts) then 0.1 else 0)
          + (if has_tests ts then 0.1 else 0)
          + (if nonempty (frameworks ts) then 0.1 else 0)
          + (if language_known ts then 0.15 else 0))%float.
Proof.
  intros ts files c. subst c. rewrite confidence_is_score.
  destruct (manifest_present files), (nonempty (build_tools ts)), (has_tests ts),
    (nonempty (frameworks ts)), (language_known ts);
    repeat split; vm_compute; reflexivity.
Qed.

(** X18.  The score of an analysed file list: the language bonus is earned
    exactly when some line was counted, and a manifest that is a regular
    file brings both the manifest and the build-tool bonus, so that the
    score is at least 0.65. *)
Theorem X18_confidence_of_analysis : forall (files : list file_info)
    (dir : option string) (ts : TechStack),
  detect_tech_stack w files dir = Ok ts ->
  language_known ts = nonempty (language_stats ts)
  /\ (regular_file_named RepositoryAnalyzer.config_files files ->
      manifest_present files = true
      /\ nonempty (build_tools ts) = true
      /\ PrimFloat.leb 0.65 (_calculate_confidence ts files) = true).
Proof.
  intros files dir ts Hts.
  destruct (detect_tech_stack_fields w files dir ts Hts)
    as (stats & vi & fw & Hstats & _ & _ & ->).
  split.
  - unfold language_known. cbn [primary_language language_stats].
    destruct stats as [|[k0 s0] stats'] eqn:Es; [reflexivity|]. rewrite <- Es.
    assert (Hne : stats <> []) by (rewrite Es; discriminate).
    destruct (detect_primary_language_entry stats Hne) as (pre & s & post & E & _).
    assert (Hk : In (_detect_primary_language stats) known_languages).
    { apply (language_stats_keys files dir stats).
      - rewrite Es. exact Hstats.
      - rewrite E at 2. rewrite map_app. apply in_or_app. right. now left. }
    pose proof known_language_names as Hall. rewrite forallb_forall in Hall.
    rewrite (Hall _ Hk), Es. reflexivity.
  - intros (f & Hin & Hf & Hn).
    assert (Hm : manifest_present files = true).
    { unfold manifest_present. apply existsb_exists. exists f. split; [exact Hin|].
      apply in_list_In, Hn. }
    assert (Hb : nonempty (_detect_build_tools files) = true).
    { assert (Ht : exists tool, dict_get build_tool_mapping (name f) = Some tool).
      { cbn [RepositoryAnalyzer.config_files In] in Hn.
        destruct Hn as [<-|[<-|[<-|[<-|[<-|[<-|[<-|[]]]]]]]]; eexists; reflexivity. }
      destruct Ht as [tool Ht].
      assert (Hin' : In tool (_detect_build_tools files)).
      { unfold _detect_build_tools. apply sorted_In, build_tools_loop. right.
        exists f. split; [exact Hin|]. unfold tool_of. now rewrite Hf. }
      destruct (_detect_build_tools files); [destruct Hin' | reflexivity]. }
    split; [exact Hm|]. split; [exact Hb|].
    rewrite confidence_is_score. cbn [build_tools has_tests frameworks].
    rewrite Hm, Hb.
    destruct (_check_tests files), (nonempty fw), (language_known _);
      vm_compute; reflexivity.
Qed.

End ConfidenceOfAnalysis.

Lemma X18_confidence_of_analysis_witness :
  regular_file_named RepositoryAnalyzer.config_files Cases.js_files
  /\ PrimFloat.leb 0.65 (RepositoryAnalyzer._calculate_confidence Cases.js_stack Cases.js_files) = true.
Proof.
  assert (H : regular_file_named RepositoryAnalyzer.config_files Cases.js_files).
  { exists (Samples.a_file "package.json" "/package.json" ".json").
    split; [cbn; tauto|]. split; [reflexivity | cbn; tauto]. }
  split; [exact H|].
  destruct (X18_confidence_of_analysis Cases.js_world Cases.js_files (Some "/work")
              Cases.js_stack eq_refl) as (_ & Hc).
  destruct (Hc H) as (_ & _ & Hle). exact Hle.
Defined.

(* ================================================================== *)
(** * Node.js versions *)
(* ================================================================== *)

Section NodeVersion.

Variable w : World.








End NodeVersion.


(* ================================================================== *)
(** * Properties of the walk *)
(* ================================================================== *)

Section Walk.

Import RepositoryAnalyzer.

Variable w : World.

Lemma tree_induction : forall P : tree -> Prop,
  (forall subdirs filenames,
     Forall (fun d => P (snd d)) subdirs -> P (Dir subdirs filenames)) ->
  forall t, P t.
Proof.
  intros P step. fix IH 1. intros [subdirs filenames]. apply step.
  induction subdirs as [|d subdirs IHs]; constructor; [apply IH | exact IHs].
Qed.

Lemma concat_snoc : forall (dirs : list string) (n : string),
  dirs <> [] ->
  String.concat "/" (dirs ++ [n]) = String.concat "/" dirs ++ "/" ++ n.
Proof.
  induction dirs as [|d dirs IH]; intros n Hne; [congruence|].
  destruct dirs as [|d' dirs]; [reflexivity|].
  change (String.concat "/" ((d :: d' :: dirs) ++ [n]))
    with (d ++ "/" ++ String.concat "/" ((d' :: dirs) ++ [n])).
  rewrite IH by discriminate.
  change (String.concat "/" (d :: d' :: dirs))
    with (d ++ "/" ++ String.concat "/" (d' :: dirs)).
  now rewrite !append_assoc.
Qed.

Lemma concat_truthy : forall dirs : list string,
  forallb truthy dirs = true -> dirs <> [] ->
  truthy (String.concat "/" dirs) = true.
Proof.
  intros [|d dirs] H Hne; [congruence|].
  cbn [forallb] in H. apply andb_true_iff in H. destruct H as [Hd _].
  destruct d as [|c d]; [discriminate|].
  destruct dirs; reflexivity.
Qed.

Lemma rel_path_below : forall dirs n,
  forallb truthy dirs = true ->
  (if truthy (String.concat "/" dirs) then join (String.concat "/" dirs) n else n)
  = below dirs n.
Proof.
  intros dirs n H. unfold below, join. destruct dirs as [|d dirs]; [reflexivity|].
  rewrite (concat_truthy _ H) by discriminate.
  rewrite concat_snoc by discriminate. reflexivity.
Qed.

Lemma root_below : forall temp_dir dirs n,
  join (fold_left join dirs temp_dir) n = temp_dir ++ "/" ++ below dirs n.
Proof.
  intros temp_dir dirs. revert temp_dir. unfold below, join.
  induction dirs as [|d dirs IH]; intros temp_dir n; [reflexivity|].
  cbn [fold_left]. rewrite IH.
  destruct dirs as [|d' dirs].
  - cbn. now rewrite !append_assoc.
  - change (String.concat "/" ((d :: d' :: dirs) ++ [n]))
      with (d ++ "/" ++ String.concat "/" ((d' :: dirs) ++ [n])).
    now rewrite !append_assoc.
Qed.

(** The walk of a directory reached through [pre]. *)
Lemma walk_entries : forall temp_dir t pre r,
  named t = true -> forallb truthy pre = true ->
  In r (walk w (fold_left join pre temp_dir) (String.concat "/" pre) t)
  <-> exists dirs n k,
        entry_at t dirs n k /\ r = record w temp_dir (pre ++ dirs) n k.
Proof.
  intros temp_dir t. induction t as [subdirs filenames IH] using tree_induction.
  intros pre r Hnamed Hpre. cbn [walk].
  cbn [named] in Hnamed. rewrite forallb_forall in Hnamed.
  rewrite Forall_forall in IH.
  assert (Hsub : forall d,
            In d subdirs -> _should_skip_dir (fst d) = false ->
            (In r (walk w (join (fold_left join pre temp_dir) (fst d))
                     (if truthy (String.concat "/" pre)
                      then join (String.concat "/" pre) (fst d) else fst d) (snd d))
             <-> exists dirs n k,
                   entry_at (snd d) dirs n k
                   /\ r = record w temp_dir (pre ++ fst d :: dirs) n k)).
  { intros d Hd Hskip.
    specialize (Hnamed d Hd). apply andb_true_iff in Hnamed.
    destruct Hnamed as [Hn Ht].
    rewrite rel_path_below by exact Hpre.
    assert (E1 : join (fold_left join pre temp_dir) (fst d)
                 = fold_left join (pre ++ [fst d]) temp_dir).
    { now rewrite fold_left_app. }
    assert (E2 : below pre (fst d) = String.concat "/" (pre ++ [fst d]))
      by reflexivity.
    rewrite E1, E2, (IH d Hd (pre ++ [fst d])%list r Ht).
    - split; intros (dirs & n & k & He & ->); exists dirs, n, k;
        (split; [exact He|]); now rewrite <- app_assoc.
    - rewrite forallb_app, Hpre. cbn. now rewrite Hn. }
  rewrite !in_app_iff, !in_map_iff, in_flat_map. split.
  - intros [(d & <- & Hd)|[(f & <- & Hf)|(d & Hd & Hin)]].
    + apply filter_In in Hd. destruct Hd as [Hd Hskip]. apply negb_true_iff in Hskip.
      exists [], (fst d), directory. split.
      * destruct d as [n sub]. now apply entry_directory with (sub := sub).
      * unfold record. rewrite app_nil_r.
        rewrite rel_path_below by exact Hpre. now rewrite root_below.
    + apply filter_In in Hf. destruct Hf as [Hf Hskip]. apply negb_true_iff in Hskip.
      exists [], f, file. split; [now apply entry_file|].
      unfold record. rewrite app_nil_r.
      rewrite rel_path_below by exact Hpre. now rewrite root_below.
    + destruct (_should_skip_dir (fst d)) eqn:Hskip; [destruct Hin|].
      apply (Hsub d Hd Hskip) in Hin. destruct Hin as (dirs & n & k & He & ->).
      exists (fst d :: dirs), n, k. split; [|reflexivity].
      destruct d as [dn sub]. now apply entry_below with (sub := sub).
  - intros (dirs & n & k & He & ->). inversion He; subst.
    + right. left. exists n. split.
      * unfold record. rewrite app_nil_r.
        rewrite rel_path_below by exact Hpre. now rewrite root_below.
      * apply filter_In. split; [assumption | now apply negb_true_iff].
    + left. exists (n, sub). split.
      * unfold record. rewrite app_nil_r. cbn [fst].
        rewrite rel_path_below by exact Hpre. now rewrite root_below.
      * apply filter_In. split; [assumption | now apply negb_true_iff].
    + right. right. exists (d, sub). split; [assumption|].
      cbn [fst snd]. match goal with H : _should_skip_dir d = false |- _ => rewrite H end.
      apply (Hsub (d, sub)); [assumption | assumption|].
      exists dirs0, n, k. split; [assumption | reflexivity].
Qed.

Lemma entry_at_kept : forall t dirs n k,
  entry_at t dirs n k ->
  Forall (fun d => _should_skip_dir d = false) dirs
  /\ match k with
     | file => _should_skip_file n = false
     | directory => _should_skip_dir n = false
     end.
Proof.
  intros t dirs n k H. induction H as [| |? ? ? ? ? ? ? ? ? ? [IH1 IH2]].
  - split; [constructor | assumption].
  - split; [constructor | assumption].
  - split; [constructor; assumption | assumption].
Qed.

(** X20.  The file list of a walked tree: its records are exactly those of the
    entries that are not skipped and lie below no skipped directory; each
    holds the name, the path from the top behind a slash (backslashes
    turned into slashes), the path on disk and, for a file, the extension
    and the size (0 when it cannot be read).  Nothing below [.git],
    [node_modules] or another skipped directory is ever listed, nor a
    hidden file other than the four allowed ones. *)
Theorem X20_analyze_files : forall (temp_dir : string) (t : tree),
  named t = true ->
  (forall r,
     In r (_analyze_files w temp_dir t)
     <-> exists dirs n k, entry_at t dirs n k /\ r = record w temp_dir dirs n k)
  /\ (forall dirs n k,
        entry_at t dirs n k ->
        Forall (fun d => _should_skip_dir d = false) dirs
        /\ match k with
           | file => _should_skip_file n = false
           | directory => _should_skip_dir n = false
           end).
Proof.
  intros temp_dir t Hnamed. split.
  - intros r. unfold _analyze_files.
    exact (walk_entries temp_dir t [] r Hnamed eq_refl).
  - apply entry_at_kept.
Qed.

Lemma find_file_app : forall l1 l2 m,
  _find_file (l1 ++ l2) m
  = match _find_file l1 m with
    | Some p => Some p
    | None => _find_file l2 m
    end.
Proof.
  induction l1 as [|f l1 IH]; intros l2 m; [reflexivity|].
  cbn [app _find_file]. destruct (name f =? m); [reflexivity | apply IH].
Qed.

(** X21.  The manifest at the top wins: a file of the top directory is found
    before any file of that name further down, unless a kept directory
    of the top bears the name. *)
Theorem X21_top_manifest : forall (temp_dir : string) (subdirs : list (string * tree))
    (filenames : list string) (m : string),
  In m filenames -> _should_skip_file m = false ->
  (forall d, In d subdirs -> fst d <> m) ->
  _find_file (_analyze_files w temp_dir (Dir subdirs filenames)) m
  = Some (temp_dir ++ "/" ++ m).
Proof.
  intros temp_dir subdirs filenames m Hm Hskip Hdirs.
  unfold _analyze_files. cbn [walk]. rewrite !find_file_app.
  assert (H1 : forall ds : list (string * tree),
            (forall d, In d ds -> fst d <> m) ->
            _find_file
              (map (fun d =>
                      {| name := fst d; type := directory;
                         path := "/" ++ replace_backslash
                                          (if truthy "" then join "" (fst d) else fst d);
                         full_path := join temp_dir (fst d);
                         extension := None; size := None |}) ds) m = None).
  { induction ds as [|d ds IH]; intros H; [reflexivity|].
    cbn [map _find_file name].
    destruct (fst d =? m) eqn:E.
    - apply String.eqb_eq in E. exfalso. exact (H d (or_introl eq_refl) E).
    - apply IH. intros d' Hd'. apply H. now right. }
  rewrite H1.
  2:{ intros d Hd. apply filter_In in Hd. apply Hdirs, Hd. }
  assert (H2 : forall fs : list string,
            In m fs ->
            _find_file
              (map (fun filename =>
                      {| name := filename; type := file;
                         path := "/" ++ replace_backslash
                                          (if truthy "" then join "" filename
                                           else filename);
                         full_path := join temp_dir filename;
                         extension := Some (splitext_ext filename);
                         size := Some match getsize w (join temp_dir filename) with
                                      | Ok n => n
                                      | Raise _ => 0%Z
                                      end |}) fs) m
            = Some (join temp_dir m)).
  { induction fs as [|f fs IH]; intros H; [destruct H|].
    cbn [map _find_file name full_path].
    destruct (f =? m) eqn:E.
    - apply String.eqb_eq in E. now subst.
    - apply IH. destruct H as [->|H]; [|exact H].
      rewrite String.eqb_refl in E. discriminate. }
  rewrite H2; [reflexivity|].
  apply filter_In. split; [exact Hm | now rewrite Hskip].
Qed.

End Walk.

Lemma X20_analyze_files_witness :
  named Cases.checkout = true
  /\ In (record (Samples.world_of []) "/work" ["src"] "main.go" file)
        (RepositoryAnalyzer._analyze_files (Samples.world_of []) "/work" Cases.checkout).
Proof.
  split; [reflexivity|].
  destruct (X20_analyze_files (Samples.world_of []) "/work" Cases.checkout eq_refl)
    as (H & _).
  apply H. exists ["src"], "main.go", file. split; [|reflexivity].
  eapply entry_below; [cbn; right; left; reflexivity | reflexivity |].
  apply entry_file; [cbn; tauto | reflexivity].
Defined.

Lemma X21_top_manifest_witness :
  _find_file (RepositoryAnalyzer._analyze_files (Samples.world_of []) "/work" Cases.checkout) "go.mod"
  = Some "/work/go.mod".
Proof.
  apply (X21_top_manifest (Samples.world_of []) "/work").
  - cbn; tauto.
  - reflexivity.
  - intros d Hd. cbn in Hd.
    repeat (destruct Hd as [<-|Hd]; [discriminate|]). destruct Hd.
Defined.

(* ================================================================== *)
(** * Soundness of the matcher with groups *)
(* ================================================================== *)

Section RxSound.

Lemma rx_star_sound : forall r1 k fuel s g m,
  (forall s g k m, Rx.rmatch r1 s g k = Some m ->
                   exists s' g', spans r1 s g s' g' /\ k s' g' = Some m) ->
  Rx.star_loop (Rx.rmatch r1) k fuel s g = Some m ->
  exists s' g', spans (Rx.Star r1) s g s' g' /\ k s' g' = Some m.
Proof.
  intros r1 k fuel s g m IH. revert s g m.
  induction fuel as [|fuel IHf]; intros s g m H; cbn [Rx.star_loop] in H.
  - exists s, g. split; [constructor | exact H].
  - destruct (Rx.rmatch r1 s g _) as [m'|] eqn:E.
    + injection H as ->. apply IH in E. destruct E as (s1 & g1 & Hs & Hk).
      destruct (String.length s1 <? String.length s)%nat; [|discriminate].
      apply IHf in Hk. destruct Hk as (s2 & g2 & Hs2 & Hk).
      exists s2, g2. split; [|exact Hk]. eapply spans_star_more; eassumption.
    + exists s, g. split; [constructor | exact H].
Qed.

Lemma rx_lazy_sound : forall r1 k fuel s g m,
  (forall s g k m, Rx.rmatch r1 s g k = Some m ->
                   exists s' g', spans r1 s g s' g' /\ k s' g' = Some m) ->
  Rx.lazy_loop (Rx.rmatch r1) k fuel s g = Some m ->
  exists s' g', spans (Rx.Lazy r1) s g s' g' /\ k s' g' = Some m.
Proof.
  intros r1 k fuel s g m IH. revert s g m.
  induction fuel as [|fuel IHf]; intros s g m H; cbn [Rx.lazy_loop] in H.
  - destruct (k s g) eqn:E; [|discriminate].
    exists s, g. split; [constructor | congruence].
  - destruct (k s g) eqn:E.
    + exists s, g. split; [constructor | congruence].
    + apply IH in H. destruct H as (s1 & g1 & Hs & Hk).
      destruct (String.length s1 <? String.length s)%nat; [|discriminate].
      apply IHf in Hk. destruct Hk as (s2 & g2 & Hs2 & Hk).
      exists s2, g2. split; [|exact Hk]. eapply spans_lazy_more; eassumption.
Qed.

(** The matcher finds only what the pattern can take. *)
Lemma rx_sound : forall r s g k m,
  Rx.rmatch r s g k = Some m ->
  exists s' g', spans r s g s' g' /\ k s' g' = Some m.
Proof.
  induction r as [|p|r1 IH1 r2 IH2|r1 IH1 r2 IH2|r1 IH1|r1 IH1|n r1 IH1|];
    intros s g k m H; cbn [Rx.rmatch] in H.
  - exists s, g. split; [constructor | exact H].
  - destruct s as [|c s]; [discriminate|].
    destruct (p c) eqn:E; [|discriminate].
    exists s, g. split; [now constructor | exact H].
  - apply IH1 in H. destruct H as (s1 & g1 & H1 & H).
    apply IH2 in H. destruct H as (s2 & g2 & H2 & H).
    exists s2, g2. split; [econstructor; eassumption | exact H].
  - destruct (Rx.rmatch r1 s g k) as [m'|] eqn:E.
    + injection H as ->. apply IH1 in E. destruct E as (s' & g' & H1 & H).
      exists s', g'. split; [now apply spans_alt_l | exact H].
    + apply IH2 in H. destruct H as (s' & g' & H2 & H).
      exists s', g'. split; [now apply spans_alt_r | exact H].
  - eapply rx_star_sound; eassumption.
  - eapply rx_lazy_sound; eassumption.
  - apply IH1 in H. destruct H as (s' & g' & H1 & H).
    exists s', ((n, consumed s s') :: g'). split; [now constructor | exact H].
  - destruct (at_end s) eqn:E; [|discriminate].
    exists s, g. split; [now constructor | exact H].
Qed.

Lemma rx_search_sound : forall r s m,
  Rx.re_search r s = Some m ->
  exists pre s0, s = pre ++ s0 /\ Rx.rmatch r s0 [] Rx.accept = Some m.
Proof.
  intros r. induction s as [|c s IH]; intros m H; cbn [Rx.re_search] in H.
  - destruct (Rx.rmatch r "" [] Rx.accept) eqn:E; [|discriminate].
    exists "", "". split; [reflexivity | congruence].
  - destruct (Rx.rmatch r (String c s) [] Rx.accept) eqn:E.
    + exists "", (String c s). split; [reflexivity | congruence].
    + apply IH in H. destruct H as (pre & s0 & -> & H).
      exists (String c pre), s0. split; [reflexivity | exact H].
Qed.

Lemma spans_lit : forall w s g s' g',
  spans (Rx.lit w) s g s' g' -> s = w ++ s' /\ g' = g.
Proof.
  induction w as [|c w IH]; intros s g s' g' H; cbn [Rx.lit] in H.
  - inversion H; subst. split; reflexivity.
  - inversion H as [| |r1 r2 s0 g0 s1 g1 s2 g2 H1 H2| | | | | | | |]; subst.
    inversion H1; subst.
    apply IH in H2. destruct H2 as [-> ->].
    match goal with E : Ascii.eqb c _ = true |- _ => apply Ascii.eqb_eq in E; subst end.
    split; reflexivity.
Qed.

Lemma spans_star_class : forall p s g s' g',
  spans (Rx.Star (Rx.Char p)) s g s' g' ->
  exists a, s = a ++ s' /\ all_in p a = true /\ g' = g.
Proof.
  intros p s g s' g' H.
  remember (Rx.Star (Rx.Char p)) as r eqn:Er.
  induction H; try discriminate.
  - exists "". repeat split.
  - injection Er as ->. inversion H; subst.
    destruct (IHspans2 eq_refl) as (a & -> & Ha & ->).
    exists (String c a). repeat split. cbn [all_in].
    match goal with E : p c = true |- _ => now rewrite E end.
Qed.

Lemma spans_lazy_class : forall p s g s' g',
  spans (Rx.Lazy (Rx.Char p)) s g s' g' ->
  exists a, s = a ++ s' /\ all_in p a = true /\ g' = g.
Proof.
  intros p s g s' g' H.
  remember (Rx.Lazy (Rx.Char p)) as r eqn:Er.
  induction H; try discriminate.
  - exists "". repeat split.
  - injection Er as ->. inversion H; subst.
    destruct (IHspans2 eq_refl) as (a & -> & Ha & ->).
    exists (String c a). repeat split. cbn [all_in].
    match goal with E : p c = true |- _ => now rewrite E end.
Qed.

End RxSound.

(* ================================================================== *)
(** * What a parsed URL holds *)
(* ================================================================== *)

Section ParseUrl.

Import RepositoryAnalyzer.

Lemma spans_cat_inv : forall r1 r2 s g s2 g2,
  spans (Rx.Cat r1 r2) s g s2 g2 ->
  exists s1 g1, spans r1 s g s1 g1 /\ spans r2 s1 g1 s2 g2.
Proof. intros r1 r2 s g s2 g2 H. inversion H; subst. eauto. Qed.

Lemma spans_chr : forall c s g s' g',
  spans (Rx.chr c) s g s' g' -> s = String c s' /\ g' = g.
Proof.
  intros c s g s' g' H. inversion H; subst.
  match goal with E : Ascii.eqb c _ = true |- _ => apply Ascii.eqb_eq in E; subst end.
  split; reflexivity.
Qed.

Lemma spans_plus_class : forall p s g s' g',
  spans (Rx.Plus (Rx.Char p)) s g s' g' ->
  exists a, s = a ++ s' /\ all_in p a = true /\ truthy a = true /\ g' = g.
Proof.
  intros p s g s' g' H. apply spans_cat_inv in H. destruct H as (s1 & g1 & H1 & H2).
  inversion H1; subst. apply spans_star_class in H2. destruct H2 as (a & -> & Ha & ->).
  exists (String c a). repeat split. cbn [all_in].
  match goal with E : p c = true |- _ => now rewrite E end.
Qed.

Lemma spans_lazy_plus_class : forall p s g s' g',
  spans (Rx.LazyPlus (Rx.Char p)) s g s' g' ->
  exists a, s = a ++ s' /\ all_in p a = true /\ truthy a = true /\ g' = g.
Proof.
  intros p s g s' g' H. apply spans_cat_inv in H. destruct H as (s1 & g1 & H1 & H2).
  inversion H1; subst. apply spans_lazy_class in H2. destruct H2 as (a & -> & Ha & ->).
  exists (String c a). repeat split. cbn [all_in].
  match goal with E : p c = true |- _ => now rewrite E end.
Qed.

Lemma spans_group_inv : forall n r s g s' g'',
  spans (Rx.Group n r) s g s' g'' ->
  exists g', spans r s g s' g' /\ g'' = (n, consumed s s') :: g'.
Proof. intros n r s g s' g'' H. inversion H; subst. eauto. Qed.

Lemma spans_opt : forall r s g s' g',
  spans (Rx.Opt r) s g s' g' -> spans r s g s' g' \/ (s' = s /\ g' = g).
Proof.
  intros r s g s' g' H. inversion H; subst; [now left|].
  match goal with E : spans Rx.Empty _ _ _ _ |- _ => inversion E; subst end.
  now right.
Qed.

Lemma spans_eos_inv : forall s g s' g',
  spans Rx.Eos s g s' g' -> s' = s /\ g' = g /\ at_end s = true.
Proof. intros s g s' g' H. inversion H; subst. repeat split. assumption. Qed.

Lemma all_in_ext : forall (p q : ascii -> bool) s,
  (forall c, p c = q c) -> all_in p s = all_in q s.
Proof.
  intros p q s H. induction s as [|c s IH]; [reflexivity|].
  cbn [all_in]. now rewrite H, IH.
Qed.

Lemma none_of_slash : forall s,
  all_in (fun c => negb (existsb (Ascii.eqb c) (list_ascii_of_string "/"))) s
  = slash_free s.
Proof.
  intros s. apply all_in_ext. intros c. cbn. now rewrite orb_false_r.
Qed.

(** What a match of the repository pattern holds. *)
Lemma repo_re_match : forall host s0 m,
  Rx.rmatch (repo_re host) s0 [] Rx.accept = Some m ->
  exists owner name ending fin,
    s0 = host ++ "/" ++ owner ++ "/" ++ name ++ ending ++ fin
    /\ m = [(2, name); (1, owner)]
    /\ truthy owner = true /\ slash_free owner = true
    /\ truthy name = true /\ slash_free name = true
    /\ In ending endings /\ at_end fin = true.
Proof.
  intros host s0 m H. apply rx_sound in H. destruct H as (s' & g' & H & Hacc).
  unfold Rx.accept in Hacc. injection Hacc as <-.
  unfold repo_re in H.
  apply spans_cat_inv in H. destruct H as (s1 & g1 & Hhost & H).
  apply spans_lit in Hhost. destruct Hhost as [-> ->].
  apply spans_cat_inv in H. destruct H as (s2 & g2 & Hslash & H).
  apply spans_chr in Hslash. destruct Hslash as [-> ->].
  apply spans_cat_inv in H. destruct H as (s3 & g3 & Howner & H).
  apply spans_group_inv in Howner. destruct Howner as (g3' & Howner & ->).
  apply spans_plus_class in Howner. destruct Howner as (owner & -> & Ho & Hot & ->).
  rewrite none_of_slash in Ho.
  rewrite consumed_app in H.
  apply spans_cat_inv in H. destruct H as (s4 & g4 & Hslash & H).
  apply spans_chr in Hslash. destruct Hslash as [-> ->].
  apply spans_cat_inv in H. destruct H as (s5 & g5 & Hname & H).
  apply spans_group_inv in Hname. destruct Hname as (g5' & Hname & ->).
  apply spans_lazy_plus_class in Hname. destruct Hname as (name & -> & Hn & Hnt & ->).
  rewrite none_of_slash in Hn.
  rewrite consumed_app in H.
  apply spans_cat_inv in H. destruct H as (s6 & g6 & Hgit & H).
  apply spans_cat_inv in H. destruct H as (s7 & g7 & Hsl & H).
  apply spans_eos_inv in H. destruct H as (-> & -> & Hend).
  exists owner, name.
  apply spans_opt in Hgit. apply spans_opt in Hsl.
  destruct Hgit as [Hgit|[-> ->]]; [apply spans_lit in Hgit; destruct Hgit as [-> ->]|];
    (destruct Hsl as [Hsl|[-> ->]];
     [apply spans_chr in Hsl; destruct Hsl as [-> ->]|]).
  - exists ".git/". eexists.
    repeat split;
      first [ assumption | now rewrite !append_assoc | cbn [endings In]; auto 6 ].
  - exists ".git". eexists.
    repeat split;
      first [ assumption | now rewrite !append_assoc | cbn [endings In]; auto 6 ].
  - exists "/". eexists.
    repeat split;
      first [ assumption | now rewrite !append_assoc | cbn [endings In]; auto 6 ].
  - exists "". eexists.
    repeat split;
      first [ assumption | now rewrite !append_assoc | cbn [endings In]; auto 6 ].
Qed.

Lemma slash_free_one_line_part : forall a b c : string,
  one_line (a ++ b ++ c) = true -> one_line b = true.
Proof.
  intros a b c H. rewrite !one_line_app in H.
  apply andb_true_iff in H. destruct H as [_ H].
  apply andb_true_iff in H. now destruct H.
Qed.

(** X22.  What [_parse_repo_url] returns, when it returns: the platform of the
    host it found, an owner and a name that are not empty and hold no
    slash, and their join as the full name.  The URL ends with the host,
    the owner and the name behind slashes, then [.git] or not, a slash or
    not, and at most a final line feed.  A URL of one line gives a name of
    one line. *)
Theorem X22_parse_repo_url_sound : forall (url : string) (info : Repository.t),
  _parse_repo_url url = Some info ->
  Repository.url info = url
  /\ Repository.full_name info = Repository.owner info ++ "/" ++ Repository.name info
  /\ truthy (Repository.owner info) = true
  /\ slash_free (Repository.owner info) = true
  /\ truthy (Repository.name info) = true
  /\ slash_free (Repository.name info) = true
  /\ (exists host pre ending fin,
        In (Repository.platform info, host)
           [("github", "github.com"); ("gitlab", "gitlab.com")]
        /\ In ending endings /\ at_end fin = true
        /\ url = pre ++ host ++ "/" ++ Repository.owner info ++ "/"
                 ++ Repository.name info ++ ending ++ fin)
  /\ (one_line url = true -> one_line (Repository.name info) = true).
Proof.
  intros url info H. unfold _parse_repo_url in H.
  assert (Hcase : exists platform host m,
            In (platform, host) [("github", "github.com"); ("gitlab", "gitlab.com")]
            /\ Rx.re_search (repo_re host) url = Some m
            /\ info = repo_info url platform m).
  { destruct (Rx.re_search (repo_re "github.com") url) as [m|] eqn:E1.
    - injection H as <-. exists "github", "github.com", m.
      repeat split; first [assumption | cbn; auto].
    - destruct (Rx.re_search (repo_re "gitlab.com") url) as [m|] eqn:E2;
        [|discriminate].
      injection H as <-. exists "gitlab", "gitlab.com", m.
      repeat split; first [assumption | cbn; auto]. }
  destruct Hcase as (platform & host & m & Hhost & Hsearch & ->).
  apply rx_search_sound in Hsearch. destruct Hsearch as (pre & s0 & Hurl & Hm).
  apply repo_re_match in Hm.
  destruct Hm as (owner & name & ending & fin & -> & -> & Hot & Ho & Hnt & Hn & He & Hf).
  unfold repo_info. cbn [Rx.group Nat.eqb Repository.url Repository.full_name
                          Repository.owner Repository.name Repository.platform].
  repeat split; try assumption.
  - exists host, pre, ending, fin. repeat split; assumption.
  - intros Hline. rewrite Hurl in Hline.
    apply (slash_free_one_line_part (pre ++ host ++ "/" ++ owner ++ "/") name
             (ending ++ fin)).
    now rewrite !append_assoc.
Qed.

End ParseUrl.

Lemma X22_parse_repo_url_sound_witness :
  RepositoryAnalyzer._parse_repo_url "git@github.com/acme/shop.git" = Some Cases.ssh_repository
  /\ slash_free (Repository.name Cases.ssh_repository) = true
  /\ one_line (Repository.name Cases.ssh_repository) = true.
Proof.
  split; [reflexivity|].
  destruct (X22_parse_repo_url_sound "git@github.com/acme/shop.git"
              Cases.ssh_repository eq_refl) as (_ & _ & _ & _ & _ & Hs & _ & Hl).
  split; [exact Hs | exact (Hl eq_refl)].
Defined.

(* ================================================================== *)
(** * The repository pattern on a URL *)
(* ================================================================== *)

Section RoundTrip.

Import RepositoryAnalyzer.

Lemma rx_lit : forall w t g k,
  Rx.rmatch (Rx.lit w) t g k
  = match strip_prefix w t with
    | Some u => k u g
    | None => None
    end.
Proof.
  induction w as [|c w IH]; intros t g k; [reflexivity|].
  cbn [Rx.lit Rx.rmatch strip_prefix]. destruct t as [|c' t]; [reflexivity|].
  unfold Rx.chr. cbn [Rx.rmatch].
  destruct (Ascii.eqb c c'); [apply IH | reflexivity].
Qed.

Lemma strip_prefix_app : forall w t, strip_prefix w (w ++ t) = Some t.
Proof.
  induction w as [|c w IH]; intros t; [reflexivity|].
  cbn [append strip_prefix]. now rewrite Ascii.eqb_refl.
Qed.

Lemma strip_prefix_extend : forall w x rest,
  strip_prefix w x = None -> (String.length w <= String.length x)%nat ->
  strip_prefix w (x ++ rest) = None.
Proof.
  induction w as [|c w IH]; intros x rest H Hlen; [discriminate|].
  destruct x as [|c' x]; [cbn in Hlen; lia|].
  cbn [append strip_prefix] in *. destruct (Ascii.eqb c c'); [|reflexivity].
  apply IH; [exact H | cbn in Hlen; lia].
Qed.

Lemma rx_tail : forall t g,
  Rx.rmatch (Rx.Cat (Rx.Opt (Rx.lit ".git")) (Rx.Cat (Rx.Opt (Rx.chr "/")) Rx.Eos))
    t g Rx.accept
  = if tail_ok t then Some g else None.
Proof.
  assert (Hslash : forall u g,
            Rx.rmatch (Rx.Cat (Rx.Opt (Rx.chr "/")) Rx.Eos) u g Rx.accept
            = if slash_end u then Some g else None).
  { intros u g. cbn [Rx.rmatch Rx.Opt]. unfold Rx.chr. cbn [Rx.rmatch].
    unfold slash_end, at_end, Rx.accept.
    destruct u as [|c u]; [reflexivity|].
    destruct (Ascii.eqb "/" c) eqn:Ec.
    - apply Ascii.eqb_eq in Ec. subst c.
      destruct u as [|c' u]; [reflexivity|].
      destruct u as [|c'' u]; cbn;
        repeat match goal with
               | |- context [Ascii.eqb ?x ?y] => destruct (Ascii.eqb x y)
               end; reflexivity.
    - assert (E : (String c u =? "/") = false).
      { cbn. rewrite Ascii.eqb_sym, Ec. reflexivity. }
      assert (E' : (String c u =? "/" ++ nl) = false).
      { cbn. rewrite Ascii.eqb_sym, Ec. reflexivity. }
      rewrite E, E'. cbn [orb String.eqb].
      rewrite !orb_false_r. reflexivity. }
  intros t g. unfold tail_ok.
  change (Rx.rmatch (Rx.Cat (Rx.Opt (Rx.lit ".git"))
                       (Rx.Cat (Rx.Opt (Rx.chr "/")) Rx.Eos)) t g Rx.accept)
    with (match Rx.rmatch (Rx.lit ".git") t g
                  (fun s' g' =>
                     Rx.rmatch (Rx.Cat (Rx.Opt (Rx.chr "/")) Rx.Eos) s' g' Rx.accept)
          with
          | Some m => Some m
          | None => Rx.rmatch (Rx.Cat (Rx.Opt (Rx.chr "/")) Rx.Eos) t g Rx.accept
          end).
  rewrite rx_lit, !Hslash.
  destruct (strip_prefix ".git" t) as [u|]; [|reflexivity].
  rewrite Hslash. destruct (slash_end u); [reflexivity|].
  destruct (slash_end t); reflexivity.
Qed.

Lemma rx_char : forall p c s g k,
  Rx.rmatch (Rx.Char p) (String c s) g k = if p c then k s g else None.
Proof. reflexivity. Qed.

Lemma rx_star_class : forall p a rest k g m fuel,
  all_in p a = true -> stops p rest = true ->
  (String.length (a ++ rest) <= fuel)%nat ->
  k rest g = Some m ->
  Rx.star_loop (Rx.rmatch (Rx.Char p)) k fuel (a ++ rest) g = Some m.
Proof.
  intros p a. induction a as [|c a IH]; intros rest k g m fuel Ha Hstop Hfuel Hk.
  - cbn [append]. destruct fuel as [|fuel]; cbn [Rx.star_loop]; [exact Hk|].
    destruct rest as [|c r].
    + exact Hk.
    + rewrite rx_char. cbn [stops] in Hstop. apply negb_true_iff in Hstop.
      rewrite Hstop. exact Hk.
  - cbn [all_in] in Ha. apply andb_true_iff in Ha. destruct Ha as [Hc Ha].
    cbn [append String.length] in *. destruct fuel as [|fuel]; [lia|].
    cbn [Rx.star_loop]. rewrite rx_char, Hc.
    assert (Hlt : (String.length (a ++ rest)
                   <? String.length (String c (a ++ rest)))%nat = true)
      by (apply Nat.ltb_lt; cbn [String.length]; lia).
    rewrite Hlt.
    rewrite (IH rest k g m fuel Ha Hstop ltac:(lia) Hk). reflexivity.
Qed.

(** The lazy loop over a run of the class, in front of a continuation
    that accepts by [tail_ok]: it stops at the first end that is accepted. *)
Lemma rx_lazy_whole : forall p n e (f : string -> Rx.groups -> Rx.groups) g fuel,
  all_in p n = true -> early_end n e = false -> tail_ok e = true ->
  (String.length n <= fuel)%nat ->
  Rx.lazy_loop (Rx.rmatch (Rx.Char p))
    (fun s' g' => if tail_ok s' then Some (f s' g') else None) fuel (n ++ e) g
  = Some (f e g).
Proof.
  intros p n e f. induction n as [|c n IH]; intros g fuel Hn Hearly Hok Hfuel.
  - cbn [append]. destruct fuel; cbn [Rx.lazy_loop]; now rewrite Hok.
  - cbn [all_in] in Hn. apply andb_true_iff in Hn. destruct Hn as [Hc Hn].
    cbn [early_end] in Hearly. apply orb_false_iff in Hearly.
    destruct Hearly as [Hhere Hearly].
    cbn [String.length] in Hfuel. destruct fuel as [|fuel]; [lia|].
    cbn [Rx.lazy_loop]. rewrite Hhere.
    cbn [append]. rewrite rx_char, Hc.
    assert (Hlt : (String.length (n ++ e)
                   <? String.length (String c (n ++ e)))%nat = true)
      by (apply Nat.ltb_lt; cbn [String.length]; lia).
    rewrite Hlt. apply IH; [assumption | assumption | assumption | lia].
Qed.

Lemma lazy_loop_ext : forall step (k k' : Rx.cont),
  (forall s g, k s g = k' s g) ->
  (forall s g (k1 k2 : Rx.cont),
     (forall s' g', k1 s' g' = k2 s' g') -> step s g k1 = step s g k2) ->
  forall fuel s g,
    Rx.lazy_loop step k fuel s g = Rx.lazy_loop step k' fuel s g.
Proof.
  intros step k k' Hk Hstep. induction fuel as [|fuel IH]; intros s g;
    cbn [Rx.lazy_loop]; rewrite Hk; [reflexivity|].
  destruct (k' s g); [reflexivity|].
  apply Hstep. intros s' g'. now rewrite IH.
Qed.

Lemma tail_ok_endings : forall ending fin,
  In ending endings -> at_end fin = true -> tail_ok (ending ++ fin) = true.
Proof.
  intros ending fin He Hf. unfold at_end in Hf. apply orb_true_iff in Hf.
  cbn [endings In] in He.
  destruct Hf as [Hf|Hf]; apply String.eqb_eq in Hf; subst fin;
    destruct He as [<-|[<-|[<-|[<-|[]]]]]; reflexivity.
Qed.

Lemma rx_cat : forall r1 r2 s g k,
  Rx.rmatch (Rx.Cat r1 r2) s g k
  = Rx.rmatch r1 s g (fun s' g' => Rx.rmatch r2 s' g' k).
Proof. reflexivity. Qed.

Lemma rx_group : forall n r s g k,
  Rx.rmatch (Rx.Group n r) s g k
  = Rx.rmatch r s g (fun s' g' => k s' ((n, consumed s s') :: g')).
Proof. reflexivity. Qed.

Lemma rx_star : forall r s g k,
  Rx.rmatch (Rx.Star r) s g k = Rx.star_loop (Rx.rmatch r) k (String.length s) s g.
Proof. reflexivity. Qed.

Lemma rx_lazy : forall r s g k,
  Rx.rmatch (Rx.Lazy r) s g k = Rx.lazy_loop (Rx.rmatch r) k (String.length s) s g.
Proof. reflexivity. Qed.

(** The repository pattern on a URL written out. *)
Lemma repo_re_commits : forall host owner name ending fin,
  truthy owner = true -> slash_free owner = true ->
  truthy name = true -> slash_free name = true ->
  In ending endings -> at_end fin = true ->
  whole name (ending ++ fin) = true ->
  Rx.rmatch (repo_re host)
    (host ++ "/" ++ owner ++ "/" ++ name ++ ending ++ fin) [] Rx.accept
  = Some [(2, name); (1, owner)].
Proof.
  intros host owner name ending fin Hot Ho Hnt Hn He Hf Hwhole.
  set (E := ending ++ fin) in *.
  pose proof (tail_ok_endings ending fin He Hf) as HE. fold E in HE.
  destruct owner as [|co owner]; [discriminate|].
  destruct name as [|cn name]; [discriminate|].
  unfold slash_free in Ho, Hn. cbn [all_in] in Ho, Hn.
  apply andb_true_iff in Ho. destruct Ho as [Hco Ho].
  apply andb_true_iff in Hn. destruct Hn as [Hcn Hn].
  cbn [whole] in Hwhole. apply negb_true_iff in Hwhole.
  set (p := fun c : ascii => negb (Ascii.eqb c "/")) in *.
  assert (Hp : Rx.none_of "/" = Rx.Char (fun c => negb (Ascii.eqb c "/" || false)))
    by reflexivity.
  assert (Hcls : forall c, negb (Ascii.eqb c "/" || false) = p c).
  { intros c. unfold p. now rewrite orb_false_r. }
  unfold repo_re. rewrite Hp.
  set (q := fun c : ascii => negb (Ascii.eqb c "/" || false)) in *.
  assert (Hqo : all_in q owner = true).
  { rewrite (all_in_ext q p) by exact Hcls. exact Ho. }
  assert (Hqn : all_in q name = true).
  { rewrite (all_in_ext q p) by exact Hcls. exact Hn. }
  assert (Hqco : q co = true) by (unfold q; rewrite Hcls; exact Hco).
  assert (Hqcn : q cn = true) by (unfold q; rewrite Hcls; exact Hcn).
  assert (Hqs : q "/"%char = false) by reflexivity.
  clearbody q.
  (* the host and the slash *)
  rewrite rx_cat, rx_lit, strip_prefix_app.
  rewrite rx_cat. unfold Rx.chr at 1.
  change ("/" ++ String co owner ++ "/" ++ String cn name ++ E)
    with (String "/" (String co (owner ++ "/" ++ String cn name ++ E))).
  rewrite rx_char, Ascii.eqb_refl.
  (* group 1 *)
  rewrite rx_cat, rx_group. unfold Rx.Plus. rewrite rx_cat, rx_char, Hqco, rx_star.
  apply rx_star_class; [exact Hqo | | apply Nat.le_refl |].
  { cbn [append stops]. now rewrite Hqs. }
  change (String co (owner ++ "/" ++ String cn name ++ E))
    with (String co owner ++ "/" ++ String cn name ++ E).
  rewrite consumed_app.
  (* the slash and group 2 *)
  rewrite rx_cat. unfold Rx.chr at 1.
  change ("/" ++ String cn name ++ E) with (String "/" (String cn (name ++ E))).
  rewrite rx_char, Ascii.eqb_refl.
  rewrite rx_cat, rx_group. unfold Rx.LazyPlus. rewrite rx_cat, rx_char, Hqcn, rx_lazy.
  assert (Hk : forall s' g',
            Rx.rmatch (Rx.Cat (Rx.Opt (Rx.lit ".git"))
                         (Rx.Cat (Rx.Opt (Rx.chr "/")) Rx.Eos)) s'
              ((2, consumed (String cn (name ++ E)) s') :: g') Rx.accept
            = if tail_ok s'
              then Some ((2, consumed (String cn (name ++ E)) s') :: g')
              else None).
  { intros s' g'. apply rx_tail. }
  rewrite (lazy_loop_ext _ _ _ Hk).
  rewrite (rx_lazy_whole q name E
             (fun s' g' => (2, consumed (String cn (name ++ E)) s') :: g'));
    try assumption.
  - change (String cn (name ++ E)) with (String cn name ++ E).
    now rewrite consumed_app.
  - rewrite length_append. lia.
  - intros s g k1 k2 Hk12. destruct s as [|c s]; [reflexivity|].
    rewrite !rx_char. now rewrite Hk12.
Qed.

End RoundTrip.

(* ================================================================== *)
(** * URLs that are read back *)
(* ================================================================== *)

Section RoundTripSearch.

Import RepositoryAnalyzer.

Lemma strip_prefix_none : forall w s,
  String.prefix w s = false -> strip_prefix w s = None.
Proof.
  induction w as [|c w IH]; intros s H; [destruct s; discriminate|].
  destruct s as [|c' s]; [reflexivity|].
  cbn [String.prefix strip_prefix] in *.
  destruct (Ascii.eqb c c') eqn:E.
  - apply Ascii.eqb_eq in E. subst c'.
    destruct (ascii_dec c c) as [_|Hne]; [now apply IH | now elim Hne].
  - reflexivity.
Qed.

(** A pattern that starts with a literal finds nothing in a text that
    does not contain the literal. *)
Lemma rx_search_absent : forall w r s,
  contains w s = false -> Rx.re_search (Rx.Cat (Rx.lit w) r) s = None.
Proof.
  intros w r. induction s as [|c s IH]; intros H; cbn [contains] in H;
    apply orb_false_iff in H; destruct H as [Hp Hc]; cbn [Rx.re_search];
    rewrite rx_cat, rx_lit, (strip_prefix_none _ _ Hp); [reflexivity|].
  now apply IH.
Qed.

(** The search passes over a prefix in which the host does not start. *)
Lemma rx_search_skip : forall host r pre rest,
  starts_before host pre = false ->
  Rx.re_search (Rx.Cat (Rx.lit host) r) (pre ++ host ++ rest)
  = Rx.re_search (Rx.Cat (Rx.lit host) r) (host ++ rest).
Proof.
  intros host r. induction pre as [|c pre IH]; intros rest H; [reflexivity|].
  cbn [starts_before] in H.
  destruct (strip_prefix host (String c pre ++ host)) eqn:E; [discriminate|].
  cbn [append Rx.re_search]. rewrite rx_cat, rx_lit.
  change (String c (pre ++ host ++ rest)) with (String c pre ++ host ++ rest).
  replace (String c pre ++ host ++ rest) with ((String c pre ++ host) ++ rest)
    by apply append_assoc.
  rewrite (strip_prefix_extend _ _ rest E)
    by (rewrite length_append; lia).
  now apply IH.
Qed.

Lemma repo_re_search : forall host pre owner name ending fin,
  starts_before host pre = false ->
  truthy owner = true -> slash_free owner = true ->
  truthy name = true -> slash_free name = true ->
  In ending endings -> at_end fin = true ->
  whole name (ending ++ fin) = true ->
  Rx.re_search (repo_re host)
    (pre ++ host ++ "/" ++ owner ++ "/" ++ name ++ ending ++ fin)
  = Some [(2, name); (1, owner)].
Proof.
  intros host pre owner name ending fin Hpre Hot Ho Hnt Hn He Hf Hw.
  unfold repo_re at 1. rewrite rx_search_skip by exact Hpre.
  pose proof (repo_re_commits host owner name ending fin Hot Ho Hnt Hn He Hf Hw)
    as H.
  unfold repo_re in H.
  destruct (host ++ "/" ++ owner ++ "/" ++ name ++ ending ++ fin) eqn:E;
    cbn [Rx.re_search]; now rewrite H.
Qed.

(** A name free of dots, slashes and line feeds is taken whole. *)
Lemma plain_name_whole : forall name e,
  dot_free name = true -> slash_free name = true -> one_line name = true ->
  whole name e = true.
Proof.
  intros name e Hd Hs Hl.
  destruct name as [|c0 name]; [reflexivity|].
  unfold dot_free, slash_free in *. cbn [all_in one_line whole] in *.
  apply andb_true_iff in Hd. destruct Hd as [_ Hd].
  apply andb_true_iff in Hs. destruct Hs as [_ Hs].
  assert (Hl' : one_line name = true).
  { destruct (Ascii.eqb c0 LF); [discriminate | exact Hl]. }
  clear Hl. apply negb_true_iff.
  induction name as [|c name IH]; [reflexivity|].
  cbn [all_in one_line early_end] in *.
  apply andb_true_iff in Hd. destruct Hd as [Hc Hd].
  apply andb_true_iff in Hs. destruct Hs as [Hc' Hs].
  destruct (Ascii.eqb c LF) eqn:El; [discriminate|].
  rewrite (IH Hd Hs Hl'), orb_false_r.
  apply negb_true_iff in Hc, Hc'.
  unfold tail_ok, slash_end. cbn [append strip_prefix String.eqb].
  rewrite (Ascii.eqb_sym "." c), Hc.
  unfold nl. cbn [String.eqb append].
  rewrite Hc', El. reflexivity.
Qed.

(** X23.  The URLs that [_parse_repo_url] reads back.  A URL made of a prefix in
    which the host does not start, the host, an owner and a name that are
    not empty and hold no slash, one of the four endings and at most a
    final line feed is parsed into that platform, owner and name, provided
    the name is taken whole: no proper end of it, with what follows, can
    itself be read as the end of the URL (as [.git] in front of nothing
    can).  For GitLab the URL must not contain the text [github.com], which
    is searched first. *)
Theorem X23_parse_repo_url_complete : forall platform host pre owner name ending fin,
  In (platform, host) [("github", "github.com"); ("gitlab", "gitlab.com")] ->
  let url := pre ++ host ++ "/" ++ owner ++ "/" ++ name ++ ending ++ fin in
  starts_before host pre = false ->
  (platform = "gitlab" -> contains "github.com" url = false) ->
  truthy owner = true -> slash_free owner = true ->
  truthy name = true -> slash_free name = true ->
  In ending endings -> at_end fin = true ->
  whole name (ending ++ fin) = true ->
  _parse_repo_url url
  = Some {| Repository.url := url;
            Repository.platform := platform;
            Repository.owner := owner;
            Repository.name := name;
            Repository.full_name := owner ++ "/" ++ name |}.
Proof.
  intros platform host pre owner name ending fin Hin url Hpre Hgl Hot Ho Hnt Hn
    He Hf Hw.
  pose proof (repo_re_search host pre owner name ending fin Hpre Hot Ho Hnt Hn
                He Hf Hw) as H.
  fold url in H. unfold _parse_repo_url.
  destruct Hin as [Hin|[Hin|[]]]; injection Hin as <- <-.
  - rewrite H. reflexivity.
  - unfold repo_re at 1. rewrite rx_search_absent by now apply Hgl.
    rewrite H. reflexivity.
Qed.

End RoundTripSearch.

Lemma X23_parse_repo_url_complete_witness :
  RepositoryAnalyzer._parse_repo_url "https://gitlab.com/group/my.project.git/"
  = Some {| Repository.url := "https://gitlab.com/group/my.project.git/";
            Repository.platform := "gitlab";
            Repository.owner := "group";
            Repository.name := "my.project";
            Repository.full_name := "group/my.project" |}.
Proof.
  apply (X23_parse_repo_url_complete "gitlab" "gitlab.com" "https://" "group"
           "my.project" ".git/" "");
    first [reflexivity | cbn [In endings]; auto 6].
Defined.

(* ================================================================== *)
(** * Properties of the recommendations *)
(* ================================================================== *)

Section Recommendations.

Import RepositoryAnalyzer.

Lemma test_advice_cases : forall lang a,
  test_advice lang = Some a ->
  a <> docker_advice /\ a <> pipeline_note.
Proof.
  intros lang a H. unfold test_advice in H.
  repeat match type of H with
         | (if ?b then _ else _) = _ => destruct b
         end;
    first [ discriminate H
          | injection H as <-; split; intros E; vm_compute in E; discriminate E ].
Qed.

Lemma recommendations_value : forall ts files,
  _generate_recommendations ts files
  = ((if negb (has_tests ts)
      then match test_advice (primary_language ts) with
           | Some a => [a]
           | None => []
           end
      else [])
     ++ (if negb (has_dockerfile ts) then [docker_advice] else [])
     ++ (if negb (existsb (fun f => contains ".gitlab-ci.yml" (name f)) files)
         then [pipeline_note] else []))%list.
Proof.
  intros ts files. unfold _generate_recommendations, test_advice.
  destruct (has_tests ts), (has_dockerfile ts),
    (existsb (fun f => contains ".gitlab-ci.yml" (name f)) files);
    cbn [negb];
    repeat match goal with
           | |- context [if ?b then _ else _] => destruct b
           end; reflexivity.
Qed.

Lemma gitlab_ci_iff : forall files,
  existsb (fun f => contains ".gitlab-ci.yml" (name f)) files = true
  <-> mentions_gitlab_ci files.
Proof. intros files. apply existsb_exists. Qed.

(** X24.  The recommendations of an analysed file list: at most three notes and
    none twice.  The advice on tests appears exactly when no test was found
    and the primary language is one of the six that have an advice, the
    advice on a Dockerfile exactly when no regular file bears a Dockerfile
    name, and the note on the pipeline exactly when no entry has
    [.gitlab-ci.yml] in its name.  The list is empty exactly when none of
    the three applies. *)
Theorem X24_recommendations : forall (w : World) files dir ts,
  detect_tech_stack w files dir = Ok ts ->
  let r := _generate_recommendations ts files in
  NoDup r
  /\ (length r <= 3)%nat
  /\ (forall a, In a r <->
        (_check_tests files = false /\ test_advice (primary_language ts) = Some a)
        \/ (a = docker_advice /\ ~ regular_file_named dockerfile_names files)
        \/ (a = pipeline_note /\ ~ mentions_gitlab_ci files))
  /\ (r = [] <->
        (_check_tests files = true \/ test_advice (primary_language ts) = None)
        /\ regular_file_named dockerfile_names files
        /\ mentions_gitlab_ci files).
Proof.
  intros w files dir ts Hts r.
  destruct (detect_tech_stack_fields w files dir ts Hts)
    as (stats & vi & fw & _ & _ & _ & E).
  assert (Ht : has_tests ts = _check_tests files) by (rewrite E; reflexivity).
  assert (Hd : has_dockerfile ts = _check_dockerfile files) by (rewrite E; reflexivity).
  pose proof (check_dockerfile_iff files) as Hdi.
  pose proof (gitlab_ci_iff files) as Hci.
  subst r. rewrite recommendations_value, Ht, Hd.
  pose proof (test_advice_cases (primary_language ts)) as Hadv.
  assert (Hne : docker_advice <> pipeline_note)
    by (intros Eq; vm_compute in Eq; discriminate Eq).
  set (lang := primary_language ts) in *. clearbody lang. clear E Ht Hd Hts.
  set (ci := existsb (fun f => contains ".gitlab-ci.yml" (name f)) files) in *.
  set (gi := mentions_gitlab_ci files) in *.
  set (df := regular_file_named dockerfile_names files) in *.
  clearbody ci gi df.
  assert (Hdn : _check_dockerfile files = false <-> ~ df).
  { rewrite <- Hdi. destruct (_check_dockerfile files); split; congruence. }
  assert (Hcn : ci = false <-> ~ gi).
  { rewrite <- Hci. destruct ci; split; congruence. }
  destruct (_check_tests files), (_check_dockerfile files), ci,
    (test_advice lang) as [adv|];
    try (destruct (Hadv adv eq_refl) as [Ha1 Ha2]);
    cbn [negb app length];
    (split; [repeat constructor; cbn [In]; intuition congruence|]);
    (split; [lia|]);
    (split; [intros a; cbn [In]; intuition (try congruence)
            | intuition (try congruence) ]).
Qed.

End Recommendations.

Lemma X24_recommendations_witness :
  In pipeline_note (RepositoryAnalyzer._generate_recommendations Cases.docker_stack Cases.docker_files)
  /\ exists a, test_advice "Go" = Some a
               /\ In a (RepositoryAnalyzer._generate_recommendations Cases.docker_stack
                          Cases.docker_files).
Proof.
  destruct (X24_recommendations Cases.docker_world Cases.docker_files (Some "/work")
              Cases.docker_stack eq_refl) as (_ & _ & Hin & _).
  split.
  - apply Hin. right. right. split; [reflexivity|].
    intros (f & Hf & Hc). cbn in Hf.
    repeat (destruct Hf as [<-|Hf]; [discriminate Hc|]). destruct Hf.
  - eexists. split; [reflexivity|]. apply Hin. left. split; reflexivity.
Defined.

(* ================================================================== *)
(** * Build tools in the pipeline *)
(* ================================================================== *)

Section Precedence.

Variable w : World.

Lemma has_build_tool : forall files tool names,
  (forall n, In n names -> dict_get build_tool_mapping n = Some tool) ->
  regular_file_named names files ->
  in_list tool (_detect_build_tools files) = true.
Proof.
  intros files tool names Hnames (f & Hin & Hf & Hn).
  apply in_list_In. unfold _detect_build_tools.
  apply sorted_In, build_tools_loop. right. exists f. split; [exact Hin|].
  unfold tool_of. rewrite Hf. apply Hnames, Hn.
Qed.

(** X25.  Which tool the pipeline uses when several manifests are listed.  A
    JavaScript or TypeScript project with a regular [package.json] installs
    with [npm ci], whether or not [yarn.lock] or [pnpm-lock.yaml] is there;
    [yarn] is used only without a [package.json].  A Java or Kotlin project
    with a regular [pom.xml] gets the Maven jobs, whether or not
    [build.gradle] is there; the Gradle jobs, and no [before_script], need
    a Gradle build file and no [pom.xml]. *)
Theorem X25_tool_precedence : forall (files : list file_info) (dir : option string)
    (ts : TechStack),
  detect_tech_stack w files dir = Ok ts ->
  let language := primary_language ts in
  let before := _generate_before_script language (build_tools ts) (frameworks ts) in
  let build := _generate_build_job language (build_tools ts) (frameworks ts) in
  let test := _generate_test_job language (build_tools ts) (frameworks ts) in
  (In language ["JavaScript"; "TypeScript"] ->
   (regular_file_named ["package.json"] files ->
    before = ["npm ci --cache .npm --prefer-offline"])
   /\ (~ regular_file_named ["package.json"] files ->
       regular_file_named ["yarn.lock"] files ->
       before = ["yarn install --frozen-lockfile --cache-folder .yarn"]))
  /\ (In language ["Java"; "Kotlin"] ->
      (regular_file_named ["pom.xml"] files ->
       build = _generate_build_job "Java" ["maven"] []
       /\ test = _generate_test_job "Java" ["maven"] []
       /\ before = ["mvn dependency:go-offline $MAVEN_CLI_OPTS"])
      /\ (~ regular_file_named ["pom.xml"] files ->
          regular_file_named ["build.gradle"; "build.gradle.kts"] files ->
          build = _generate_build_job "Java" ["gradle"] []
          /\ test = _generate_test_job "Java" ["gradle"] []
          /\ before = [])).
Proof.
  intros files dir ts Hts language before build test.
  destruct (detect_tech_stack_fields w files dir ts Hts)
    as (stats & vi & fw & _ & _ & _ & E).
  assert (Hb : build_tools ts = _detect_build_tools files) by (rewrite E; reflexivity).
  subst before build test. rewrite Hb.
  set (fws := frameworks ts). clearbody fws language. clear E Hb Hts.
  assert (Hone : forall name tool,
            dict_get build_tool_mapping name = Some tool ->
            forall n, In n [name] -> dict_get build_tool_mapping n = Some tool).
  { intros name tool H n [<-|[]]. exact H. }
  assert (Hnone : forall name tool,
            (forall n, In (n, tool) build_tool_mapping -> In n [name]) ->
            ~ regular_file_named [name] files ->
            in_list tool (_detect_build_tools files) = false).
  { intros name tool H Hno. exact (no_build_tool files tool [name] H Hno). }
  split.
  - intros Hlang. split.
    + intros Hp.
      pose proof (has_build_tool files "npm" ["package.json"]
                    (Hone "package.json" "npm" eq_refl) Hp) as Hnpm.
      unfold _generate_before_script. rewrite Hnpm.
      destruct Hlang as [<-|[<-|[]]]; reflexivity.
    + intros Hno Hy.
      assert (Hnpm : in_list "npm" (_detect_build_tools files) = false).
      { apply (Hnone "package.json" "npm"); [|exact Hno]. intros n Hn. cbn in Hn.
        repeat (destruct Hn as [Hn|Hn]; [inversion Hn; subst; cbn [In]; auto|]).
        contradiction. }
      pose proof (has_build_tool files "yarn" ["yarn.lock"]
                    (Hone "yarn.lock" "yarn" eq_refl) Hy) as Hyarn.
      unfold _generate_before_script. rewrite Hnpm, Hyarn.
      destruct Hlang as [<-|[<-|[]]]; reflexivity.
  - intros Hlang. split.
    + intros Hp.
      pose proof (has_build_tool files "maven" ["pom.xml"]
                    (Hone "pom.xml" "maven" eq_refl) Hp) as Hmaven.
      unfold _generate_build_job, _generate_test_job, _generate_before_script.
      rewrite Hmaven.
      destruct Hlang as [<-|[<-|[]]]; repeat split; reflexivity.
    + intros Hno Hg.
      assert (Hmaven : in_list "maven" (_detect_build_tools files) = false).
      { apply (Hnone "pom.xml" "maven"); [|exact Hno]. intros n Hn. cbn in Hn.
        repeat (destruct Hn as [Hn|Hn]; [inversion Hn; subst; cbn [In]; auto|]).
        contradiction. }
      assert (Hgradle : in_list "gradle" (_detect_build_tools files) = true).
      { apply (has_build_tool files "gradle" ["build.gradle"; "build.gradle.kts"]);
          [|exact Hg].
        intros n [<-|[<-|[]]]; reflexivity. }
      unfold _generate_build_job, _generate_test_job, _generate_before_script.
      rewrite Hmaven, Hgradle.
      destruct Hlang as [<-|[<-|[]]]; repeat split; reflexivity.
Qed.

End Precedence.

Lemma X25_tool_precedence_witness :
  regular_file_named ["package.json"] Cases.js_files
  /\ _generate_before_script "JavaScript" ["npm"] []
     = ["npm ci --cache .npm --prefer-offline"].
Proof.
  assert (H : regular_file_named ["package.json"] Cases.js_files).
  { exists (Samples.a_file "package.json" "/package.json" ".json").
    split; [cbn; tauto|]. split; [reflexivity | cbn; tauto]. }
  split; [exact H|].
  destruct (X25_tool_precedence Cases.js_world Cases.js_files (Some "/work")
              Cases.js_stack eq_refl) as (Hjs & _).
  destruct (Hjs (or_introl eq_refl)) as (Hnpm & _).
  exact (Hnpm H).
Defined.

(* ================================================================== *)
(** * Python versions *)
(* ================================================================== *)

Section PythonVersion.

Variable w : World.













End PythonVersion.


(* ================================================================== *)
(** * Java versions of Gradle *)
(* ================================================================== *)

Section GradleVersion.

Variable w : World.


















End GradleVersion.

